(** * Location analysis and scoring engine ([GISService.analyzeLocation])

    A shallow embedding of [analyzeLocation] of the GIS analysis service
    (the variant that asks Mapbox for a walking isochrone and falls back
    to a 1000 m buffer) and the properties of its scoring, aggregation
    and error handling.

    The service is one asynchronous function over three collaborators:
    the PostGIS store behind [pool.query], the routing service behind
    [fetch], and the environment.  Here the collaborators are a value
    of type [World]; the SQL text of each query is a function over the
    relations of the store and the spatial primitives of [PostGIS]; the
    function itself runs in [Async], which records the external calls
    and carries the message of a thrown exception.

    Numbers.  JavaScript numbers are IEEE-754 doubles; here a finite
    number is an exact rational ([Q]), so the arithmetic laws below are
    those of the formulas as written, without binary rounding
    ([Binary64] replays the scoring formulas on doubles for concrete
    inputs).  The one place where the source can produce a non-finite
    number (the percent divisions) keeps [NaN] and [Infinity] explicit,
    see [JsNumber].  Lengths and counts are [nat], values of
    [Math.round] are [Z].

    Around the analysis.  The development also covers what is done
    with a result: the in-memory store of [analysisStore.js], the model
    [SurveyResult] ([create], [findById]) over a state made of the
    relation of saved results, the sequence of its [gid] and that
    store, and the routes [analyzeSurvey] and [getSurveyResult]; and
    the scoring function of the radius variant of the service
    ([RadiusService]). *)

From Stdlib Require Import ZArith QArith Qround Qminmax Qabs.
From Stdlib Require Import List String Ascii Bool Arith Lia Lqa Permutation.
From Stdlib Require Import DecimalString DecimalPos DecimalZ PrimFloat Sorted.
Import ListNotations.

Local Open Scope Q_scope.

(** ** JavaScript numeric primitives *)

Module JS.

(** [Math.round]: the nearest integer, halves towards +infinity. *)
Definition Math_round (x : Q) : Z := Qfloor (x + (1 # 2)).

Definition Math_min (a b : Q) : Q := if Qle_bool a b then a else b.
Definition Math_max (a b : Q) : Q := if Qle_bool a b then b else a.

Definition pow10 (d : nat) : Q := inject_Z (10 ^ Z.of_nat d).

(** [parseFloat(x.toFixed(d))] on a finite number: [toFixed] takes the
    integer [n] with [n / 10^d] closest to [|x|], the larger one on a
    tie, and keeps the sign; from 1e21 on it prints the number as it
    is. *)
Definition toFixed (d : nat) (x : Q) : Q :=
  if Qle_bool (inject_Z (10 ^ 21)) (Qabs x) then x
  else if Qle_bool 0 x
       then inject_Z (Qfloor (x * pow10 d + (1 # 2))) / pow10 d
       else - (inject_Z (Qfloor ((- x) * pow10 d + (1 # 2))) / pow10 d).

(** [a > b] *)
Definition gtb (a b : Q) : bool := negb (Qle_bool a b).

(** A number that may be non-finite: the result of a division whose
    divisor is not known to be non-zero. *)
Inductive JsNumber : Type :=
| Num (q : Q)
| NaN
| Infinity
| NegInfinity.

(** [a / b] *)
Definition div (a b : Q) : JsNumber :=
  if Qeq_bool b 0
  then (if Qeq_bool a 0 then NaN
        else if Qle_bool 0 a then Infinity else NegInfinity)
  else Num (a / b).

(** A finite operation applied to a possibly non-finite operand:
    [NaN * 100], [NaN.toFixed(2)] and [parseFloat("NaN")] stay [NaN],
    likewise for the infinities (the factor and the digits are
    positive). *)
Definition lift (f : Q -> Q) (x : JsNumber) : JsNumber :=
  match x with
  | Num q => Num (f q)
  | other => other
  end.

Definition isFinite (x : JsNumber) : bool :=
  match x with Num _ => true | _ => false end.

(** [!s] on a value that is a string or [undefined]. *)
Definition falsy (s : option string) : bool :=
  match s with
  | None => true
  | Some s => String.eqb s EmptyString
  end.

(** Number of a length or a count. *)
Definition ofNat (n : nat) : Q := inject_Z (Z.of_nat n).

End JS.

Import JS.

(** ** Constants of the service *)

Definition ISO_MINUTES : Z := 10%Z.
Definition DENOISE : Z := 1%Z.
Definition FALLBACK_WALK_BUFFER_M : Q := 1000.
Definition SUPPORTIVE_CATEGORIES : list string :=
  ["Retail"; "Health And Medical"; "Accommodation"]%string.

(** [Array.prototype.includes] on strings *)
Definition includes (l : list string) (s : string) : bool :=
  existsb (String.eqb s) l.

(** ** Step 7: the development score *)

(** What [getNearestFeature] returns for a table with a nearest row. *)
Record NearestFeature : Type := {
  distance_m : Q;
  nf_lat : Q;
  nf_lon : Q
}.

Definition poiScore (totalPois : nat) : Q :=
  Math_min 30 ((ofNat totalPois / 100) * 30).

(** One [if (data) score += Math.max(0, cap - data.distance_m / 1000)]. *)
Definition addAmenity (cap : Q) (data : option NearestFeature) (score : Q) : Q :=
  match data with
  | Some d => score + Math_max 0 (cap - distance_m d / 1000)
  | None => score
  end.

Definition amenityScore (policeData hospitalData roadData : option NearestFeature) : Q :=
  let score := 0 in
  let score := addAmenity 10 policeData score in
  let score := addAmenity 10 hospitalData score in
  let score := addAmenity 5 roadData score in
  Math_min 25 score.

Definition ftlScore (ftlPercentage : Z) : Q :=
  if Z.eqb ftlPercentage 0 then 20
  else Math_max 0 (20 - inject_Z ftlPercentage / 5).

Definition businessScore (supportiveTotal : nat) : Q :=
  Math_min 15 ((ofNat supportiveTotal / 20) * 15).

Definition accessibilityScore (categoryCount : nat) : Q :=
  Math_min 10 ((ofNat categoryCount / 15) * 10).

Definition developmentScore (poi amenity ftl business accessibility : Q) : Z :=
  Math_round (poi + amenity + ftl + business + accessibility).

Record ScoreBreakdown : Type := {
  poi_score : Q;
  amenity_score : Q;
  ftl_score : Q;
  business_score : Q;
  accessibility_score : Q
}.

Definition scoreBreakdown (poi amenity ftl business accessibility : Q) : ScoreBreakdown :=
  {| poi_score := Math_min 30 (toFixed 1 poi);
     amenity_score := Math_min 25 (toFixed 1 amenity);
     ftl_score := Math_min 20 (toFixed 1 ftl);
     business_score := Math_min 15 (toFixed 1 business);
     accessibility_score := Math_min 10 (toFixed 1 accessibility) |}.

(** ** Step 6: hazard (FTL) overlap threshold *)

(** The row of the aggregate query: [COALESCE(SUM(..), 0)] and
    [MAX(total_area)], the latter NULL when no tank intersects. *)
Record FtlRow : Type := {
  total_intersection : Q;
  isochrone_area : option Q
}.

Definition rawPercentage (ti area : Q) : Q := (ti / area) * 100.

Definition ftlPercentage (rows : list FtlRow) : Z :=
  match rows with
  | [] => 0%Z
  | r :: _ =>
      match isochrone_area r with
      | Some area =>
          if gtb area 0
          then (let raw := rawPercentage (total_intersection r) area in
                if gtb raw 9 then Math_round raw else 0%Z)
          else 0%Z
      | None => 0%Z
      end
  end.

(** ** GeoJSON values and the collaborators of the service *)

(** A [coordinates] member: nested arrays of numbers. *)
#[warnings="-register-all"]
Inductive Coordinates : Type :=
| CNum (q : Q)
| CArr (l : list Coordinates).

(** A GeoJSON geometry object as the service handles it: it only ever
    reads [type]; [JSON.stringify] and [JSON.parse] carry the object
    between the service and the store unchanged. *)
Record GeoJSON : Type := {
  type : string;
  coordinates : Coordinates
}.

(** The spatial primitives of the store that the SQL text of the
    service calls.  They are the store's, not the service's: the
    service is verified against any implementation of them.  They are
    total: the geometries of the relations are not NULL, and the store
    reads back every GeoJSON geometry that the service hands to it. *)
Class PostGIS : Type := {
  geometry : Type;
  geography : Type;
  ST_X : geometry -> Q;
  ST_Y : geometry -> Q;
  ST_AsGeoJSON : geometry -> GeoJSON;
  ST_GeomFromGeoJSON : GeoJSON -> geometry;
  ST_Transform : geometry -> Z -> geometry;
  ST_Buffer : geometry -> Q -> geometry;
  ST_Intersects : geometry -> geometry -> bool;
  (** the [<->] operator *)
  knn_distance : geometry -> geometry -> Q;
  (** the [::geography] cast *)
  to_geography : geometry -> geography;
  ST_Distance : geography -> geography -> Q;
  ST_Area : geography -> Q;
  ST_Intersection : geography -> geography -> geography
}.

(** The request of the isochrone URL: the path and query parameters
    that the template string fills in. *)
Record IsoRequest : Type := {
  req_longitude : Q;
  req_latitude : Q;
  contours_minutes : Z;
  denoise : Z;
  access_token : string
}.

Record Feature : Type := {
  (** [features[0].geometry], [None] when the member is missing *)
  f_geometry : option GeoJSON
}.

Record IsoData : Type := {
  (** [isoData.features], [None] when it is missing or null *)
  features : option (list Feature)
}.

Record Response : Type := {
  ok : bool;
  status : Z;
  (** [await isoResponse.text()] *)
  text : string;
  (** [await isoResponse.json()], [None] when the body does not parse *)
  json : option IsoData
}.

Inductive FetchOutcome : Type :=
| NetworkError (message : string)
| Responded (r : Response).

(** ** Effects: queries, requests and exceptions *)

Inductive Sql : Type :=
| SelectCentroid (village surveyno : string)
| SelectBuffer (radius : Q) (village surveyno : string)
| SelectPois (iso : GeoJSON)
| SelectNearest (tableName village surveyno : string)
| SelectFtl (iso : GeoJSON)
| SelectTanksGeometry (iso : GeoJSON).

Inductive Effect : Type :=
| PoolQuery (q : Sql)
| Fetch (r : IsoRequest).

(** An awaited computation: the external calls it made, in order, and
    either the [message] of the exception that ended it or its value. *)
Definition Async (A : Type) : Type := (list Effect * (string + A))%type.

Definition ret {A} (a : A) : Async A := ([], inr a).

Definition throw {A} (message : string) : Async A := ([], inl message).

Definition perform (e : Effect) : Async unit := ([e], inr tt).

Definition bind {A B} (m : Async A) (k : A -> Async B) : Async B :=
  match m with
  | (t, inl e) => (t, inl e)
  | (t, inr a) => let (t', r) := k a in (t ++ t', r)
  end.

(** [try { m } catch (error) { handler(error.message) }] *)
Definition try_catch {A} (m : Async A) (handler : string -> Async A) : Async A :=
  match m with
  | (t, inl e) => let (t', r) := handler e in (t ++ t', r)
  | (t, inr a) => (t, inr a)
  end.

Definition lift_result {A} (r : string + A) : Async A := ([], r).

Declare Scope async_scope.
Delimit Scope async_scope with async.
Notation "x <- m ;; k" := (bind m (fun x => k))
  (at level 61, m at next level, right associativity) : async_scope.
Notation "m ;;; k" := (bind m (fun _ => k))
  (at level 61, right associativity) : async_scope.

Definition trace {A} (m : Async A) : list Effect := fst m.
Definition outcome {A} (m : Async A) : string + A := snd m.

(** ** Step 4: POI aggregation *)

Record Location : Type := {
  lat : Q;
  lon : Q
}.

(** A row of the POI query; [category] is NULL for an unlabeled POI. *)
Record PoiRow : Type := {
  poi_category : option string;
  poi_lat : Q;
  poi_lon : Q
}.

(** The object [categoryMap]: its own properties in insertion order. *)
Definition CategoryMap : Type := list (string * list Location).

(** The property key that [categoryMap[poi.category]] uses: the label,
    or the string [null] for a NULL label. *)
Definition propertyKey (category : option string) : string :=
  match category with
  | Some s => s
  | None => "null"%string
  end.

(** The properties that [{}] inherits from [Object.prototype]; each is
    a function or an object, so it is truthy and has no [push]. *)
Definition objectPrototypeKeys : list string :=
  ["constructor"; "__proto__"; "hasOwnProperty"; "isPrototypeOf";
   "propertyIsEnumerable"; "toLocaleString"; "toString"; "valueOf";
   "__defineGetter__"; "__defineSetter__"; "__lookupGetter__";
   "__lookupSetter__"]%string.

Fixpoint ownProperty (m : CategoryMap) (key : string) : option (list Location) :=
  match m with
  | [] => None
  | (k, ls) :: m' => if String.eqb k key then Some ls else ownProperty m' key
  end.

(** [categoryMap[key].push(loc)] on an own property *)
Fixpoint push (m : CategoryMap) (key : string) (loc : Location) : CategoryMap :=
  match m with
  | [] => []
  | (k, ls) :: m' =>
      if String.eqb k key then (k, ls ++ [loc]) :: m'
      else (k, ls) :: push m' key loc
  end.

(** The body of the [forEach] callback. *)
Definition addPoi (m : CategoryMap) (poi : PoiRow) : string + CategoryMap :=
  let key := propertyKey (poi_category poi) in
  let loc := {| lat := poi_lat poi; lon := poi_lon poi |} in
  match ownProperty m key with
  | Some _ => inr (push m key loc)
  | None =>
      if includes objectPrototypeKeys key
      then inl "categoryMap[poi.category].push is not a function"%string
      else inr (push (m ++ [(key, [])]) key loc)
  end.

Fixpoint forEachPoi (m : CategoryMap) (rows : list PoiRow) : string + CategoryMap :=
  match rows with
  | [] => inr m
  | poi :: rest =>
      match addPoi m poi with
      | inl e => inl e
      | inr m' => forEachPoi m' rest
      end
  end.

(** Stable sort by insertion: [x] goes in front of the first element
    that it may precede. *)
Fixpoint insertBy {A} (before : A -> A -> bool) (x : A) (l : list A) : list A :=
  match l with
  | [] => [x]
  | y :: l' => if before x y then x :: l else y :: insertBy before x l'
  end.

Definition stableSort {A} (before : A -> A -> bool) (l : list A) : list A :=
  fold_right (insertBy before) [] l.

Definition digitValue (c : ascii) : option N :=
  let n := N_of_ascii c in
  if (48 <=? n)%N && (n <=? 57)%N then Some (n - 48)%N else None.

Fixpoint digitsValue (s : string) (acc : N) : option N :=
  match s with
  | EmptyString => Some acc
  | String c s' =>
      match digitValue c with
      | Some d => digitsValue s' (10 * acc + d)%N
      | None => None
      end
  end.

(** A key is an array index when it is the canonical decimal form of an
    integer below 2^32 - 1. *)
Definition arrayIndex (s : string) : option N :=
  match s with
  | EmptyString => None
  | String c rest =>
      if Ascii.eqb c "0"%char
      then (match rest with EmptyString => Some 0%N | _ => None end)
      else match digitsValue s 0 with
           | Some n => if (n <=? 4294967294)%N then Some n else None
           | None => None
           end
  end.

Definition isArrayIndex (s : string) : bool :=
  match arrayIndex s with Some _ => true | None => false end.

Definition indexOf (s : string) : N :=
  match arrayIndex s with Some n => n | None => 0%N end.

(** The own properties in the order of [Object.keys]: array indices
    ascending, then the other keys in insertion order. *)
Definition ownEntries (m : CategoryMap) : CategoryMap :=
  stableSort (fun a b => (indexOf (fst a) <=? indexOf (fst b))%N)
             (filter (fun e => isArrayIndex (fst e)) m)
  ++ filter (fun e => negb (isArrayIndex (fst e))) m.

Definition Object_keys (m : CategoryMap) : list string := map fst (ownEntries m).

Record CategoryAggregate : Type := {
  category : string;
  count : nat;
  percent : JsNumber;
  locations : list Location
}.

(** [parseFloat(((n / total) * 100).toFixed(2))] *)
Definition percentOf (n total : nat) : JsNumber :=
  lift (fun q => toFixed 2 (q * 100)) (JS.div (ofNat n) (ofNat total)).

(** [.sort((a, b) => b.count - a.count)]: [a] stays in front of [b]
    unless [b.count - a.count] is positive. *)
Definition byCountDesc (a b : CategoryAggregate) : bool := (count b <=? count a)%nat.

Definition poiBreakdown (categoryMap : CategoryMap) (totalPois : nat) : list CategoryAggregate :=
  stableSort byCountDesc
    (map (fun e : string * list Location =>
            {| category := fst e;
               count := List.length (snd e);
               percent := percentOf (List.length (snd e)) totalPois;
               locations := snd e |})
         (ownEntries categoryMap)).

Record SupportiveBusiness : Type := {
  sb_category : string;
  sb_count : nat;
  sb_percent : JsNumber
}.

(** [.reduce((sum, i) => sum + i.count, 0)] *)
Definition sumCounts {A} (f : A -> nat) (l : list A) : nat :=
  fold_left (fun sum i => (sum + f i)%nat) l 0%nat.

Definition isSupportive (item : CategoryAggregate) : bool :=
  includes SUPPORTIVE_CATEGORIES (category item).

Definition supportiveBusinesses (poiBreakdown : list CategoryAggregate) : list SupportiveBusiness :=
  map (fun item =>
         let supportiveTotal := sumCounts count (filter isSupportive poiBreakdown) in
         {| sb_category := category item;
            sb_count := count item;
            sb_percent := percentOf (count item) supportiveTotal |})
      (filter isSupportive poiBreakdown).

(** ** The analysis result *)

(** The [json_build_object] of the tank query; [features] is the
    [json_agg], NULL when no tank intersects. *)
Record FeatureCollection : Type := {
  fc_features : option (list GeoJSON)
}.

Record MapData : Type := {
  isochrone_geometry : GeoJSON;
  poi_locations : list CategoryAggregate;
  nearest_police : option NearestFeature;
  nearest_hospital : option NearestFeature;
  nearest_road : option NearestFeature;
  tanks_geometry : option FeatureCollection
}.

Record AnalysisResult : Type := {
  village : string;
  survey_number : string;
  latitude : Q;
  longitude : Q;
  total_pois : nat;
  poi_breakdown : list CategoryAggregate;
  distance_to_police : option Q;
  distance_to_hospital : option Q;
  distance_to_main_road : option Q;
  supportive_businesses : list SupportiveBusiness;
  ftl_zone_percentage : Z;
  development_score : Z;
  score_breakdown : ScoreBreakdown;
  used_fallback : bool;
  analysis_date : string;
  map_data : MapData
}.

(** What [analyzeLocation] resolves to: the full result, or an object
    with the single member [error]. *)
Inductive Returned : Type :=
| Analysis (result : AnalysisResult)
| ErrorObject (error : string).

(** Rows of the queries. *)
Record SurveyRow : Type := {
  sr_longitude : Q;
  sr_latitude : Q;
  geom_json : GeoJSON
}.

Record BufferRow : Type := {
  buffer_geom : GeoJSON
}.

Record NearestRow : Type := {
  dist_m : Q;
  nr_lat : Q;
  nr_lon : Q
}.

Record TanksRow : Type := {
  geojson : option FeatureCollection
}.

Definition doubleQuote : string := String "034"%char EmptyString.

(** Reading a table: the query is rejected when the relation does not
    exist. *)
Definition relation {A} (name : string) (table : option (list A)) : string + list A :=
  match table with
  | Some rows => inr rows
  | None => inl ("relation " ++ doubleQuote ++ name ++ doubleQuote ++ " does not exist")%string
  end.

Definition mapRows {A B} (f : A -> B) (r : string + A) : string + B :=
  match r with
  | inl e => inl e
  | inr a => inr (f a)
  end.

(** [await pool.query(sql, params)] *)
Definition poolQuery {A} (q : Sql) (rows : string + list A) : Async (list A) :=
  bind (perform (PoolQuery q)) (fun _ => lift_result rows).

(** [MAX] over a column: NULL on no rows. *)
Fixpoint maxOf (l : list Q) : option Q :=
  match l with
  | [] => None
  | x :: l' =>
      match maxOf l' with
      | Some y => Some (Math_max x y)
      | None => Some x
      end
  end.

(** [SUM] over a column, under [COALESCE(.., 0)]. *)
Definition sumOf (l : list Q) : Q := fold_right Qplus 0 l.

Definition validTables : list string :=
  ["ts_policestations"; "ts_hospitals"; "ts_main_roads"]%string.

(** [data ? parseFloat((data.distance_m / 1000).toFixed(3)) : null] *)
Definition distanceKm (data : option NearestFeature) : option Q :=
  match data with
  | Some d => Some (toFixed 3 (distance_m d / 1000))
  | None => None
  end.

Definition tanksGeoJSON (rows : list TanksRow) : option FeatureCollection :=
  match rows with
  | [] => None
  | row :: _ => geojson row
  end.

(** Steps 4 to 8 on the answers of the queries: the aggregates, the
    scores and the returned object. *)
Definition buildResult (village surveyNumber : string) (longitude latitude : Q)
           (isoGeometry : GeoJSON) (usedFallback : bool)
           (poiResult : list PoiRow) (categoryMap : CategoryMap)
           (policeData hospitalData roadData : option NearestFeature)
           (ftlResult : list FtlRow) (tanksGeometry : list TanksRow)
           (analysisDate : string) : AnalysisResult :=
  let totalPois := List.length poiResult in
  let poiBreakdown := poiBreakdown categoryMap totalPois in
  let supportiveBusinesses := supportiveBusinesses poiBreakdown in
  let ftlPercentage := ftlPercentage ftlResult in
  let tanksGeoJSON := tanksGeoJSON tanksGeometry in
  let poiScore := poiScore totalPois in
  let amenityScore := amenityScore policeData hospitalData roadData in
  let ftlScore := ftlScore ftlPercentage in
  let supportiveTotal := sumCounts sb_count supportiveBusinesses in
  let businessScore := businessScore supportiveTotal in
  let categoryCount := List.length (Object_keys categoryMap) in
  let accessibilityScore := accessibilityScore categoryCount in
  let developmentScore :=
    developmentScore poiScore amenityScore ftlScore businessScore accessibilityScore in
  let scoreBreakdown :=
    scoreBreakdown poiScore amenityScore ftlScore businessScore accessibilityScore in
  {| village := village;
     survey_number := surveyNumber;
     latitude := latitude;
     longitude := longitude;
     total_pois := totalPois;
     poi_breakdown := poiBreakdown;
     distance_to_police := distanceKm policeData;
     distance_to_hospital := distanceKm hospitalData;
     distance_to_main_road := distanceKm roadData;
     supportive_businesses := supportiveBusinesses;
     ftl_zone_percentage := ftlPercentage;
     development_score := developmentScore;
     score_breakdown := scoreBreakdown;
     used_fallback := usedFallback;
     analysis_date := analysisDate;
     map_data :=
       {| isochrone_geometry := isoGeometry;
          poi_locations := poiBreakdown;
          nearest_police := policeData;
          nearest_hospital := hospitalData;
          nearest_road := roadData;
          tanks_geometry := tanksGeoJSON |} |}.

(** ** The store, the environment and the service *)

Section Service.

Context {gis : PostGIS}.

Record Centroid : Type := {
  c_village : string;
  c_surveyno : string;
  c_geom : geometry
}.

Record Poi : Type := {
  p_category : option string;
  p_geom : geometry
}.

(** The relations that the service reads; [None] is a relation that
    does not exist in the schema. *)
Record Database : Type := {
  ts_warangal_survey_centroids : option (list Centroid);
  ts_overture_poi_3 : option (list Poi);
  ts_policestations : option (list geometry);
  ts_hospitals : option (list geometry);
  ts_main_roads : option (list geometry);
  ts_tanks : option (list geometry)
}.

(** Everything outside the service that one call reads. *)
Record World : Type := {
  pool : Database;
  (** [process.env.MAPBOX_TOKEN] *)
  MAPBOX_TOKEN : option string;
  (** the routing service behind [fetch] *)
  fetch : IsoRequest -> FetchOutcome;
  (** [new Date().toISOString()] *)
  now : string
}.

(** [WHERE village = $1 AND surveyno = $2 LIMIT 1] *)
Definition surveyCentroid (db : Database) (village surveyno : string) : string + list Centroid :=
  mapRows
    (fun rows =>
       firstn 1 (filter (fun c => String.eqb (c_village c) village
                                  && String.eqb (c_surveyno c) surveyno) rows))
    (relation "ts_warangal_survey_centroids" (ts_warangal_survey_centroids db)).

(** Step 1 query. *)
Definition selectCentroid (db : Database) (village surveyno : string) : string + list SurveyRow :=
  mapRows
    (map (fun c => {| sr_longitude := ST_X (c_geom c);
                      sr_latitude := ST_Y (c_geom c);
                      geom_json := ST_AsGeoJSON (c_geom c) |}))
    (surveyCentroid db village surveyno).

(** Fallback query: the buffer is taken in SRID 32643 (metres) and
    brought back to SRID 4326. *)
Definition selectBuffer (db : Database) (radius : Q) (village surveyno : string)
  : string + list BufferRow :=
  mapRows
    (map (fun c =>
            {| buffer_geom :=
                 ST_AsGeoJSON
                   (ST_Transform
                      (ST_Buffer (ST_Transform (c_geom c) 32643) radius)
                      4326) |}))
    (surveyCentroid db village surveyno).

(** Step 3 query. *)
Definition selectPois (db : Database) (iso : GeoJSON) : string + list PoiRow :=
  mapRows
    (fun rows =>
       map (fun p => {| poi_category := p_category p;
                        poi_lat := ST_Y (p_geom p);
                        poi_lon := ST_X (p_geom p) |})
           (filter (fun p => ST_Intersects (p_geom p) (ST_GeomFromGeoJSON iso)) rows))
    (relation "ts_overture_poi_3" (ts_overture_poi_3 db)).

Definition facilityTable (db : Database) (tableName : string) : option (list geometry) :=
  if String.eqb tableName "ts_policestations" then ts_policestations db
  else if String.eqb tableName "ts_hospitals" then ts_hospitals db
  else if String.eqb tableName "ts_main_roads" then ts_main_roads db
  else None.

(** [ORDER BY s.geom <-> geom LIMIT 1] *)
Definition nearestTo (s : geometry) (table : list geometry) : list geometry :=
  firstn 1 (stableSort (fun a b => Qle_bool (knn_distance s a) (knn_distance s b)) table).

(** Step 5 query: the survey row joined with its nearest feature. *)
Definition selectNearest (db : Database) (tableName village surveyno : string)
  : string + list NearestRow :=
  match surveyCentroid db village surveyno with
  | inl e => inl e
  | inr survey =>
      mapRows
        (fun table =>
           flat_map
             (fun s =>
                map (fun f =>
                       {| dist_m := ST_Distance (to_geography (c_geom s)) (to_geography f);
                          nr_lat := ST_Y f;
                          nr_lon := ST_X f |})
                    (nearestTo (c_geom s) table))
             survey)
        (relation tableName (facilityTable db tableName))
  end.

(** The tanks that intersect the isochrone. *)
Definition intersectingTanks (iso : GeoJSON) (tanks : list geometry) : list geometry :=
  filter (fun t => ST_Intersects (ST_GeomFromGeoJSON iso) t) tanks.

(** Step 6 query: one aggregate row. *)
Definition selectFtl (db : Database) (iso : GeoJSON) : string + list FtlRow :=
  mapRows
    (fun tanks =>
       let g := to_geography (ST_GeomFromGeoJSON iso) in
       let intersections :=
         map (fun t => (ST_Area (ST_Intersection g (to_geography t)), ST_Area g))
             (intersectingTanks iso tanks) in
       [ {| total_intersection := sumOf (map fst intersections);
            isochrone_area := maxOf (map snd intersections) |} ])
    (relation "ts_tanks" (ts_tanks db)).

(** The tank geometries for the map: one aggregate row. *)
Definition selectTanksGeometry (db : Database) (iso : GeoJSON) : string + list TanksRow :=
  mapRows
    (fun tanks =>
       let hit := intersectingTanks iso tanks in
       [ {| geojson :=
              Some {| fc_features :=
                        match hit with
                        | [] => None
                        | _ => Some (map ST_AsGeoJSON hit)
                        end |} |} ])
    (relation "ts_tanks" (ts_tanks db)).

Local Open Scope async_scope.
Local Open Scope string_scope.

(** The body of the inner [try]: the request to the routing service and
    the validation of its answer. *)
Definition requestIsochrone (w : World) (longitude latitude : Q) (token : string)
  : Async GeoJSON :=
  let isoUrl := {| req_longitude := longitude;
                   req_latitude := latitude;
                   contours_minutes := ISO_MINUTES;
                   denoise := DENOISE;
                   access_token := token |} in
  perform (Fetch isoUrl) ;;;
  match fetch w isoUrl with
  | NetworkError message => throw message
  | Responded isoResponse =>
      if negb (ok isoResponse)
      then throw ("Mapbox API error: "
                  ++ NilZero.string_of_int (Z.to_int (status isoResponse))
                  ++ " - " ++ text isoResponse)
      else
        match json isoResponse with
        | None => throw "Unexpected token in JSON"
        | Some isoData =>
            match features isoData with
            | Some (feature :: _) =>
                match f_geometry feature with
                | None => throw "Cannot read properties of undefined (reading 'type')"
                | Some isoGeometry =>
                    if String.eqb (type isoGeometry) "Polygon"
                       || String.eqb (type isoGeometry) "MultiPolygon"
                    then ret isoGeometry
                    else throw ("Unexpected geometry type: " ++ type isoGeometry)
                end
            | _ => throw "No isochrone data returned"
            end
        end
  end.

(** The body of the inner [catch]: the 1000 m buffer. *)
Definition bufferFallback (w : World) (village surveyNumber : string) : Async GeoJSON :=
  bufferResult <- poolQuery (SelectBuffer FALLBACK_WALK_BUFFER_M village surveyNumber)
                            (selectBuffer (pool w) FALLBACK_WALK_BUFFER_M village surveyNumber) ;;
  match bufferResult with
  | row :: _ => ret (buffer_geom row)
  | [] => throw "Cannot read properties of undefined (reading 'buffer_geom')"
  end.

(** Step 2: [isoGeometry] and [usedFallback]. *)
Definition resolveIsochrone (w : World) (village surveyNumber : string)
           (longitude latitude : Q) (token : string) : Async (GeoJSON * bool) :=
  try_catch
    (isoGeometry <- requestIsochrone w longitude latitude token ;;
     ret (isoGeometry, false))
    (fun _ =>
       isoGeometry <- bufferFallback w village surveyNumber ;;
       ret (isoGeometry, true)).

Definition getNearestFeature (w : World) (village surveyNumber tableName : string)
  : Async (option NearestFeature) :=
  if negb (includes validTables tableName)
  then throw ("Invalid table name: " ++ tableName)
  else
    result <- poolQuery (SelectNearest tableName village surveyNumber)
                        (selectNearest (pool w) tableName village surveyNumber) ;;
    match result with
    | [] => ret None
    | row :: _ =>
        ret (Some {| distance_m := dist_m row; nf_lat := nr_lat row; nf_lon := nr_lon row |})
    end.

(** Steps 3 to 8, once the isochrone geometry is known: the queries in
    the order of the source, then the result. *)
Definition analyzeIsochrone (w : World) (village surveyNumber : string)
           (longitude latitude : Q) (isoGeometry : GeoJSON) (usedFallback : bool)
  : Async Returned :=
  poiResult <- poolQuery (SelectPois isoGeometry) (selectPois (pool w) isoGeometry) ;;
  categoryMap <- lift_result (forEachPoi [] poiResult) ;;
  policeData <- getNearestFeature w village surveyNumber "ts_policestations" ;;
  hospitalData <- getNearestFeature w village surveyNumber "ts_hospitals" ;;
  roadData <- getNearestFeature w village surveyNumber "ts_main_roads" ;;
  ftlResult <- poolQuery (SelectFtl isoGeometry) (selectFtl (pool w) isoGeometry) ;;
  tanksGeometry <- poolQuery (SelectTanksGeometry isoGeometry)
                             (selectTanksGeometry (pool w) isoGeometry) ;;
  ret (Analysis
         (buildResult village surveyNumber longitude latitude isoGeometry usedFallback
                      poiResult categoryMap policeData hospitalData roadData
                      ftlResult tanksGeometry (now w))).

Definition notFoundMessage : string :=
  "No matching survey centroid found. Check village and survey number.".

Definition tokenMessage : string :=
  "Mapbox token not configured. Please set MAPBOX_TOKEN in environment variables.".

(** The body of the outer [try]. *)
Definition analyze (w : World) (village surveyNumber : string) : Async Returned :=
  surveyResult <- poolQuery (SelectCentroid village surveyNumber)
                            (selectCentroid (pool w) village surveyNumber) ;;
  match surveyResult with
  | [] => ret (ErrorObject notFoundMessage)
  | survey :: _ =>
      let latitude := sr_latitude survey in
      let longitude := sr_longitude survey in
      if falsy (MAPBOX_TOKEN w) then throw tokenMessage
      else
        let token := match MAPBOX_TOKEN w with Some t => t | None => EmptyString end in
        iso <- resolveIsochrone w village surveyNumber longitude latitude token ;;
        analyzeIsochrone w village surveyNumber longitude latitude (fst iso) (snd iso)
  end.

(** [analyzeLocation]: the outer [catch] turns every exception into an
    error object. *)
Definition analyzeLocation (w : World) (village surveyNumber : string) : Async Returned :=
  try_catch (analyze w village surveyNumber)
    (fun message =>
       ret (ErrorObject (if String.eqb message EmptyString
                         then "GIS analysis failed" else message))).

End Service.

Arguments Centroid {gis}.
Arguments Poi {gis}.
Arguments Database {gis}.
Arguments World {gis}.

(** ** A small planar store, for running the service

    Points and axis-parallel boxes in a metric plane, with the maximum
    norm: the buffer of a point is a box, and every primitive is a
    rational computation.  Projections are the identity. *)

Module Planar.

Inductive Shape : Type :=
| Pt (x y : Q)
| Box (x1 y1 x2 y2 : Q)
| Nothing.

Definition bounds (g : Shape) : option (Q * Q * Q * Q) :=
  match g with
  | Pt x y => Some (x, y, x, y)
  | Box x1 y1 x2 y2 => Some (x1, y1, x2, y2)
  | Nothing => None
  end.

Definition position (x y : Q) : Coordinates := CArr [CNum x; CNum y].

Definition asGeoJSON (g : Shape) : GeoJSON :=
  match g with
  | Pt x y => {| type := "Point"; coordinates := position x y |}
  | Box x1 y1 x2 y2 =>
      {| type := "Polygon";
         coordinates :=
           CArr [CArr [position x1 y1; position x2 y1; position x2 y2;
                       position x1 y2; position x1 y1]] |}
  | Nothing => {| type := "GeometryCollection"; coordinates := CArr [] |}
  end.

Definition fromGeoJSON (j : GeoJSON) : Shape :=
  match coordinates j with
  | CArr [CNum x; CNum y] => Pt x y
  | CArr [CArr (CArr [CNum x1; CNum y1] :: _ :: CArr [CNum x2; CNum y2] :: _)] =>
      Box x1 y1 x2 y2
  | _ => Nothing
  end.

Definition buffer (g : Shape) (r : Q) : Shape :=
  match bounds g with
  | Some (x1, y1, x2, y2) => Box (Qred (x1 - r)) (Qred (y1 - r)) (Qred (x2 + r)) (Qred (y2 + r))
  | None => Nothing
  end.

Definition intersection (a b : Shape) : Shape :=
  match bounds a, bounds b with
  | Some (a1, b1, a2, b2), Some (c1, d1, c2, d2) =>
      let x1 := Math_max a1 c1 in
      let y1 := Math_max b1 d1 in
      let x2 := Math_min a2 c2 in
      let y2 := Math_min b2 d2 in
      if Qle_bool x1 x2 && Qle_bool y1 y2 then Box x1 y1 x2 y2 else Nothing
  | _, _ => Nothing
  end.

Definition intersects (a b : Shape) : bool :=
  match intersection a b with
  | Nothing => false
  | _ => true
  end.

Definition area (g : Shape) : Q :=
  match g with
  | Box x1 y1 x2 y2 => Qred ((x2 - x1) * (y2 - y1))
  | _ => 0
  end.

(** Distance in the maximum norm. *)
Definition distance (a b : Shape) : Q :=
  match bounds a, bounds b with
  | Some (a1, b1, a2, b2), Some (c1, d1, c2, d2) =>
      let dx := Math_max 0 (Math_max (c1 - a2) (a1 - c2)) in
      let dy := Math_max 0 (Math_max (d1 - b2) (b1 - d2)) in
      Qred (Math_max dx dy)
  | _, _ => 0
  end.

Definition centerX (g : Shape) : Q :=
  match bounds g with
  | Some (x1, _, x2, _) => Qred ((x1 + x2) / 2)
  | None => 0
  end.

Definition centerY (g : Shape) : Q :=
  match bounds g with
  | Some (_, y1, _, y2) => Qred ((y1 + y2) / 2)
  | None => 0
  end.

#[export] Instance planarGIS : PostGIS := {|
  geometry := Shape;
  geography := Shape;
  ST_X := centerX;
  ST_Y := centerY;
  ST_AsGeoJSON := asGeoJSON;
  ST_GeomFromGeoJSON := fromGeoJSON;
  ST_Transform := fun g _ => g;
  ST_Buffer := buffer;
  ST_Intersects := intersects;
  knn_distance := distance;
  to_geography := fun g => g;
  ST_Distance := distance;
  ST_Area := area;
  ST_Intersection := intersection
|}.

(** A parcel at the origin with forty POIs of nine labels in walking
    range, a police station at 2 km, a hospital at 3 km, a main road at
    500 m and a tank out of range. *)

Definition labels : list string :=
  ["Retail"; "Education"; "Retail"; "Health And Medical"; "Eat And Drink";
   "Retail"; "Accommodation"; "Education"; "Automotive"; "Retail";
   "Beauty And Spa"; "Eat And Drink"; "Retail"; "Financial Service";
   "Education"; "Public Service"; "Retail"; "Health And Medical";
   "Eat And Drink"; "Retail"]%string.

Definition poiAt (i : nat) (label : string) : @Poi planarGIS :=
  {| p_category := Some label;
     p_geom := Pt (inject_Z (Z.of_nat i * 10)) (inject_Z (Z.of_nat i * 7 - 100)) |}.

Fixpoint poisFrom (i : nat) (ls : list string) : list (@Poi planarGIS) :=
  match ls with
  | [] => []
  | l :: ls' => poiAt i l :: poisFrom (S i) ls'
  end.

Definition farPoi : @Poi planarGIS :=
  {| p_category := Some "Retail"%string; p_geom := Pt 9000 9000 |}.

Definition home : @Centroid planarGIS :=
  {| c_village := "Hanamkonda"; c_surveyno := "17"; c_geom := Pt 0 0 |}.

Definition parcels : list (@Centroid planarGIS) :=
  [ home;
    {| c_village := "Kazipet"; c_surveyno := "4"; c_geom := Pt 20000 0 |} ]%string.

Definition store : @Database planarGIS :=
  {| ts_warangal_survey_centroids := Some parcels;
     ts_overture_poi_3 := Some (poisFrom 0 (labels ++ labels) ++ [farPoi]);
     ts_policestations := Some [Pt 0 (-7000); Pt 2000 0];
     ts_hospitals := Some [Pt 0 3000];
     ts_main_roads := Some [Box (-4000) 500 4000 510];
     ts_tanks := Some [Box 5000 5000 6000 6000] |}.

Definition walkingArea : GeoJSON := asGeoJSON (Box (-800) (-600) 800 600).

Definition isochroneResponse (g : GeoJSON) : FetchOutcome :=
  Responded {| ok := true; status := 200; text := "{}";
               json := Some {| features := Some [ {| f_geometry := Some g |} ] |} |}.

(** The routing service of the plane: a box around the requested
    point. *)
Definition routing (r : IsoRequest) : FetchOutcome :=
  isochroneResponse
    (asGeoJSON (Box (req_longitude r - 800) (req_latitude r - 600)
                    (req_longitude r + 800) (req_latitude r + 600))).

Definition world : @World planarGIS :=
  {| pool := store;
     MAPBOX_TOKEN := Some "pk.test"%string;
     fetch := routing;
     now := "2025-01-01T00:00:00.000Z" |}.

Definition withFetch (w : @World planarGIS) (f : IsoRequest -> FetchOutcome) : @World planarGIS :=
  {| pool := pool w; MAPBOX_TOKEN := MAPBOX_TOKEN w; fetch := f; now := now w |}.

Definition withToken (w : @World planarGIS) (t : option string) : @World planarGIS :=
  {| pool := pool w; MAPBOX_TOKEN := t; fetch := fetch w; now := now w |}.

Definition withPool (w : @World planarGIS) (db : @Database planarGIS) : @World planarGIS :=
  {| pool := db; MAPBOX_TOKEN := MAPBOX_TOKEN w; fetch := fetch w; now := now w |}.

Definition withHospitals (db : @Database planarGIS) (t : option (list Shape)) : @Database planarGIS :=
  {| ts_warangal_survey_centroids := ts_warangal_survey_centroids db;
     ts_overture_poi_3 := ts_overture_poi_3 db;
     ts_policestations := ts_policestations db;
     ts_hospitals := t;
     ts_main_roads := ts_main_roads db;
     ts_tanks := ts_tanks db |}.

Definition withPois (db : @Database planarGIS) (t : option (list (@Poi planarGIS))) : @Database planarGIS :=
  {| ts_warangal_survey_centroids := ts_warangal_survey_centroids db;
     ts_overture_poi_3 := t;
     ts_policestations := ts_policestations db;
     ts_hospitals := ts_hospitals db;
     ts_main_roads := ts_main_roads db;
     ts_tanks := ts_tanks db |}.

Definition withTanks (db : @Database planarGIS) (t : option (list Shape)) : @Database planarGIS :=
  {| ts_warangal_survey_centroids := ts_warangal_survey_centroids db;
     ts_overture_poi_3 := ts_overture_poi_3 db;
     ts_policestations := ts_policestations db;
     ts_hospitals := ts_hospitals db;
     ts_main_roads := ts_main_roads db;
     ts_tanks := t |}.

(** Answers of a failing routing service. *)
Definition unavailable : FetchOutcome :=
  Responded {| ok := false; status := 503; text := "Service Unavailable"; json := None |}.

Definition noFeatures : FetchOutcome :=
  Responded {| ok := true; status := 200; text := "{}";
               json := Some {| features := Some [] |} |}.

Definition pointAnswer : FetchOutcome := isochroneResponse (asGeoJSON (Pt 0 0)).

Definition nameless : @Poi planarGIS := {| p_category := None; p_geom := Pt 10 20 |}.

(** Two POIs without a label next to one labelled [Other]. *)
Definition unlabeled : list (@Poi planarGIS) :=
  [ nameless;
    {| p_category := Some "Other"%string; p_geom := Pt 30 40 |};
    {| p_category := None; p_geom := Pt 50 60 |} ].

(** A tank over the north-east quarter of the walking area of the first
    parcel. *)
Definition tankOverQuarter : list Shape := [Box 0 0 800 600; Box 7000 7000 7100 7100].

End Planar.

(** ** The unrounded sub-scores on binary64 numbers

    The same formulas of step 7 on the doubles that the JavaScript
    engine computes with, for checking concrete scenarios against the
    rounding of IEEE-754 arithmetic.  No operand is NaN here. *)

Module Binary64.

Local Open Scope float_scope.

Definition Math_min (a b : float) : float := if a <? b then a else b.
Definition Math_max (a b : float) : float := if a <? b then b else a.

Definition poiScore (totalPois : float) : float :=
  Math_min 30 ((totalPois / 100) * 30).

Definition addAmenity (cap : float) (distance_m : option float) (score : float) : float :=
  match distance_m with
  | Some d => score + Math_max 0 (cap - d / 1000)
  | None => score
  end.

Definition amenityScore (police hospital road : option float) : float :=
  let score := 0 in
  let score := addAmenity 10 police score in
  let score := addAmenity 10 hospital score in
  let score := addAmenity 5 road score in
  Math_min 25 score.

Definition ftlScore (ftlPercentage : float) : float :=
  if ftlPercentage =? 0 then 20 else Math_max 0 (20 - ftlPercentage / 5).

Definition businessScore (supportiveTotal : float) : float :=
  Math_min 15 ((supportiveTotal / 20) * 15).

Definition accessibilityScore (categoryCount : float) : float :=
  Math_min 10 ((categoryCount / 15) * 10).

End Binary64.

(** ** The scoring laws in the words of the specification *)

Module Spec.

(** [max(0, capacity_km - distance_km)], and 0 for a null distance. *)
Definition component (capacity_km : Q) (nearest : option NearestFeature) : Q :=
  match nearest with
  | Some f => Qmax 0 (capacity_km - distance_m f / 1000)
  | None => 0
  end.

Definition poi_score (total_pois : nat) : Q :=
  Qmin 30 (ofNat total_pois / 100 * 30).

Definition amenity_score (police hospital road : option NearestFeature) : Q :=
  Qmin 25 (component 10 police + component 10 hospital + component 5 road).

Definition ftl_score (thresholded : Z) : Q :=
  if Z.eq_dec thresholded 0 then 20 else Qmax 0 (20 - inject_Z thresholded / 5).

Definition business_score (supportive_total : nat) : Q :=
  Qmin 15 (ofNat supportive_total / 20 * 15).

Definition accessibility_score (distinct_category_count : nat) : Q :=
  Qmin 10 (ofNat distinct_category_count / 15 * 10).

(** Rounding to the nearest integer, a half going up. *)
Definition round (x : Q) : Z := Qfloor (x + (1 # 2)).

(** Rounding to one decimal for reporting. *)
Definition one_decimal (x : Q) : Q := inject_Z (round (x * 10)) / 10.

Definition supportive_total (r : AnalysisResult) : nat :=
  list_sum (map sb_count (supportive_businesses r)).

(** The 9 % rule. *)
Definition thresholded (raw_percentage : Q) : Z :=
  if Qlt_le_dec 9 raw_percentage then round raw_percentage else 0%Z.

End Spec.

(** ** Vocabulary of the properties *)

(** The location that the [forEach] callback stores for a row. *)
Definition locationOf (poi : PoiRow) : Location :=
  {| lat := poi_lat poi; lon := poi_lon poi |}.

(** The rows whose label is stored under [key]. *)
Definition rowsWithKey (key : string) (rows : list PoiRow) : list PoiRow :=
  filter (fun poi => String.eqb (propertyKey (poi_category poi)) key) rows.

(** The array under [key], empty when there is none. *)
Definition arrayAt (m : CategoryMap) (key : string) : list Location :=
  match ownProperty m key with
  | Some ls => ls
  | None => []
  end.

(** The number of locations in a category map. *)
Definition totalLength (m : CategoryMap) : nat :=
  list_sum (map (fun e => List.length (snd e)) m).

(** A successful run of [analyzeLocation]: the answers of the
    collaborators that it read and the result built from them. *)
Inductive Run {gis : PostGIS} (w : World) (village surveyNumber : string)
  : AnalysisResult -> Prop :=
| run_intro (survey : SurveyRow) (others : list SurveyRow) (token : string)
    (isoGeometry : GeoJSON) (usedFallback : bool)
    (poiResult : list PoiRow) (categoryMap : CategoryMap)
    (policeData hospitalData roadData : option NearestFeature)
    (ftlResult : list FtlRow) (tanksGeometry : list TanksRow) :
    selectCentroid (pool w) village surveyNumber = inr (survey :: others) ->
    MAPBOX_TOKEN w = Some token ->
    token <> EmptyString ->
    outcome (resolveIsochrone w village surveyNumber
               (sr_longitude survey) (sr_latitude survey) token)
    = inr (isoGeometry, usedFallback) ->
    selectPois (pool w) isoGeometry = inr poiResult ->
    forEachPoi [] poiResult = inr categoryMap ->
    outcome (getNearestFeature w village surveyNumber "ts_policestations") = inr policeData ->
    outcome (getNearestFeature w village surveyNumber "ts_hospitals") = inr hospitalData ->
    outcome (getNearestFeature w village surveyNumber "ts_main_roads") = inr roadData ->
    selectFtl (pool w) isoGeometry = inr ftlResult ->
    selectTanksGeometry (pool w) isoGeometry = inr tanksGeometry ->
    Run w village surveyNumber
        (buildResult village surveyNumber (sr_longitude survey) (sr_latitude survey)
                     isoGeometry usedFallback poiResult categoryMap
                     policeData hospitalData roadData ftlResult tanksGeometry (now w)).

(** The aggregate that [poiBreakdown] makes of one entry of the map. *)
Definition aggregateOf (totalPois : nat) (e : string * list Location) : CategoryAggregate :=
  {| category := fst e;
     count := List.length (snd e);
     percent := percentOf (List.length (snd e)) totalPois;
     locations := snd e |}.

(** The POIs of the table that the POI query returns for an isochrone. *)
Definition poisWithin {gis : PostGIS} (iso : GeoJSON) (pois : list Poi) : list Poi :=
  filter (fun p => ST_Intersects (p_geom p) (ST_GeomFromGeoJSON iso)) pois.

(** The POIs whose label is stored under [key]. *)
Definition poisWithKey {gis : PostGIS} (key : string) (pois : list Poi) : list Poi :=
  filter (fun p => String.eqb (propertyKey (p_category p)) key) pois.

(** The row that the POI query returns for a POI of the table. *)
Definition rowOfPoi {gis : PostGIS} (p : Poi) : PoiRow :=
  {| poi_category := p_category p;
     poi_lat := ST_Y (p_geom p);
     poi_lon := ST_X (p_geom p) |}.

(** The request that the service sends for a parcel at [c]. *)
Definition isoRequest {gis : PostGIS} (c : Centroid) (token : string) : IsoRequest :=
  {| req_longitude := ST_X (c_geom c);
     req_latitude := ST_Y (c_geom c);
     contours_minutes := ISO_MINUTES;
     denoise := DENOISE;
     access_token := token |}.

(** The answers of the routing service that do not give an isochrone:
    no answer at all, a non-success status, no features, or a first
    feature whose geometry is neither a Polygon nor a MultiPolygon. *)
Inductive RoutingFails : FetchOutcome -> Prop :=
| fails_network (message : string) :
    RoutingFails (NetworkError message)
| fails_status (resp : Response) :
    ok resp = false ->
    RoutingFails (Responded resp)
| fails_no_features (resp : Response) (data : IsoData) :
    ok resp = true -> json resp = Some data ->
    features data = None \/ features data = Some [] ->
    RoutingFails (Responded resp)
| fails_geometry_type (resp : Response) (data : IsoData)
                      (feature : Feature) (rest : list Feature) (g : GeoJSON) :
    ok resp = true -> json resp = Some data ->
    features data = Some (feature :: rest) ->
    f_geometry feature = Some g ->
    type g <> "Polygon"%string -> type g <> "MultiPolygon"%string ->
    RoutingFails (Responded resp).

(** The fallback geometry for a parcel at [c]: the buffer of
    [FALLBACK_WALK_BUFFER_M] metres, taken in the projected frame of
    SRID 32643 and returned in SRID 4326. *)
Definition fallbackBufferOf {gis : PostGIS} (c : Centroid) : GeoJSON :=
  ST_AsGeoJSON (ST_Transform (ST_Buffer (ST_Transform (c_geom c) 32643) 1000) 4326).

(** A label that [categoryMap] can hold: not a property that the empty
    object inherits. *)
Definition storable (category : option string) : bool :=
  negb (includes objectPrototypeKeys (propertyKey category)).

Definition isSome {A} (o : option A) : bool :=
  match o with Some _ => true | None => false end.

(** The store answers every query of the service: its relations exist
    and the labels of its POIs are storable. *)
Definition storeReady {gis : PostGIS} (db : Database) : bool :=
  isSome (ts_warangal_survey_centroids db)
  && match ts_overture_poi_3 db with
     | Some pois => forallb (fun p => storable (p_category p)) pois
     | None => false
     end
  && isSome (ts_policestations db)
  && isSome (ts_hospitals db)
  && isSome (ts_main_roads db)
  && isSome (ts_tanks db).

(** The three facility kinds. *)
Inductive FacilityKind : Type := Police | Hospital | MainRoad.

Definition tableOf {gis : PostGIS} (k : FacilityKind) (db : Database) : option (list geometry) :=
  match k with
  | Police => ts_policestations db
  | Hospital => ts_hospitals db
  | MainRoad => ts_main_roads db
  end.

Definition nearestOf (k : FacilityKind) (r : AnalysisResult) : option NearestFeature :=
  match k with
  | Police => nearest_police (map_data r)
  | Hospital => nearest_hospital (map_data r)
  | MainRoad => nearest_road (map_data r)
  end.




(** The answer of [getNearestFeature] for a parcel at [c] and a table
    that exists: the first feature in the order of the [<->] distance
    from the parcel, or [null] for a table without rows. *)
Definition nearestFeatureIn {gis : PostGIS} (c : Centroid) (table : list geometry)
  : option NearestFeature :=
  match nearestTo (c_geom c) table with
  | [] => None
  | f :: _ =>
      Some {| distance_m := ST_Distance (to_geography (c_geom c)) (to_geography f);
              nf_lat := ST_Y f;
              nf_lon := ST_X f |}
  end.

(** The result of a run, or [default] when it ended in an error. *)
Definition resultOr (default : AnalysisResult) (m : Async Returned) : AnalysisResult :=
  match outcome m with
  | inr (Analysis r) => r
  | _ => default
  end.

(** ** Sample runs on the planar store *)

Module Sample.

Import Planar.

Definition blank : AnalysisResult :=
  buildResult EmptyString EmptyString 0 0
              {| type := EmptyString; coordinates := CArr [] |} false
              [] [] None None None [] [] EmptyString.

(** The first parcel: forty POIs, all three facilities, no hazard. *)
Definition scenario : AnalysisResult :=
  Eval vm_compute in resultOr blank (analyzeLocation world "Hanamkonda" "17").

(** The second parcel: nothing in walking range. *)
Definition remote : AnalysisResult :=
  Eval vm_compute in resultOr blank (analyzeLocation world "Kazipet" "4").

(** The first parcel on a POI table with unlabeled rows. *)
Definition unlabeledWorld : World :=
  withPool world (withPois store (Some unlabeled)).

Definition withUnlabeled : AnalysisResult :=
  Eval vm_compute in resultOr blank (analyzeLocation unlabeledWorld "Hanamkonda" "17").

(** The routing service is down. *)
Definition routingDown : World := withFetch world (fun _ => unavailable).

(** The credential is not configured. *)
Definition noToken : World := withToken world None.

(** The hospital relation is empty, or is not in the schema. *)
Definition hospitalsEmpty : World := withPool world (withHospitals store (Some [])).


(** The first parcel with a tank over a quarter of its walking area. *)
Definition floodedWorld : World :=
  withPool world (withTanks store (Some tankOverQuarter)).

Definition flooded : AnalysisResult :=
  Eval vm_compute in resultOr blank (analyzeLocation floodedWorld "Hanamkonda" "17").

End Sample.

(** ** Vocabulary of the further properties *)





(** The answers of the routing service that give an isochrone: a
    success status and a first feature whose geometry [g] is a Polygon
    or a MultiPolygon. *)
Inductive RoutingAnswers : FetchOutcome -> GeoJSON -> Prop :=
| answers_polygon (resp : Response) (data : IsoData)
                  (feature : Feature) (rest : list Feature) (g : GeoJSON) :
    ok resp = true -> json resp = Some data ->
    features data = Some (feature :: rest) ->
    f_geometry feature = Some g ->
    type g = "Polygon"%string \/ type g = "MultiPolygon"%string ->
    RoutingAnswers (Responded resp) g.

(** ** The radius variant of the service: [calculateDevelopmentScore]

    The service of [services/gisService.js] analyses a fixed radius of
    800 m and scores in a method of its own. *)

Module RadiusService.

(** [Math.round(x * 10) / 10] *)
Definition round1 (x : Q) : Q := inject_Z (Math_round (x * 10)) / 10.

Record Breakdown : Type := {
  poi_score : Q;
  supportive_businesses_score : Q;
  police_distance_score : Q;
  hospital_distance_score : Q;
  road_distance_score : Q;
  ftl_penalty : Q
}.

Record Score : Type := {
  score : Q;
  breakdown : Breakdown
}.

(** [a < b] *)
Definition ltb (a b : Q) : bool := negb (Qle_bool b a).

Definition policeScore (distanceToPolice : option Q) : Q :=
  match distanceToPolice with
  | None => 0
  | Some d =>
      if ltb d 1000 then 10
      else if ltb d 3000 then 7
      else if ltb d 5000 then 5
      else Math_max 0 (5 - (d - 5000) / 1000)
  end.

Definition hospitalScore (distanceToHospital : option Q) : Q :=
  match distanceToHospital with
  | None => 0
  | Some d =>
      if ltb d 2000 then 10
      else if ltb d 5000 then 7
      else if ltb d 10000 then 5
      else Math_max 0 (5 - (d - 10000) / 2000)
  end.

Definition roadScore (distanceToRoad : option Q) : Q :=
  match distanceToRoad with
  | None => 0
  | Some d =>
      if ltb d 500 then 10
      else if ltb d 1000 then 8
      else if ltb d 2000 then 6
      else Math_max 0 (6 - (d - 2000) / 1000)
  end.

(** An entry of [supportiveBusinesses]: category and count. *)
Definition calculateDevelopmentScore
           (totalPOIs : nat) (supportiveBusinesses : list (string * nat))
           (distanceToPolice distanceToHospital distanceToRoad : option Q)
           (ftlZonePercentage : Q) : Score :=
  let score := 0 in
  let poiScore := Math_min 40 ((ofNat totalPOIs / 50) * 40) in
  let score := score + poiScore in
  let totalSupportive := sumCounts snd supportiveBusinesses in
  let supportiveScore := Math_min 20 ((ofNat totalSupportive / 10) * 20) in
  let score := score + supportiveScore in
  let policeScore := policeScore distanceToPolice in
  let score := score + policeScore in
  let hospitalScore := hospitalScore distanceToHospital in
  let score := score + hospitalScore in
  let roadScore := roadScore distanceToRoad in
  let score := score + roadScore in
  let ftlPenalty := (ftlZonePercentage / 100) * 10 in
  let score := score - ftlPenalty in
  let score := Math_max 0 (Math_min 100 score) in
  {| score := round1 score;
     breakdown :=
       {| poi_score := round1 poiScore;
          supportive_businesses_score := round1 supportiveScore;
          police_distance_score := round1 policeScore;
          hospital_distance_score := round1 hospitalScore;
          road_distance_score := round1 roadScore;
          ftl_penalty := round1 ftlPenalty |} |}.

End RadiusService.

(** ** The in-memory store of analysis results

    [analysisStore.js] keeps the analysis of a saved survey in a
    module-level [Map], under the text of the survey's id. *)

(** A survey id as a caller hands it over: the number [gid] of a row
    of the store, or text. *)
Inductive SurveyId : Type :=
| IdNumber (gid : Z)
| IdString (s : string).

(** [Number.prototype.toString] of an integer: decimal digits, with a
    leading minus sign below zero. *)
Definition Number_toString (n : Z) : string :=
  NilZero.string_of_int (Z.to_int n).

(** [surveyId.toString()] *)
Definition toString (surveyId : SurveyId) : string :=
  match surveyId with
  | IdNumber gid => Number_toString gid
  | IdString s => s
  end.

(** A [Map] with string keys: the entries in insertion order, one per
    key. *)
Definition JsMap (V : Type) : Type := list (string * V).

(** [Map.prototype.set]: the value of a present key is replaced in
    place, a new key goes to the end. *)
Fixpoint Map_set {V} (m : JsMap V) (key : string) (value : V) : JsMap V :=
  match m with
  | [] => [(key, value)]
  | (k, v) :: rest =>
      if String.eqb k key then (k, value) :: rest
      else (k, v) :: Map_set rest key value
  end.

Fixpoint Map_get {V} (m : JsMap V) (key : string) : option V :=
  match m with
  | [] => None
  | (k, v) :: rest => if String.eqb k key then Some v else Map_get rest key
  end.

Definition Map_has {V} (m : JsMap V) (key : string) : bool :=
  match Map_get m key with
  | Some _ => true
  | None => false
  end.

Fixpoint Map_delete {V} (m : JsMap V) (key : string) : JsMap V :=
  match m with
  | [] => []
  | (k, v) :: rest =>
      if String.eqb k key then rest else (k, v) :: Map_delete rest key
  end.

Definition Map_keys {V} (m : JsMap V) : list string := map fst m.

Module AnalysisStore.

(** The stored object: the members of [analysisData], then
    [stored_at]. *)
Record Stored (A : Type) : Type := {
  data : A;
  stored_at : string
}.

Arguments data {A}.
Arguments stored_at {A}.

(** [set]; [now] is [new Date().toISOString()]. *)
Definition set {A} (analysisStore : JsMap (Stored A)) (surveyId : SurveyId)
           (analysisData : A) (now : string) : JsMap (Stored A) :=
  Map_set analysisStore (toString surveyId)
          {| data := analysisData; stored_at := now |}.

(** [get]: a stored value is an object, so [|| null] only replaces the
    [undefined] of an absent key. *)
Definition get {A} (analysisStore : JsMap (Stored A)) (surveyId : SurveyId)
  : option (Stored A) :=
  Map_get analysisStore (toString surveyId).

Definition has {A} (analysisStore : JsMap (Stored A)) (surveyId : SurveyId) : bool :=
  Map_has analysisStore (toString surveyId).

Definition delete {A} (analysisStore : JsMap (Stored A)) (surveyId : SurveyId)
  : JsMap (Stored A) :=
  Map_delete analysisStore (toString surveyId).

Definition getAllIds {A} (analysisStore : JsMap (Stored A)) : list string :=
  Map_keys analysisStore.

(** The calls that change the store, and the store after a sequence of
    them on the empty [Map] of a fresh process. *)
Inductive Call (A : Type) : Type :=
| CallSet (surveyId : SurveyId) (analysisData : A) (now : string)
| CallDelete (surveyId : SurveyId).

Arguments CallSet {A}.
Arguments CallDelete {A}.

Definition call {A} (analysisStore : JsMap (Stored A)) (c : Call A) : JsMap (Stored A) :=
  match c with
  | CallSet surveyId analysisData now => set analysisStore surveyId analysisData now
  | CallDelete surveyId => delete analysisStore surveyId
  end.

Definition after {A} (calls : list (Call A)) : JsMap (Stored A) :=
  fold_left call calls [].

End AnalysisStore.

(** ** Saved survey results

    [SurveyResult.js] writes a row of [ts_warangal_survey] for every
    saved analysis and keeps the analysis itself in the in-memory
    store. *)

(** What the SQL text of the model needs from the store beyond
    [PostGIS].  [int4in] is the input routine of the type [integer]:
    it reads the text of the parameter that is compared with [gid],
    or rejects it with a message. *)
Class PostgresSurvey {gis : PostGIS} : Type := {
  ST_MakePoint : Q -> Q -> geometry;
  ST_SetSRID : geometry -> Z -> geometry;
  (** [ST_Buffer] of a geography, the radius in metres *)
  ST_Buffer_geography : geography -> Q -> geography;
  (** the [::geometry] cast *)
  to_geometry : geography -> geometry;
  ST_Multi : geometry -> geometry;
  ST_Centroid : geometry -> geometry;
  int4in : string -> string + Z
}.

(** The members of [analysisData] in [create]. *)
Record AnalysisData : Type := {
  ad_total_pois : nat;
  ad_poi_breakdown : list CategoryAggregate;
  ad_supportive_businesses : list SupportiveBusiness;
  ad_distance_to_police : option Q;
  ad_distance_to_hospital : option Q;
  ad_distance_to_main_road : option Q;
  ad_development_score : Z;
  ad_score_breakdown : ScoreBreakdown;
  ad_ftl_zone_percentage : Z;
  ad_map_data : MapData;
  ad_analysis_date : string
}.

(** The object that [create] and [findById] return.  The analysis
    members are spread from [analysisData]: all of them or, for a row
    without stored analysis, none; [stored_at] is there when they come
    out of the store. *)
Record SavedResult : Type := {
  saved_id : string;
  saved_gid : Z;
  saved_village : string;
  saved_survey_number : string;
  saved_latitude : Q;
  saved_longitude : Q;
  saved_analysis : option AnalysisData;
  saved_stored_at : option string
}.

(** Computations on the store of the model: a state, and a rejected
    promise as [inl]. *)
Definition Stateful (S A : Type) : Type := S -> S * (string + A).

Definition sret {S A} (a : A) : Stateful S A := fun st => (st, inr a).

Definition sthrow {S A} (message : string) : Stateful S A := fun st => (st, inl message).

Definition sbind {S A B} (m : Stateful S A) (k : A -> Stateful S B) : Stateful S B :=
  fun st =>
    match m st with
    | (st', inl message) => (st', inl message)
    | (st', inr a) => k a st'
    end.

Declare Scope stateful_scope.
Delimit Scope stateful_scope with stateful.
Notation "x <- m ;; k" := (sbind m (fun x => k))
  (at level 61, m at next level, right associativity) : stateful_scope.
Notation "m ;;; k" := (sbind m (fun _ => k))
  (at level 61, right associativity) : stateful_scope.

(** The body of an HTTP answer: [{ data: { error } }] or
    [{ data: { success: true, data } }]. *)
Inductive ResponseBody : Type :=
| ErrorBody (error : string)
| SuccessBody (data : SavedResult).

Record HttpResponse : Type := {
  statusCode : Z;
  payload : ResponseBody
}.

(** [req.body] of the analysis route: a member is text or is not
    there. *)
Record AnalyzeRequest : Type := {
  body_village : option string;
  body_surveyNumber : option string
}.

Definition textOf (s : option string) : string :=
  match s with
  | Some t => t
  | None => EmptyString
  end.

Section Persistence.

Context {gis : PostGIS} {pg : PostgresSurvey}.

Record ParcelRow : Type := {
  gid : Z;
  surveyno : string;
  pr_village : string;
  geom : geometry
}.

(** What [SurveyResult] and its callers read and write: the relation
    ([None]: it is not in the schema), the sequence behind the
    auto-incremented [gid], and the [Map] of [analysisStore.js]. *)
Record Persistence : Type := {
  ts_warangal_survey : option (list ParcelRow);
  gid_seq : Z;
  analysisStore : JsMap (AnalysisStore.Stored AnalysisData)
}.

Definition Db (A : Type) : Type := Stateful Persistence A.

Definition bufferRadiusMeters : Q := 100.

(** The geometry of the inserted row. *)
Definition pointBuffer (longitude latitude radius : Q) : geometry :=
  ST_Multi
    (to_geometry
       (ST_Buffer_geography
          (to_geography (ST_SetSRID (ST_MakePoint longitude latitude) 4326))
          radius)).

Definition duplicateKeyMessage : string :=
  ("duplicate key value violates unique constraint "
     ++ doubleQuote ++ "ts_warangal_survey_pkey" ++ doubleQuote)%string.

(** [INSERT ... RETURNING gid, surveyno, village]: the new row takes
    the next value of the sequence, which is used up even when the
    primary key then rejects the row. *)
Definition insertSurvey (survey_number village : string) (longitude latitude radius : Q)
  : Db ParcelRow :=
  fun st =>
    match relation "ts_warangal_survey" (ts_warangal_survey st) with
    | inl message => (st, inl message)
    | inr rows =>
        let row := {| gid := gid_seq st;
                      surveyno := survey_number;
                      pr_village := village;
                      geom := pointBuffer longitude latitude radius |} in
        if existsb (fun r => Z.eqb (gid r) (gid_seq st)) rows
        then ({| ts_warangal_survey := Some rows;
                 gid_seq := gid_seq st + 1;
                 analysisStore := analysisStore st |},
              inl duplicateKeyMessage)
        else ({| ts_warangal_survey := Some (rows ++ [row]);
                 gid_seq := gid_seq st + 1;
                 analysisStore := analysisStore st |},
              inr row)
    end.

(** [FROM ts_warangal_survey WHERE gid = $1], the parameter as the
    driver sends it: as text. *)
Definition whereGid (parameter : string) : Db (list ParcelRow) :=
  fun st =>
    match relation "ts_warangal_survey" (ts_warangal_survey st) with
    | inl message => (st, inl message)
    | inr rows =>
        match int4in parameter with
        | inl message => (st, inl message)
        | inr n => (st, inr (filter (fun r => Z.eqb (gid r) n) rows))
        end
    end.

Record CenterRow : Type := {
  center_lon : Q;
  center_lat : Q
}.

Definition selectCenter (parameter : string) : Db (list CenterRow) :=
  (rows <- whereGid parameter ;;
   sret (map (fun r => {| center_lon := ST_X (ST_Centroid (geom r));
                          center_lat := ST_Y (ST_Centroid (geom r)) |}) rows))%stateful.

Record ResultRow : Type := {
  rr_gid : Z;
  rr_surveyno : string;
  rr_village : string;
  rr_longitude : Q;
  rr_latitude : Q
}.

Definition selectResult (parameter : string) : Db (list ResultRow) :=
  (rows <- whereGid parameter ;;
   sret (map (fun r => {| rr_gid := gid r;
                          rr_surveyno := surveyno r;
                          rr_village := pr_village r;
                          rr_longitude := ST_X (ST_Centroid (geom r));
                          rr_latitude := ST_Y (ST_Centroid (geom r)) |}) rows))%stateful.

Definition analysisDataOf (data : AnalysisResult) (analysisDate : string) : AnalysisData :=
  {| ad_total_pois := total_pois data;
     ad_poi_breakdown := poi_breakdown data;
     ad_supportive_businesses := supportive_businesses data;
     ad_distance_to_police := distance_to_police data;
     ad_distance_to_hospital := distance_to_hospital data;
     ad_distance_to_main_road := distance_to_main_road data;
     ad_development_score := development_score data;
     ad_score_breakdown := score_breakdown data;
     ad_ftl_zone_percentage := ftl_zone_percentage data;
     ad_map_data := map_data data;
     ad_analysis_date := analysisDate |}.

(** [AnalysisStore.set] on the [Map] of the state. *)
Definition storeSet (surveyId : SurveyId) (analysisData : AnalysisData) (now : string)
  : Db unit :=
  fun st =>
    ({| ts_warangal_survey := ts_warangal_survey st;
        gid_seq := gid_seq st;
        analysisStore := AnalysisStore.set (analysisStore st) surveyId analysisData now |},
     inr tt).

Definition storeGet (surveyId : SurveyId) : Db (option (AnalysisStore.Stored AnalysisData)) :=
  fun st => (st, inr (AnalysisStore.get (analysisStore st) surveyId)).

Definition centerMessage : string :=
  "Cannot read properties of undefined (reading 'lat')".

(** [SurveyResult.create] on the data of an analysis.  [savedAt] and
    [storedAt] are the two readings of the clock, the first for
    [analysis_date] and the second inside [AnalysisStore.set].
    [center] is only read in the returned object, after the store has
    been written. *)
Definition create (data : AnalysisResult) (savedAt storedAt : string) : Db SavedResult :=
  (row <- insertSurvey (survey_number data) (village data)
                       (longitude data) (latitude data) bufferRadiusMeters ;;
   centerResult <- selectCenter (Number_toString (gid row)) ;;
   let analysisData := analysisDataOf data savedAt in
   storeSet (IdNumber (gid row)) analysisData storedAt ;;;
   match centerResult with
   | [] => sthrow centerMessage
   | center :: _ =>
       sret {| saved_id := Number_toString (gid row);
               saved_gid := gid row;
               saved_village := pr_village row;
               saved_survey_number := surveyno row;
               saved_latitude := center_lat center;
               saved_longitude := center_lon center;
               saved_analysis := Some analysisData;
               saved_stored_at := None |}
   end)%stateful.

(** [SurveyResult.findById]; [null] is [None]. *)
Definition findById (id : SurveyId) : Db (option SavedResult) :=
  (result <- selectResult (toString id) ;;
   match result with
   | [] => sret None
   | row :: _ =>
       analysisData <- storeGet (IdNumber (rr_gid row)) ;;
       sret (Some {| saved_id := Number_toString (rr_gid row);
                     saved_gid := rr_gid row;
                     saved_village := rr_village row;
                     saved_survey_number := rr_surveyno row;
                     saved_latitude := rr_latitude row;
                     saved_longitude := rr_longitude row;
                     saved_analysis := option_map AnalysisStore.data analysisData;
                     saved_stored_at := option_map AnalysisStore.stored_at analysisData |})
   end)%stateful.

(** ** The routes *)

Definition respond (code : Z) (body : ResponseBody) : HttpResponse :=
  {| statusCode := code; payload := body |}.

(** The [catch] of [analyzeSurvey]. *)
Definition analysisFailed (message : string) : HttpResponse :=
  respond 500 (ErrorBody (if String.eqb message EmptyString
                          then "Analysis failed. Please try again."
                          else message)).

(** [analyzeSurvey] behind the authentication of its route, on the
    analysis service above: the calls of the analysis, the store
    afterwards and the answer.  An error object with an empty message
    would be taken for a result and saved without coordinates; the
    model stops there with [None]. *)
Definition analyzeSurvey (w : World) (savedAt storedAt : string) (req : AnalyzeRequest)
           (st : Persistence) : option (list Effect * Persistence * HttpResponse) :=
  if falsy (body_village req) || falsy (body_surveyNumber req)
  then Some ([], st, respond 400 (ErrorBody "Village and survey number are required"))
  else
    let village := textOf (body_village req) in
    let surveyNumber := textOf (body_surveyNumber req) in
    let analysis := analyzeLocation w village surveyNumber in
    match outcome analysis with
    | inl message => Some (trace analysis, st, analysisFailed message)
    | inr (ErrorObject error) =>
        if String.eqb error EmptyString then None
        else Some (trace analysis, st, respond 500 (ErrorBody error))
    | inr (Analysis analysisResult) =>
        match create analysisResult savedAt storedAt st with
        | (st', inl message) => Some (trace analysis, st', analysisFailed message)
        | (st', inr savedResult) =>
            Some (trace analysis, st', respond 200 (SuccessBody savedResult))
        end
    end.

(** [getSurveyResult]; a rejection goes to the error middleware. *)
Definition getSurveyResult (id : string) : Db HttpResponse :=
  (result <- findById (IdString id) ;;
   match result with
   | None => sret (respond 404 (ErrorBody "Survey result not found"))
   | Some found => sret (respond 200 (SuccessBody found))
   end)%stateful.

End Persistence.

Arguments ParcelRow {gis}.
Arguments Persistence {gis}.

(** A store for the plane. *)
Module PlanarStore.

Import Planar.

Definition int4 (s : string) : string + Z :=
  match NilZero.int_of_string s with
  | Some d => inr (Z.of_int d)
  | None =>
      inl ("invalid input syntax for type integer: "
             ++ doubleQuote ++ s ++ doubleQuote)%string
  end.

#[export] Instance planarSurvey : @PostgresSurvey planarGIS := {|
  ST_MakePoint := Pt;
  ST_SetSRID := fun g _ => g;
  ST_Buffer_geography := buffer;
  to_geometry := fun g => g;
  ST_Multi := fun g => g;
  ST_Centroid := fun g => Pt (centerX g) (centerY g);
  int4in := int4
|}.

Definition fresh : @Persistence planarGIS :=
  {| ts_warangal_survey := Some []; gid_seq := 1; analysisStore := [] |}.

Definition noRelation : @Persistence planarGIS :=
  {| ts_warangal_survey := None; gid_seq := 1; analysisStore := [] |}.

Definition request : AnalyzeRequest :=
  {| body_village := Some "Hanamkonda"%string; body_surveyNumber := Some "17"%string |}.

Definition unknownRequest : AnalyzeRequest :=
  {| body_village := Some "Hanamkonda"%string; body_surveyNumber := Some "99"%string |}.

Definition savedAt : string := "2025-01-02T00:00:00.000Z".
Definition storedAt : string := "2025-01-02T00:00:00.001Z".

(** The first parcel while the routing service is down, and the
    isochrone that the routing service of the plane gives for it. *)
Definition detour : AnalysisResult :=
  Eval vm_compute in resultOr Sample.blank (analyzeLocation Sample.routingDown "Hanamkonda" "17").

Definition answered : GeoJSON :=
  Eval vm_compute in isochrone_geometry (map_data Sample.scenario).

(** The store after the analysis of the first parcel was saved, and
    after that of the second. *)
Definition once : @Persistence planarGIS :=
  Eval vm_compute in fst (create Sample.scenario savedAt storedAt fresh).

Definition twice : @Persistence planarGIS :=
  Eval vm_compute in fst (create Sample.remote savedAt storedAt once).

End PlanarStore.

(** The object that [create] returns for the data of an analysis when
    the row got the number [n], and the same object as it comes out of
    the store. *)
Definition savedAs {gis : PostGIS} {pg : PostgresSurvey}
           (data : AnalysisResult) (n : Z) (savedAt : string) : SavedResult :=
  let g := pointBuffer (longitude data) (latitude data) bufferRadiusMeters in
  {| saved_id := Number_toString n;
     saved_gid := n;
     saved_village := village data;
     saved_survey_number := survey_number data;
     saved_latitude := ST_Y (ST_Centroid g);
     saved_longitude := ST_X (ST_Centroid g);
     saved_analysis := Some (analysisDataOf data savedAt);
     saved_stored_at := None |}.

Definition storedAs (saved : SavedResult) (storedAt : string) : SavedResult :=
  {| saved_id := saved_id saved;
     saved_gid := saved_gid saved;
     saved_village := saved_village saved;
     saved_survey_number := saved_survey_number saved;
     saved_latitude := saved_latitude saved;
     saved_longitude := saved_longitude saved;
     saved_analysis := saved_analysis saved;
     saved_stored_at := Some storedAt |}.

(** The store after a successful [create]. *)
Definition afterCreate {gis : PostGIS} {pg : PostgresSurvey}
           (st : Persistence) (rows : list ParcelRow) (data : AnalysisResult)
           (savedAt storedAt : string) : Persistence :=
  {| ts_warangal_survey :=
       Some (rows ++ [ {| gid := gid_seq st;
                          surveyno := survey_number data;
                          pr_village := village data;
                          geom := pointBuffer (longitude data) (latitude data)
                                              bufferRadiusMeters |} ]);
     gid_seq := gid_seq st + 1;
     analysisStore := AnalysisStore.set (analysisStore st) (IdNumber (gid_seq st))
                                        (analysisDataOf data savedAt) storedAt |}.

(** No row of the relation has the number [n]. *)
Definition unusedGid {gis : PostGIS} (n : Z) (rows : list ParcelRow) : bool :=
  negb (existsb (fun r => Z.eqb (gid r) n) rows).

(** The message of a query on a relation that is not in the schema. *)
Definition relationMissing (name : string) : string :=
  ("relation " ++ doubleQuote ++ name ++ doubleQuote ++ " does not exist")%string.

(** * Properties *)

(** ** Numbers *)

Lemma Math_min_le_l (a b : Q) : Math_min a b <= a.
Proof.
  unfold Math_min. destruct (Qle_bool a b) eqn:E.
  - apply Qle_refl.
  - apply Qlt_le_weak, Qnot_le_lt. intro H. apply Qle_bool_iff in H. congruence.
Qed.

Lemma Math_min_glb (a b c : Q) : c <= a -> c <= b -> c <= Math_min a b.
Proof. intros. unfold Math_min. now destruct (Qle_bool a b). Qed.

Lemma Math_max_ge_l (a b : Q) : a <= Math_max a b.
Proof.
  unfold Math_max. destruct (Qle_bool a b) eqn:E.
  - now apply Qle_bool_iff.
  - apply Qle_refl.
Qed.

Lemma Math_max_lub (a b c : Q) : a <= c -> b <= c -> Math_max a b <= c.
Proof. intros. unfold Math_max. now destruct (Qle_bool a b). Qed.


Lemma Math_max_Qmax (a b : Q) : Math_max a b == Qmax a b.
Proof.
  unfold Math_max. destruct (Qle_bool a b) eqn:E.
  - apply Qle_bool_iff in E. symmetry. now apply Q.max_r.
  - symmetry. apply Q.max_l. apply Qlt_le_weak, Qnot_le_lt.
    intro H. apply Qle_bool_iff in H. congruence.
Qed.

Lemma gtb_true (a b : Q) : gtb a b = true <-> b < a.
Proof.
  unfold gtb. rewrite negb_true_iff. split.
  - intro E. apply Qnot_le_lt. intro H. apply Qle_bool_iff in H. congruence.
  - intro H. destruct (Qle_bool a b) eqn:E; [|reflexivity].
    apply Qle_bool_iff in E. exfalso. now apply (Qlt_not_le b a).
Qed.

Lemma gtb_false (a b : Q) : gtb a b = false <-> a <= b.
Proof.
  unfold gtb. rewrite negb_false_iff. apply Qle_bool_iff.
Qed.

(** Division by a positive integer constant is a multiplication; this
    is the form that linear arithmetic accepts. *)
Lemma Qdiv_pos (x : Q) (p : positive) : x / (Zpos p # 1) == x * (1 # p).
Proof. reflexivity. Qed.

Ltac divs :=
  repeat match goal with
         | |- context [?x / (Zpos ?p # 1)] => rewrite (Qdiv_pos x p)
         end.

Lemma ofNat_nonneg (n : nat) : 0 <= ofNat n.
Proof.
  unfold ofNat. change 0 with (inject_Z 0). rewrite <- Zle_Qle. lia.
Qed.


Lemma Math_round_le (x : Q) (n : Z) : x <= inject_Z n -> (Math_round x <= n)%Z.
Proof.
  intro H. unfold Math_round.
  assert (L : (Qfloor (x + (1 # 2)) < n + 1)%Z).
  { rewrite Zlt_Qlt. eapply Qle_lt_trans; [apply Qfloor_le|].
    rewrite inject_Z_plus. change (inject_Z 1) with 1. lra. }
  lia.
Qed.

Lemma Math_round_ge (x : Q) (n : Z) : inject_Z n <= x -> (n <= Math_round x)%Z.
Proof.
  intro H. unfold Math_round.
  rewrite <- (Qfloor_Z n). apply Qfloor_resp_le. lra.
Qed.

Lemma pow10_pos (d : nat) : 0 < pow10 d.
Proof.
  unfold pow10. change 0 with (inject_Z 0). rewrite <- Zlt_Qlt.
  apply Z.pow_pos_nonneg; lia.
Qed.

Lemma toFixed_finite (d : nat) (x : Q) :
  0 <= x -> x < inject_Z (10 ^ 21) ->
  toFixed d x = inject_Z (Qfloor (x * pow10 d + (1 # 2))) / pow10 d.
Proof.
  intros H0 H1. unfold toFixed.
  destruct (Qle_bool (inject_Z (10 ^ 21)) (Qabs x)) eqn:E.
  - apply Qle_bool_iff in E. rewrite (Qabs_pos x H0) in E.
    exfalso. now apply (Qlt_not_le _ _ H1).
  - destruct (Qle_bool 0 x) eqn:E0; [reflexivity|].
    apply Qle_bool_iff in H0. congruence.
Qed.

Lemma toFixed_nonneg (d : nat) (x : Q) : 0 <= x -> 0 <= toFixed d x.
Proof.
  intro H0. unfold toFixed.
  destruct (Qle_bool (inject_Z (10 ^ 21)) (Qabs x)); [assumption|].
  destruct (Qle_bool 0 x) eqn:E0.
  - apply Qle_shift_div_l; [apply pow10_pos|].
    rewrite Qmult_0_l. change 0 with (inject_Z 0). rewrite <- Zle_Qle.
    change 0%Z with (Qfloor 0). apply Qfloor_resp_le.
    assert (0 <= x * pow10 d).
    { apply Qmult_le_0_compat; [assumption|apply Qlt_le_weak, pow10_pos]. }
    lra.
  - apply Qle_bool_iff in H0. congruence.
Qed.

Lemma toFixed_one_decimal (x : Q) :
  0 <= x -> x <= 100 -> toFixed 1 x == Spec.one_decimal x.
Proof.
  intros H0 H1. rewrite toFixed_finite; [|assumption|].
  - reflexivity.
  - eapply Qle_lt_trans; [exact H1|]. reflexivity.
Qed.

(** ** Awaited computations *)

Lemma outcome_bind_inr {A B} (m : Async A) (k : A -> Async B) (b : B) :
  outcome (bind m k) = inr b ->
  exists a, outcome m = inr a /\ outcome (k a) = inr b.
Proof.
  destruct m as [t [e|a]]; simpl.
  - discriminate.
  - destruct (k a) as [t' r] eqn:E. simpl. intros ->.
    exists a. rewrite E. auto.
Qed.

Lemma outcome_bind_ok {A B} (m : Async A) (k : A -> Async B) (a : A) :
  outcome m = inr a -> outcome (bind m k) = outcome (k a).
Proof.
  destruct m as [t r]; simpl. intros ->.
  now destruct (k a).
Qed.

Lemma outcome_bind_throw {A B} (m : Async A) (k : A -> Async B) (e : string) :
  outcome m = inl e -> outcome (bind m k) = inl e.
Proof. destruct m as [t r]; simpl. now intros ->. Qed.

Lemma outcome_try_ok {A} (m : Async A) (h : string -> Async A) (a : A) :
  outcome m = inr a -> outcome (try_catch m h) = inr a.
Proof. destruct m as [t r]; simpl. now intros ->. Qed.

Lemma outcome_try_caught {A} (m : Async A) (h : string -> Async A) (e : string) :
  outcome m = inl e -> outcome (try_catch m h) = outcome (h e).
Proof.
  destruct m as [t r]; simpl. intros ->. now destruct (h e).
Qed.

Lemma outcome_poolQuery {A} (q : Sql) (rows : string + list A) :
  outcome (poolQuery q rows) = rows.
Proof. reflexivity. Qed.

(** ** Sorting and key order only permute *)

Lemma insertBy_perm {A} (before : A -> A -> bool) (x : A) (l : list A) :
  Permutation (insertBy before x l) (x :: l).
Proof.
  induction l as [|y l IH]; simpl.
  - apply Permutation_refl.
  - destruct (before x y).
    + apply Permutation_refl.
    + eapply perm_trans; [apply perm_skip, IH|apply perm_swap].
Qed.

Lemma stableSort_perm {A} (before : A -> A -> bool) (l : list A) :
  Permutation (stableSort before l) l.
Proof.
  induction l as [|x l IH]; simpl.
  - apply Permutation_refl.
  - eapply perm_trans; [apply insertBy_perm|now apply perm_skip].
Qed.

Lemma filter_split_perm {A} (f : A -> bool) (l : list A) :
  Permutation (filter f l ++ filter (fun x => negb (f x)) l) l.
Proof.
  induction l as [|x l IH]; simpl.
  - apply Permutation_refl.
  - destruct (f x); simpl.
    + now apply perm_skip.
    + eapply perm_trans; [apply Permutation_sym, Permutation_middle|].
      now apply perm_skip.
Qed.

Lemma ownEntries_perm (m : CategoryMap) : Permutation (ownEntries m) m.
Proof.
  unfold ownEntries.
  eapply perm_trans; [|apply (filter_split_perm (fun e => isArrayIndex (fst e)))].
  apply Permutation_app_tail, stableSort_perm.
Qed.

Lemma list_sum_perm (l l' : list nat) :
  Permutation l l' -> list_sum l = list_sum l'.
Proof.
  induction 1; simpl; lia.
Qed.

Lemma sumCounts_list_sum {A} (f : A -> nat) (l : list A) :
  sumCounts f l = list_sum (map f l).
Proof.
  unfold sumCounts.
  assert (G : forall acc, fold_left (fun sum i => (sum + f i)%nat) l acc
                          = (acc + list_sum (map f l))%nat).
  { induction l as [|x l IH]; intro acc; simpl.
    - lia.
    - rewrite IH. lia. }
  now rewrite G.
Qed.

(** ** The category map *)

Lemma push_fresh (m : CategoryMap) (key : string) (loc : Location) :
  ownProperty m key = None ->
  push (m ++ [(key, [])]) key loc = m ++ [(key, [loc])].
Proof.
  induction m as [|[k ls] m IH]; simpl.
  - intros _. now rewrite String.eqb_refl.
  - destruct (String.eqb k key); [discriminate|].
    intro H. now rewrite IH.
Qed.

Lemma totalLength_app (m m' : CategoryMap) :
  totalLength (m ++ m') = (totalLength m + totalLength m')%nat.
Proof.
  unfold totalLength. rewrite map_app. induction (map _ m); simpl; lia.
Qed.

Lemma totalLength_push (m : CategoryMap) (key : string) (loc : Location) (ls : list Location) :
  ownProperty m key = Some ls ->
  totalLength (push m key loc) = S (totalLength m).
Proof.
  unfold totalLength.
  induction m as [|[k l] m IH]; simpl.
  - discriminate.
  - destruct (String.eqb k key); simpl.
    + intros _. rewrite length_app. simpl. lia.
    + intro H. rewrite (IH H). lia.
Qed.

Lemma addPoi_totalLength (m m' : CategoryMap) (poi : PoiRow) :
  addPoi m poi = inr m' -> totalLength m' = S (totalLength m).
Proof.
  unfold addPoi.
  destruct (ownProperty m (propertyKey (poi_category poi))) as [ls|] eqn:E.
  - intros [= <-]. now apply totalLength_push with ls.
  - destruct (includes objectPrototypeKeys _); [discriminate|].
    intros [= <-]. rewrite (push_fresh _ _ _ E), totalLength_app.
    unfold totalLength. simpl. lia.
Qed.

Lemma forEachPoi_totalLength (rows : list PoiRow) (m m' : CategoryMap) :
  forEachPoi m rows = inr m' ->
  totalLength m' = (totalLength m + List.length rows)%nat.
Proof.
  revert m. induction rows as [|poi rows IH]; intros m; simpl.
  - intros [= <-]. lia.
  - destruct (addPoi m poi) as [e|m1] eqn:E; [discriminate|].
    intro H. rewrite (IH _ H), (addPoi_totalLength _ _ _ E). lia.
Qed.

(** ** Successful runs *)

Section Runs.

Context {gis : PostGIS}.
Variable w : World.
Variables village surveyNumber : string.

Lemma falsy_false (t : option string) :
  falsy t = false -> exists token, t = Some token /\ token <> EmptyString.
Proof.
  destruct t as [token|]; simpl; [|discriminate].
  intro E. exists token. split; [reflexivity|].
  intros ->. discriminate.
Qed.

Lemma falsy_token (token : string) : token <> EmptyString -> falsy (Some token) = false.
Proof.
  intro H. simpl. destruct token; [congruence|reflexivity].
Qed.

Lemma analyzeIsochrone_inv (longitude latitude : Q) (iso : GeoJSON) (fb : bool)
      (r : AnalysisResult) :
  outcome (analyzeIsochrone w village surveyNumber longitude latitude iso fb)
  = inr (Analysis r) ->
  exists poiResult categoryMap policeData hospitalData roadData ftlResult tanksGeometry,
    selectPois (pool w) iso = inr poiResult
    /\ forEachPoi [] poiResult = inr categoryMap
    /\ outcome (getNearestFeature w village surveyNumber "ts_policestations") = inr policeData
    /\ outcome (getNearestFeature w village surveyNumber "ts_hospitals") = inr hospitalData
    /\ outcome (getNearestFeature w village surveyNumber "ts_main_roads") = inr roadData
    /\ selectFtl (pool w) iso = inr ftlResult
    /\ selectTanksGeometry (pool w) iso = inr tanksGeometry
    /\ r = buildResult village surveyNumber longitude latitude iso fb
                       poiResult categoryMap policeData hospitalData roadData
                       ftlResult tanksGeometry (now w).
Proof.
  unfold analyzeIsochrone. intro H.
  apply outcome_bind_inr in H as (poiResult & H1 & H).
  apply outcome_bind_inr in H as (categoryMap & H2 & H).
  apply outcome_bind_inr in H as (policeData & H3 & H).
  apply outcome_bind_inr in H as (hospitalData & H4 & H).
  apply outcome_bind_inr in H as (roadData & H5 & H).
  apply outcome_bind_inr in H as (ftlResult & H6 & H).
  apply outcome_bind_inr in H as (tanksGeometry & H7 & H).
  simpl in H. injection H as <-.
  exists poiResult, categoryMap, policeData, hospitalData, roadData, ftlResult, tanksGeometry.
  repeat split; assumption.
Qed.

Lemma analyze_inv (r : AnalysisResult) :
  outcome (analyze w village surveyNumber) = inr (Analysis r) ->
  Run w village surveyNumber r.
Proof.
  unfold analyze. intro H.
  apply outcome_bind_inr in H as (surveyResult & H1 & H).
  rewrite outcome_poolQuery in H1.
  destruct surveyResult as [|survey others]; [discriminate|].
  destruct (falsy (MAPBOX_TOKEN w)) eqn:T; [discriminate|].
  destruct (falsy_false _ T) as (token & Tk & Tne).
  rewrite Tk in H.
  apply outcome_bind_inr in H as ([iso fb] & H2 & H).
  apply analyzeIsochrone_inv in H
    as (poiResult & categoryMap & policeData & hospitalData & roadData
        & ftlResult & tanksGeometry & P1 & P2 & P3 & P4 & P5 & P6 & P7 & ->).
  now apply run_intro with others token.
Qed.

Lemma analyzeLocation_inv (r : AnalysisResult) :
  outcome (analyzeLocation w village surveyNumber) = inr (Analysis r) ->
  Run w village surveyNumber r.
Proof.
  unfold analyzeLocation. intro H. apply analyze_inv.
  destruct (analyze w village surveyNumber) as [t [e|a]]; simpl in *.
  - discriminate.
  - exact H.
Qed.


End Runs.

(** ** What the category map holds *)

Lemma push_keys (m : CategoryMap) (key : string) (loc : Location) :
  map fst (push m key loc) = map fst m.
Proof.
  induction m as [|[k ls] m IH]; simpl; [reflexivity|].
  destruct (String.eqb k key); simpl; [reflexivity|now rewrite IH].
Qed.

Lemma ownProperty_None (m : CategoryMap) (key : string) :
  ownProperty m key = None <-> ~ In key (map fst m).
Proof.
  induction m as [|[k ls] m IH]; simpl.
  - tauto.
  - destruct (String.eqb k key) eqn:E.
    + apply String.eqb_eq in E. split; [discriminate|]. intro H. tauto.
    + apply String.eqb_neq in E. rewrite IH. tauto.
Qed.

Lemma ownProperty_In (m : CategoryMap) (key : string) (ls : list Location) :
  NoDup (map fst m) -> In (key, ls) m -> ownProperty m key = Some ls.
Proof.
  induction m as [|[k l] m IH]; simpl; [tauto|].
  intros N [H|H].
  - injection H as -> ->. now rewrite String.eqb_refl.
  - inversion N as [|? ? Hk N']; subst.
    destruct (String.eqb k key) eqn:E.
    + apply String.eqb_eq in E. subst k. exfalso. apply Hk.
      change key with (fst (key, ls)). now apply in_map.
    + now apply IH.
Qed.

Lemma addPoi_keys_NoDup (m m' : CategoryMap) (poi : PoiRow) :
  NoDup (map fst m) -> addPoi m poi = inr m' -> NoDup (map fst m').
Proof.
  unfold addPoi. intro N.
  destruct (ownProperty m (propertyKey (poi_category poi))) as [ls|] eqn:E.
  - intros [= <-]. now rewrite push_keys.
  - destruct (includes objectPrototypeKeys _); [discriminate|].
    intros [= <-]. rewrite (push_fresh _ _ _ E), map_app. simpl.
    apply NoDup_app; [assumption|constructor; [simpl; tauto|constructor]|].
    intros k Hk [<-|[]]. now apply ownProperty_None in E.
Qed.

Lemma forEachPoi_keys_NoDup (rows : list PoiRow) (m m' : CategoryMap) :
  NoDup (map fst m) -> forEachPoi m rows = inr m' -> NoDup (map fst m').
Proof.
  revert m. induction rows as [|poi rows IH]; intros m N; simpl.
  - now intros [= <-].
  - destruct (addPoi m poi) as [e|m1] eqn:E; [discriminate|].
    apply IH. now apply addPoi_keys_NoDup with m poi.
Qed.

Lemma arrayAt_push (m : CategoryMap) (key k : string) (loc : Location) :
  arrayAt (push m key loc) k
  = if String.eqb key k
    then (match ownProperty m key with Some ls => ls ++ [loc] | None => [] end)
    else arrayAt m k.
Proof.
  unfold arrayAt.
  induction m as [|[k0 ls] m IH]; simpl.
  - now destruct (String.eqb key k).
  - destruct (String.eqb k0 key) eqn:E0; simpl.
    + apply String.eqb_eq in E0. subst k0.
      now destruct (String.eqb key k).
    + destruct (String.eqb k0 k) eqn:E1.
      * apply String.eqb_eq in E1. subst k0.
        rewrite String.eqb_sym in E0. now rewrite E0.
      * exact IH.
Qed.

Lemma arrayAt_app_fresh (m : CategoryMap) (key k : string) (ls : list Location) :
  ownProperty m key = None ->
  arrayAt (m ++ [(key, ls)]) k = if String.eqb key k then ls else arrayAt m k.
Proof.
  unfold arrayAt.
  induction m as [|[k0 l0] m IH]; simpl.
  - intros _. now destruct (String.eqb key k).
  - destruct (String.eqb k0 key) eqn:E0; [discriminate|].
    intro H. destruct (String.eqb k0 k) eqn:E1.
    + apply String.eqb_eq in E1. subst k0.
      rewrite String.eqb_sym in E0. now rewrite E0.
    + now apply IH.
Qed.

Lemma addPoi_arrayAt (m m' : CategoryMap) (poi : PoiRow) (k : string) :
  addPoi m poi = inr m' ->
  arrayAt m' k = arrayAt m k ++ map locationOf (rowsWithKey k [poi]).
Proof.
  unfold addPoi, rowsWithKey. cbn [filter].
  destruct (ownProperty m (propertyKey (poi_category poi))) as [ls|] eqn:E.
  - intros [= <-]. rewrite arrayAt_push, E.
    destruct (String.eqb (propertyKey (poi_category poi)) k) eqn:Ek; simpl.
    + apply String.eqb_eq in Ek. subst k. unfold arrayAt. now rewrite E.
    + now rewrite app_nil_r.
  - destruct (includes objectPrototypeKeys _); [discriminate|].
    intros [= <-]. rewrite (push_fresh _ _ _ E), (arrayAt_app_fresh m _ k _ E).
    destruct (String.eqb (propertyKey (poi_category poi)) k) eqn:Ek; simpl.
    + apply String.eqb_eq in Ek. subst k. unfold arrayAt. now rewrite E.
    + now rewrite app_nil_r.
Qed.

Lemma forEachPoi_arrayAt (rows : list PoiRow) (m m' : CategoryMap) (k : string) :
  forEachPoi m rows = inr m' ->
  arrayAt m' k = arrayAt m k ++ map locationOf (rowsWithKey k rows).
Proof.
  revert m. induction rows as [|poi rows IH]; intros m; simpl.
  - intros [= <-]. unfold rowsWithKey. simpl. now rewrite app_nil_r.
  - destruct (addPoi m poi) as [e|m1] eqn:E; [discriminate|].
    intro H. rewrite (IH _ H), (addPoi_arrayAt _ _ _ k E), <- app_assoc.
    f_equal. unfold rowsWithKey. simpl.
    destruct (String.eqb (propertyKey (poi_category poi)) k); reflexivity.
Qed.

(** Every array of the map is non-empty: a key is created by the row
    that is pushed under it. *)
Lemma addPoi_nonempty (m m' : CategoryMap) (poi : PoiRow) :
  Forall (fun e => snd e <> []) m -> addPoi m poi = inr m' ->
  Forall (fun e => snd e <> []) m'.
Proof.
  unfold addPoi. intro F.
  destruct (ownProperty m (propertyKey (poi_category poi))) as [ls|] eqn:E.
  - intros [= <-]. clear E.
    induction m as [|[k l] m IH]; simpl; [constructor|].
    inversion F as [|? ? Hl F']; subst.
    destruct (String.eqb k _); constructor; simpl in *; auto.
    now destruct l.
  - destruct (includes objectPrototypeKeys _); [discriminate|].
    intros [= <-]. rewrite (push_fresh _ _ _ E).
    apply Forall_app. split; [assumption|]. constructor; [|constructor].
    simpl. discriminate.
Qed.

Lemma forEachPoi_nonempty (rows : list PoiRow) (m m' : CategoryMap) :
  Forall (fun e => snd e <> []) m -> forEachPoi m rows = inr m' ->
  Forall (fun e => snd e <> []) m'.
Proof.
  revert m. induction rows as [|poi rows IH]; intros m F; simpl.
  - now intros [= <-].
  - destruct (addPoi m poi) as [e|m1] eqn:E; [discriminate|].
    apply IH. now apply addPoi_nonempty with m poi.
Qed.

(** ** The breakdown *)

Lemma poiBreakdown_perm (m : CategoryMap) (n : nat) :
  Permutation (poiBreakdown m n) (map (aggregateOf n) m).
Proof.
  unfold poiBreakdown.
  eapply perm_trans; [apply stableSort_perm|].
  apply (Permutation_map (aggregateOf n)), ownEntries_perm.
Qed.

Lemma poiBreakdown_In (m : CategoryMap) (n : nat) (a : CategoryAggregate) :
  In a (poiBreakdown m n) <-> exists e, In e m /\ a = aggregateOf n e.
Proof.
  split.
  - intro H. apply (Permutation_in _ (poiBreakdown_perm m n)) in H.
    apply in_map_iff in H as (e & <- & He). eauto.
  - intros (e & He & ->).
    apply (Permutation_in _ (Permutation_sym (poiBreakdown_perm m n))).
    now apply in_map.
Qed.

Lemma poiBreakdown_sum (m : CategoryMap) (n : nat) :
  list_sum (map count (poiBreakdown m n)) = totalLength m.
Proof.
  rewrite (list_sum_perm _ _ (Permutation_map count (poiBreakdown_perm m n))).
  unfold totalLength. now rewrite map_map.
Qed.

Lemma poiBreakdown_categories (m : CategoryMap) (n : nat) :
  Permutation (map category (poiBreakdown m n)) (map fst m).
Proof.
  eapply perm_trans; [apply (Permutation_map category), poiBreakdown_perm|].
  rewrite map_map. apply Permutation_refl.
Qed.

Lemma poiBreakdown_length (m : CategoryMap) (n : nat) :
  List.length (poiBreakdown m n) = List.length (Object_keys m).
Proof.
  unfold Object_keys. rewrite length_map.
  rewrite (Permutation_length (poiBreakdown_perm m n)), length_map.
  symmetry. apply Permutation_length, ownEntries_perm.
Qed.

Lemma forEachPoi_empty (m : CategoryMap) (rows : list PoiRow) :
  forEachPoi [] rows = inr m -> List.length rows = 0%nat -> m = [].
Proof.
  destruct rows; simpl; [|discriminate]. now intros [= <-].
Qed.

Lemma ofNat_eq0 (n : nat) : Qeq_bool (ofNat n) 0 = true -> n = 0%nat.
Proof.
  intro H. apply Qeq_bool_eq in H. unfold ofNat, Qeq in H. simpl in H. lia.
Qed.

Lemma percentOf_finite (n total : nat) :
  total <> 0%nat -> isFinite (percentOf n total) = true.
Proof.
  intro H. unfold percentOf, JS.div.
  destruct (Qeq_bool (ofNat total) 0) eqn:E; [|reflexivity].
  now apply ofNat_eq0 in E.
Qed.

Lemma list_sum_In (l : list nat) (n : nat) : In n l -> (n <= list_sum l)%nat.
Proof.
  induction l as [|x l IH]; simpl; [tauto|].
  intros [->|H]; [lia|]. specialize (IH H). lia.
Qed.

(** No percent of a result is the value of a division by zero. *)
Lemma percents_finite (rows : list PoiRow) (m : CategoryMap) :
  forEachPoi [] rows = inr m ->
  Forall (fun a => isFinite (percent a) = true) (poiBreakdown m (List.length rows))
  /\ Forall (fun b => isFinite (sb_percent b) = true)
            (supportiveBusinesses (poiBreakdown m (List.length rows))).
Proof.
  intro H.
  pose proof (forEachPoi_totalLength _ _ _ H) as T. simpl in T.
  pose proof (forEachPoi_nonempty rows [] m (Forall_nil _) H) as NE.
  assert (C : forall a, In a (poiBreakdown m (List.length rows)) -> count a <> 0%nat).
  { intros a Ha. apply poiBreakdown_In in Ha as (e & He & ->). simpl.
    rewrite Forall_forall in NE. specialize (NE e He).
    destruct (snd e); [congruence|discriminate]. }
  split; apply Forall_forall.
  - intros a Ha. pose proof (C a Ha) as Ca.
    apply poiBreakdown_In in Ha as (e & He & ->). simpl in *.
    apply percentOf_finite. rewrite <- T.
    assert (L : (List.length (snd e) <= totalLength m)%nat).
    { apply list_sum_In. unfold totalLength.
      apply (in_map (fun e => List.length (snd e))) in He. exact He. }
    lia.
  - intros b Hb. unfold supportiveBusinesses in Hb.
    apply in_map_iff in Hb as (item & <- & Hi). simpl.
    apply percentOf_finite. rewrite sumCounts_list_sum.
    assert (L : (count item <= list_sum (map count
                   (filter isSupportive (poiBreakdown m (List.length rows)))))%nat).
    { apply list_sum_In. now apply in_map. }
    apply filter_In in Hi as [Hi _]. specialize (C item Hi). lia.
Qed.

(** ** Counts *)

Lemma run_counts_sum {gis : PostGIS}
      (w : World) (village surveyNumber : string) (r : AnalysisResult) :
  Run w village surveyNumber r ->
  list_sum (map count (poi_breakdown r)) = total_pois r.
Proof.
  intros [survey others token iso fb rows m police hospital road ftl tanks
          _ _ _ _ _ Hm _ _ _ _ _].
  simpl. rewrite poiBreakdown_sum.
  now rewrite (forEachPoi_totalLength _ _ _ Hm).
Qed.

(** C6. In every analysis result the [count] fields of [poi_breakdown]
    add up to [total_pois], and the categories of its entries are
    pairwise distinct: every returned POI is counted in exactly one
    category aggregate. *)
Theorem breakdown_counts_sum_to_total {gis : PostGIS}
        (w : World) (village surveyNumber : string) (r : AnalysisResult) :
  outcome (analyzeLocation w village surveyNumber) = inr (Analysis r) ->
  list_sum (map count (poi_breakdown r)) = total_pois r
  /\ NoDup (map category (poi_breakdown r)).
Proof.
  intro H. apply analyzeLocation_inv in H. split.
  - now apply run_counts_sum with w village surveyNumber.
  - destruct H as [survey others token iso fb rows m police hospital road ftl tanks
                   _ _ _ _ _ Hm _ _ _ _ _].
    simpl. apply (Permutation_NoDup (Permutation_sym (poiBreakdown_categories m _))).
    apply (forEachPoi_keys_NoDup rows [] m); [constructor|assumption].
Qed.

Lemma breakdown_counts_sum_to_total_witness :
  list_sum (map count (poi_breakdown Sample.scenario)) = total_pois Sample.scenario
  /\ NoDup (map category (poi_breakdown Sample.scenario)).
Proof.
  apply (breakdown_counts_sum_to_total Planar.world "Hanamkonda" "17" Sample.scenario).
  vm_compute. reflexivity.
Defined.

(** C7. When the POI query returns no POI, every percent of
    [poi_breakdown] and of [supportive_businesses] is a finite number
    (no division by zero has been evaluated: both lists are empty), the
    supportive subset is empty, and [business_score] is 0. *)
Theorem no_pois_no_division {gis : PostGIS}
        (w : World) (village surveyNumber : string) (r : AnalysisResult) :
  outcome (analyzeLocation w village surveyNumber) = inr (Analysis r) ->
  total_pois r = 0%nat ->
  Forall (fun a => isFinite (percent a) = true) (poi_breakdown r)
  /\ Forall (fun b => isFinite (sb_percent b) = true) (supportive_businesses r)
  /\ poi_breakdown r = []
  /\ supportive_businesses r = []
  /\ business_score (score_breakdown r) == 0.
Proof.
  intro H. apply analyzeLocation_inv in H.
  destruct H as [survey others token iso fb rows m police hospital road ftl tanks
                 _ _ _ _ _ Hm _ _ _ _ _].
  simpl. intro Z.
  destruct (percents_finite rows m Hm) as [F1 F2].
  rewrite (forEachPoi_empty m rows Hm Z) in *.
  repeat split; try assumption; reflexivity.
Qed.

Lemma no_pois_no_division_witness :
  Forall (fun a => isFinite (percent a) = true) (poi_breakdown Sample.remote)
  /\ Forall (fun b => isFinite (sb_percent b) = true) (supportive_businesses Sample.remote)
  /\ poi_breakdown Sample.remote = []
  /\ supportive_businesses Sample.remote = []
  /\ business_score (score_breakdown Sample.remote) == 0.
Proof.
  apply (no_pois_no_division Planar.world "Kazipet" "4" Sample.remote).
  - vm_compute. reflexivity.
  - reflexivity.
Defined.

(** ** Labels *)

Lemma ownProperty_Some_In (m : CategoryMap) (key : string) (ls : list Location) :
  ownProperty m key = Some ls -> In (key, ls) m.
Proof.
  induction m as [|[k l] m IH]; simpl; [discriminate|].
  destruct (String.eqb k key) eqn:E.
  - apply String.eqb_eq in E. subst k. intros [= ->]. now left.
  - intro H. right. now apply IH.
Qed.

Lemma selectPois_rows {gis : PostGIS} (db : Database) (iso : GeoJSON) (pois : list Poi) :
  ts_overture_poi_3 db = Some pois ->
  selectPois db iso = inr (map rowOfPoi (poisWithin iso pois)).
Proof.
  intro H. unfold selectPois. now rewrite H.
Qed.

Lemma rowsWithKey_rows {gis : PostGIS} (key : string) (pois : list Poi) :
  rowsWithKey key (map rowOfPoi pois) = map rowOfPoi (poisWithKey key pois).
Proof.
  unfold rowsWithKey, poisWithKey.
  induction pois as [|p pois IH]; simpl; [reflexivity|].
  destruct (String.eqb (propertyKey (p_category p)) key); simpl; now rewrite IH.
Qed.

(** What the breakdown of a run holds, in terms of the POIs that the
    query returned: one entry per property key, with the locations of
    the POIs stored under that key. *)
Lemma breakdown_of_rows (rows : list PoiRow) (m : CategoryMap) :
  forEachPoi [] rows = inr m ->
  (forall a, In a (poiBreakdown m (List.length rows)) ->
             locations a = map locationOf (rowsWithKey (category a) rows)
             /\ count a = List.length (locations a))
  /\ (forall row, In row rows ->
                  exists a, In a (poiBreakdown m (List.length rows))
                            /\ category a = propertyKey (poi_category row)).
Proof.
  intro H.
  pose proof (forEachPoi_keys_NoDup rows [] m (NoDup_nil _) H) as N.
  split.
  - intros a Ha. apply poiBreakdown_In in Ha as ([k ls] & He & ->). simpl.
    split; [|reflexivity].
    pose proof (forEachPoi_arrayAt rows [] m k H) as A. simpl in A.
    unfold arrayAt in A at 1. now rewrite (ownProperty_In m k ls N He) in A.
  - intros row Hrow.
    pose proof (forEachPoi_arrayAt rows [] m (propertyKey (poi_category row)) H) as A.
    simpl in A.
    assert (I : In (locationOf row)
                   (map locationOf (rowsWithKey (propertyKey (poi_category row)) rows))).
    { apply in_map. unfold rowsWithKey. apply filter_In. split; [assumption|].
      apply String.eqb_refl. }
    rewrite <- A in I. unfold arrayAt in I.
    destruct (ownProperty m (propertyKey (poi_category row))) as [ls|] eqn:E; [|contradiction].
    exists (aggregateOf (List.length rows) (propertyKey (poi_category row), ls)).
    split; [|reflexivity].
    apply poiBreakdown_In. eexists. split; [|reflexivity].
    now apply ownProperty_Some_In.
Qed.

(** C10. A POI of the isochrone whose category is NULL is kept: the
    breakdown has an entry whose category is the string [null], that
    entry holds the location of the POI and counts it; every entry
    counts exactly the intersecting POIs whose label coerces to its
    category, so an entry [Other] counts only POIs labelled [Other];
    [total_pois] is the number of intersecting POIs, and the counts add
    up to it. *)
Theorem unlabeled_poi_kept_under_null {gis : PostGIS}
        (w : World) (village surveyNumber : string) (r : AnalysisResult)
        (pois : list Poi) (p : Poi) :
  outcome (analyzeLocation w village surveyNumber) = inr (Analysis r) ->
  ts_overture_poi_3 (pool w) = Some pois ->
  In p (poisWithin (isochrone_geometry (map_data r)) pois) ->
  p_category p = None ->
  let within := poisWithin (isochrone_geometry (map_data r)) pois in
  (exists a, In a (poi_breakdown r)
             /\ category a = "null"%string
             /\ In {| lat := ST_Y (p_geom p); lon := ST_X (p_geom p) |} (locations a)
             /\ count a = List.length (locations a))
  /\ (forall a, In a (poi_breakdown r) ->
                count a = List.length (poisWithKey (category a) within))
  /\ (forall a, In a (poi_breakdown r) -> category a = "Other"%string ->
                count a = List.length
                            (filter (fun q => match p_category q with
                                              | Some label => String.eqb label "Other"
                                              | None => false
                                              end) within))
  /\ total_pois r = List.length within
  /\ list_sum (map count (poi_breakdown r)) = total_pois r.
Proof.
  intros H Hp Hin Hnull within.
  apply analyzeLocation_inv in H.
  pose proof (run_counts_sum w village surveyNumber r H) as S.
  destruct H as [survey others token iso fb rows m police hospital road ftl tanks
                 _ _ _ _ Hrows Hm _ _ _ _ _].
  simpl in *. subst within.
  rewrite (selectPois_rows _ iso pois Hp) in Hrows. injection Hrows as <-.
  destruct (breakdown_of_rows _ m Hm) as [B1 B2].
  assert (C : forall a, In a (poiBreakdown m (List.length (map rowOfPoi (poisWithin iso pois)))) ->
                        count a = List.length (poisWithKey (category a) (poisWithin iso pois))).
  { intros a Ha. destruct (B1 a Ha) as [L ->].
    now rewrite L, rowsWithKey_rows, !length_map. }
  repeat split.
  - destruct (B2 (rowOfPoi p) (in_map rowOfPoi _ _ Hin)) as (a & Ha & Ka).
    simpl in Ka. rewrite Hnull in Ka. simpl in Ka.
    exists a. repeat split; try assumption.
    + destruct (B1 a Ha) as [-> _]. rewrite Ka.
      change {| lat := ST_Y (p_geom p); lon := ST_X (p_geom p) |}
        with (locationOf (rowOfPoi p)).
      apply in_map. unfold rowsWithKey. apply filter_In. split.
      * now apply in_map.
      * simpl. now rewrite Hnull.
    + now destruct (B1 a Ha).
  - exact C.
  - intros a Ha Ka. rewrite (C a Ha), Ka. unfold poisWithKey.
    f_equal. apply filter_ext. intro q. now destruct (p_category q).
  - now rewrite length_map.
  - exact S.
Qed.

Lemma unlabeled_poi_kept_under_null_witness :
  (exists a, In a (poi_breakdown Sample.withUnlabeled)
             /\ category a = "null"%string
             /\ In {| lat := ST_Y (p_geom Planar.nameless);
                      lon := ST_X (p_geom Planar.nameless) |} (locations a)
             /\ count a = List.length (locations a))
  /\ (forall a, In a (poi_breakdown Sample.withUnlabeled) ->
                count a = List.length
                            (poisWithKey (category a)
                               (poisWithin (isochrone_geometry (map_data Sample.withUnlabeled))
                                           Planar.unlabeled)))
  /\ (forall a, In a (poi_breakdown Sample.withUnlabeled) -> category a = "Other"%string ->
                count a = List.length
                            (filter (fun q => match p_category q with
                                              | Some label => String.eqb label "Other"
                                              | None => false
                                              end)
                               (poisWithin (isochrone_geometry (map_data Sample.withUnlabeled))
                                           Planar.unlabeled)))
  /\ total_pois Sample.withUnlabeled
     = List.length (poisWithin (isochrone_geometry (map_data Sample.withUnlabeled))
                               Planar.unlabeled)
  /\ list_sum (map count (poi_breakdown Sample.withUnlabeled))
     = total_pois Sample.withUnlabeled.
Proof.
  apply (unlabeled_poi_kept_under_null Sample.unlabeledWorld "Hanamkonda" "17"
           Sample.withUnlabeled Planar.unlabeled Planar.nameless).
  - vm_compute. reflexivity.
  - reflexivity.
  - vm_compute. left. reflexivity.
  - reflexivity.
Defined.

(** ** Score bounds *)

Lemma poiScore_bounds (n : nat) : 0 <= poiScore n <= 30.
Proof.
  unfold poiScore. pose proof (ofNat_nonneg n). split.
  - apply Math_min_glb; divs; lra.
  - apply Math_min_le_l.
Qed.

Lemma businessScore_bounds (n : nat) : 0 <= businessScore n <= 15.
Proof.
  unfold businessScore. pose proof (ofNat_nonneg n). split.
  - apply Math_min_glb; divs; lra.
  - apply Math_min_le_l.
Qed.

Lemma accessibilityScore_bounds (n : nat) : 0 <= accessibilityScore n <= 10.
Proof.
  unfold accessibilityScore. pose proof (ofNat_nonneg n). split.
  - apply Math_min_glb; divs; lra.
  - apply Math_min_le_l.
Qed.

Lemma addAmenity_ge (cap : Q) (data : option NearestFeature) (score : Q) :
  score <= addAmenity cap data score.
Proof.
  destruct data as [d|]; simpl; [|lra].
  pose proof (Math_max_ge_l 0 (cap - distance_m d / 1000)). lra.
Qed.


(** The reported hazard percentage is 0 or an integer from 9 on. *)
Lemma ftlPercentage_range (rows : list FtlRow) :
  ftlPercentage rows = 0%Z \/ (9 <= ftlPercentage rows)%Z.
Proof.
  unfold ftlPercentage.
  destruct rows as [|row rows]; [now left|].
  destruct (isochrone_area row) as [area|]; [|now left].
  destruct (gtb area 0); [|now left].
  destruct (gtb _ 9) eqn:E; [|now left].
  right. apply gtb_true in E. apply Math_round_ge.
  change (inject_Z 9) with 9. now apply Qlt_le_weak.
Qed.






(** ** The scoring laws *)




Lemma addAmenity_spec (cap : Q) (data : option NearestFeature) (score : Q) :
  addAmenity cap data score == score + Spec.component cap data.
Proof.
  destruct data as [d|]; simpl.
  - now rewrite Math_max_Qmax.
  - lra.
Qed.



Lemma one_decimal_le (x : Q) (c : Z) :
  x <= inject_Z c -> Spec.one_decimal x <= inject_Z c.
Proof.
  intro H. unfold Spec.one_decimal.
  apply Qle_shift_div_r; [reflexivity|].
  change 10 with (inject_Z 10). rewrite <- inject_Z_mult, <- Zle_Qle.
  apply Math_round_le. rewrite inject_Z_mult. change (inject_Z 10) with 10. lra.
Qed.

Lemma one_decimal_comp (x y : Q) : x == y -> Spec.one_decimal x == Spec.one_decimal y.
Proof.
  intro E. unfold Spec.one_decimal, Spec.round. now rewrite E.
Qed.

(** A reported sub-score is the sub-score rounded to one decimal: the
    cap applied after rounding never cuts. *)
Lemma reported_spec (c : Z) (x y : Q) :
  (c <= 100)%Z -> 0 <= x -> x <= inject_Z c -> x == y ->
  Math_min (inject_Z c) (toFixed 1 x) == Spec.one_decimal y.
Proof.
  intros Hc H0 H1 E.
  assert (H100 : x <= 100).
  { eapply Qle_trans; [exact H1|]. change 100 with (inject_Z 100). now rewrite <- Zle_Qle. }
  rewrite <- (one_decimal_comp x y E), <- (toFixed_one_decimal x H0 H100).
  pose proof (one_decimal_le x c H1) as L.
  rewrite <- (toFixed_one_decimal x H0 H100) in L.
  unfold Math_min. destruct (Qle_bool (inject_Z c) (toFixed 1 x)) eqn:B; [|reflexivity].
  apply Qle_bool_iff in B. now apply Qle_antisym.
Qed.





(** ** Hazard overlap *)


Example threshold_at_nine :
  ftlPercentage [ {| total_intersection := 9; isochrone_area := Some 100 |} ] = 0%Z.
Proof. reflexivity. Qed.

Example threshold_above_nine :
  ftlPercentage [ {| total_intersection := 901 # 100; isochrone_area := Some 100 |} ] = 9%Z.
Proof. reflexivity. Qed.




(** ** When the analysis succeeds *)

Section Success.

Context {gis : PostGIS}.
Variable w : World.
Variables village surveyNumber : string.
Variable c : Centroid.
Variable others : list Centroid.
Hypothesis parcel : surveyCentroid (pool w) village surveyNumber = inr (c :: others).

Lemma selectCentroid_found :
  exists rest,
    selectCentroid (pool w) village surveyNumber
    = inr ({| sr_longitude := ST_X (c_geom c);
              sr_latitude := ST_Y (c_geom c);
              geom_json := ST_AsGeoJSON (c_geom c) |} :: rest).
Proof.
  unfold selectCentroid. rewrite parcel. simpl. eauto.
Qed.

Lemma bufferFallback_outcome :
  outcome (bufferFallback w village surveyNumber) = inr (fallbackBufferOf c).
Proof.
  unfold bufferFallback.
  rewrite (outcome_bind_ok _ _ (map (fun c0 => {| buffer_geom := fallbackBufferOf c0 |})
                                    (c :: others))).
  - reflexivity.
  - rewrite outcome_poolQuery. unfold selectBuffer. now rewrite parcel.
Qed.

Lemma requestIsochrone_throws (token : string) :
  RoutingFails (fetch w (isoRequest c token)) ->
  exists e, outcome (requestIsochrone w (ST_X (c_geom c)) (ST_Y (c_geom c)) token) = inl e.
Proof.
  unfold requestIsochrone. fold (isoRequest c token).
  intro F. rewrite (outcome_bind_ok _ _ tt) by reflexivity.
  inversion F as [msg Eq | resp Hok Eq | resp data Hok Hj Hf Eq
                  | resp data feature rest g Hok Hj Hf Hg T1 T2 Eq]; clear F.
  - simpl. eauto.
  - rewrite Hok. simpl. eauto.
  - rewrite Hok, Hj. simpl. destruct Hf as [-> | ->]; simpl; eauto.
  - rewrite Hok, Hj, Hf, Hg. simpl.
    apply String.eqb_neq in T1, T2. rewrite T1, T2. simpl. eauto.
Qed.

Lemma resolveIsochrone_fallback (token : string) :
  RoutingFails (fetch w (isoRequest c token)) ->
  outcome (resolveIsochrone w village surveyNumber
             (ST_X (c_geom c)) (ST_Y (c_geom c)) token)
  = inr (fallbackBufferOf c, true).
Proof.
  intro F. destruct (requestIsochrone_throws token F) as (e & E).
  unfold resolveIsochrone.
  rewrite (outcome_try_caught _ _ e) by (now apply outcome_bind_throw).
  now rewrite (outcome_bind_ok _ _ _ bufferFallback_outcome).
Qed.


End Success.

Lemma addPoi_accepts (m : CategoryMap) (poi : PoiRow) :
  storable (poi_category poi) = true -> exists m', addPoi m poi = inr m'.
Proof.
  unfold storable, addPoi. rewrite negb_true_iff. intros ->.
  destruct (ownProperty m _); eauto.
Qed.

Lemma forEachPoi_accepts (rows : list PoiRow) (m : CategoryMap) :
  forallb (fun poi => storable (poi_category poi)) rows = true ->
  exists m', forEachPoi m rows = inr m'.
Proof.
  revert m. induction rows as [|poi rows IH]; intros m; simpl.
  - eauto.
  - rewrite andb_true_iff. intros [Hp Hr].
    destruct (addPoi_accepts m poi Hp) as (m1 & ->). now apply IH.
Qed.

Lemma forallb_filter {A} (f g : A -> bool) (l : list A) :
  forallb f l = true -> forallb f (filter g l) = true.
Proof.
  induction l as [|x l IH]; simpl; [reflexivity|].
  rewrite andb_true_iff. intros [Hx Hl].
  destruct (g x); simpl; [rewrite Hx|]; auto.
Qed.

Lemma forallb_map {A B} (f : B -> bool) (g : A -> B) (l : list A) :
  forallb f (map g l) = forallb (fun x => f (g x)) l.
Proof.
  induction l as [|x l IH]; simpl; [reflexivity|now rewrite IH].
Qed.

Section Downstream.

Context {gis : PostGIS}.
Variable w : World.
Variables village surveyNumber : string.
Variable c : Centroid.
Variable others : list Centroid.
Hypothesis parcel : surveyCentroid (pool w) village surveyNumber = inr (c :: others).

Lemma parcel_alone : others = [].
Proof.
  unfold surveyCentroid in parcel.
  destruct (relation _ _) as [e|rows]; [discriminate|]. simpl in parcel.
  destruct (filter _ rows) as [|x l]; [discriminate|].
  simpl in parcel. now injection parcel as _ <-.
Qed.

Lemma getNearestFeature_outcome (tableName : string) (table : list geometry) :
  includes validTables tableName = true ->
  facilityTable (pool w) tableName = Some table ->
  outcome (getNearestFeature w village surveyNumber tableName)
  = inr (nearestFeatureIn c table).
Proof.
  intros V T. unfold getNearestFeature. rewrite V. cbn [negb].
  assert (S : selectNearest (pool w) tableName village surveyNumber
              = inr (map (fun f => {| dist_m := ST_Distance (to_geography (c_geom c))
                                                            (to_geography f);
                                      nr_lat := ST_Y f; nr_lon := ST_X f |})
                         (nearestTo (c_geom c) table))).
  { unfold selectNearest. rewrite parcel, T, parcel_alone. simpl.
    now rewrite app_nil_r. }
  rewrite (outcome_bind_ok _ _ _ (eq_trans (outcome_poolQuery _ _) S)).
  unfold nearestFeatureIn. now destruct (nearestTo (c_geom c) table).
Qed.


Lemma analyzeIsochrone_succeeds (longitude latitude : Q) (iso : GeoJSON) (fb : bool) :
  storeReady (pool w) = true ->
  exists pois police hospitals roads poiResult categoryMap ftlResult tanksGeometry,
    ts_overture_poi_3 (pool w) = Some pois
    /\ ts_policestations (pool w) = Some police
    /\ ts_hospitals (pool w) = Some hospitals
    /\ ts_main_roads (pool w) = Some roads
    /\ outcome (analyzeIsochrone w village surveyNumber longitude latitude iso fb)
       = inr (Analysis
                (buildResult village surveyNumber longitude latitude iso fb
                             poiResult categoryMap
                             (nearestFeatureIn c police) (nearestFeatureIn c hospitals)
                             (nearestFeatureIn c roads)
                             ftlResult tanksGeometry (now w))).
Proof.
  unfold storeReady. rewrite !andb_true_iff.
  intros [[[[[_ Hp] Hpo] Hh] Hr] Ht].
  destruct (ts_overture_poi_3 (pool w)) as [pois|] eqn:Ep; [|discriminate].
  destruct (ts_policestations (pool w)) as [police|] eqn:Epo; [|discriminate].
  destruct (ts_hospitals (pool w)) as [hospitals|] eqn:Eh; [|discriminate].
  destruct (ts_main_roads (pool w)) as [roads|] eqn:Er; [|discriminate].
  destruct (ts_tanks (pool w)) as [tanks|] eqn:Et; [|discriminate].
  assert (L : forallb (fun poi => storable (poi_category poi))
                      (map rowOfPoi (poisWithin iso pois)) = true).
  { rewrite forallb_map. simpl. now apply forallb_filter. }
  destruct (forEachPoi_accepts _ [] L) as (m & Hm).
  exists pois, police, hospitals, roads, (map rowOfPoi (poisWithin iso pois)), m.
  destruct (selectFtl (pool w) iso) as [e|ftl] eqn:Ef;
    [unfold selectFtl in Ef; rewrite Et in Ef; discriminate|].
  destruct (selectTanksGeometry (pool w) iso) as [e|tg] eqn:Eg;
    [unfold selectTanksGeometry in Eg; rewrite Et in Eg; discriminate|].
  exists ftl, tg. repeat split.
  unfold analyzeIsochrone.
  rewrite (outcome_bind_ok _ _ (map rowOfPoi (poisWithin iso pois)))
    by (rewrite outcome_poolQuery; now apply selectPois_rows).
  rewrite (outcome_bind_ok _ _ m) by exact Hm.
  rewrite (outcome_bind_ok _ _ (nearestFeatureIn c police))
    by (apply getNearestFeature_outcome; [reflexivity|exact Epo]).
  rewrite (outcome_bind_ok _ _ (nearestFeatureIn c hospitals))
    by (apply getNearestFeature_outcome; [reflexivity|exact Eh]).
  rewrite (outcome_bind_ok _ _ (nearestFeatureIn c roads))
    by (apply getNearestFeature_outcome; [reflexivity|exact Er]).
  rewrite (outcome_bind_ok _ _ ftl) by (now rewrite outcome_poolQuery).
  rewrite (outcome_bind_ok _ _ tg) by (now rewrite outcome_poolQuery).
  reflexivity.
Qed.

End Downstream.

(** ** Reachability: fallback and configuration *)

Lemma analyzeLocation_continues {gis : PostGIS} (w : World) (village surveyNumber : string)
      (c : Centroid) (others : list Centroid) (token : string)
      (iso : GeoJSON) (fb : bool) (value : Returned) :
  surveyCentroid (pool w) village surveyNumber = inr (c :: others) ->
  MAPBOX_TOKEN w = Some token -> token <> EmptyString ->
  outcome (resolveIsochrone w village surveyNumber
             (ST_X (c_geom c)) (ST_Y (c_geom c)) token) = inr (iso, fb) ->
  outcome (analyzeIsochrone w village surveyNumber
             (ST_X (c_geom c)) (ST_Y (c_geom c)) iso fb) = inr value ->
  outcome (analyzeLocation w village surveyNumber) = inr value.
Proof.
  intros P T N R A.
  destruct (selectCentroid_found w village surveyNumber c others P) as (rest & S).
  unfold analyzeLocation. apply outcome_try_ok. unfold analyze.
  rewrite (outcome_bind_ok _ _ _ (eq_trans (outcome_poolQuery _ _) S)).
  rewrite T, (falsy_token token N). cbn [sr_longitude sr_latitude].
  now rewrite (outcome_bind_ok _ _ _ R).
Qed.

(** C3. When the routing service gives no isochrone (no answer, a
    non-success status, no features, or a geometry that is neither a
    Polygon nor a MultiPolygon, a Point for one), the analysis of a
    known parcel on a store that answers its queries still succeeds;
    its result has [used_fallback] set, and its reachability geometry is
    the buffer of 1000 m around the parcel centre, taken in the
    projected frame and returned in geographic coordinates. *)
Theorem routing_failure_falls_back {gis : PostGIS}
        (w : World) (village surveyNumber : string)
        (c : Centroid) (others : list Centroid) (token : string) :
  surveyCentroid (pool w) village surveyNumber = inr (c :: others) ->
  MAPBOX_TOKEN w = Some token -> token <> EmptyString ->
  RoutingFails (fetch w (isoRequest c token)) ->
  storeReady (pool w) = true ->
  exists r,
    outcome (analyzeLocation w village surveyNumber) = inr (Analysis r)
    /\ used_fallback r = true
    /\ isochrone_geometry (map_data r)
       = ST_AsGeoJSON
           (ST_Transform
              (ST_Buffer (ST_Transform (c_geom c) 32643) FALLBACK_WALK_BUFFER_M)
              4326)
    /\ FALLBACK_WALK_BUFFER_M == 1000
    /\ longitude r = ST_X (c_geom c)
    /\ latitude r = ST_Y (c_geom c).
Proof.
  intros P T N F S.
  destruct (analyzeIsochrone_succeeds w village surveyNumber c others P
              (ST_X (c_geom c)) (ST_Y (c_geom c)) (fallbackBufferOf c) true S)
    as (pois & police & hospitals & roads & rows & m & ftl & tg & _ & _ & _ & _ & A).
  eexists. split.
  - eapply analyzeLocation_continues; eauto.
    now apply resolveIsochrone_fallback with others.
  - simpl. repeat split; reflexivity.
Qed.

Lemma routing_failure_falls_back_witness :
  exists r,
    outcome (analyzeLocation Sample.routingDown "Hanamkonda" "17") = inr (Analysis r)
    /\ used_fallback r = true
    /\ isochrone_geometry (map_data r)
       = ST_AsGeoJSON
           (ST_Transform
              (ST_Buffer (ST_Transform (c_geom Planar.home) 32643) FALLBACK_WALK_BUFFER_M)
              4326)
    /\ FALLBACK_WALK_BUFFER_M == 1000
    /\ longitude r = ST_X (c_geom Planar.home)
    /\ latitude r = ST_Y (c_geom Planar.home).
Proof.
  apply (routing_failure_falls_back Sample.routingDown
           "Hanamkonda" "17" Planar.home [] "pk.test").
  - reflexivity.
  - reflexivity.
  - discriminate.
  - apply fails_status. reflexivity.
  - reflexivity.
Defined.

(** The same on the other answers that give no isochrone. *)
Example point_answer_falls_back :
  used_fallback
    (resultOr Sample.blank
       (analyzeLocation (Planar.withFetch Planar.world (fun _ => Planar.pointAnswer))
                        "Hanamkonda" "17")) = true.
Proof. vm_compute. reflexivity. Qed.

Example no_features_falls_back :
  used_fallback
    (resultOr Sample.blank
       (analyzeLocation (Planar.withFetch Planar.world (fun _ => Planar.noFeatures))
                        "Hanamkonda" "17")) = true.
Proof. vm_compute. reflexivity. Qed.

Example isochrone_is_not_fallback : used_fallback Sample.scenario = false.
Proof. reflexivity. Qed.

(** C4. Without the routing credential the analysis never produces a
    successful result; the only call it makes is the parcel lookup, so
    no resolution is attempted: no request to the routing service and no
    fallback buffer; and for a parcel that the lookup finds it returns
    the configuration error. *)
Theorem missing_token_is_fatal {gis : PostGIS}
        (w : World) (village surveyNumber : string) :
  falsy (MAPBOX_TOKEN w) = true ->
  (forall r, outcome (analyzeLocation w village surveyNumber) <> inr (Analysis r))
  /\ trace (analyzeLocation w village surveyNumber)
     = [PoolQuery (SelectCentroid village surveyNumber)]
  /\ (forall req, ~ In (Fetch req) (trace (analyzeLocation w village surveyNumber)))
  /\ (forall radius v s,
         ~ In (PoolQuery (SelectBuffer radius v s))
              (trace (analyzeLocation w village surveyNumber)))
  /\ (forall c others,
         surveyCentroid (pool w) village surveyNumber = inr (c :: others) ->
         outcome (analyzeLocation w village surveyNumber)
         = inr (ErrorObject tokenMessage)).
Proof.
  intro T.
  assert (Tr : trace (analyzeLocation w village surveyNumber)
               = [PoolQuery (SelectCentroid village surveyNumber)]).
  { unfold analyzeLocation, analyze, poolQuery.
    destruct (selectCentroid (pool w) village surveyNumber) as [e|[|survey rest]];
      simpl; try reflexivity.
    rewrite T. reflexivity. }
  split; [|split; [exact Tr|split; [|split]]].
  - intros r H. apply analyzeLocation_inv in H.
    destruct H as [survey others token iso fb rows m police hospital road ftl tanks
                   _ Tk Tn _ _ _ _ _ _ _ _].
    rewrite Tk in T. simpl in T. apply String.eqb_eq in T. contradiction.
  - intros req. rewrite Tr. simpl. intros [H|[]]. discriminate.
  - intros radius v s. rewrite Tr. simpl. intros [H|[]]. discriminate.
  - intros c others P.
    destruct (selectCentroid_found w village surveyNumber c others P) as (rest & S).
    unfold analyzeLocation, analyze, poolQuery. rewrite S. simpl.
    rewrite T. reflexivity.
Qed.

Lemma missing_token_is_fatal_witness :
  (forall r, outcome (analyzeLocation Sample.noToken "Hanamkonda" "17") <> inr (Analysis r))
  /\ trace (analyzeLocation Sample.noToken "Hanamkonda" "17")
     = [PoolQuery (SelectCentroid "Hanamkonda" "17")]
  /\ (forall req, ~ In (Fetch req) (trace (analyzeLocation Sample.noToken "Hanamkonda" "17")))
  /\ (forall radius v s,
         ~ In (PoolQuery (SelectBuffer radius v s))
              (trace (analyzeLocation Sample.noToken "Hanamkonda" "17")))
  /\ (forall c others,
         surveyCentroid (pool Sample.noToken) "Hanamkonda" "17" = inr (c :: others) ->
         outcome (analyzeLocation Sample.noToken "Hanamkonda" "17")
         = inr (ErrorObject tokenMessage)).
Proof.
  apply (missing_token_is_fatal Sample.noToken "Hanamkonda" "17").
  reflexivity.
Defined.

(** An empty credential is a missing one. *)
Example empty_token_is_fatal :
  analyzeLocation (Planar.withToken Planar.world (Some EmptyString)) "Hanamkonda" "17"
  = ([PoolQuery (SelectCentroid "Hanamkonda" "17")], inr (ErrorObject tokenMessage)).
Proof. vm_compute. reflexivity. Qed.

(** ** Parcel lookup *)

Lemma filter_none {A} (f : A -> bool) (l : list A) :
  existsb f l = false -> filter f l = [].
Proof.
  induction l as [|x l IH]; simpl; [reflexivity|].
  rewrite orb_false_iff. intros [-> H]. now apply IH.
Qed.

(** C9. When no record of the centroid relation matches the village and
    the survey number, the analysis returns the not-found error object
    and nothing else: the value has the single member [error], and no
    call follows the lookup. *)
Theorem unknown_parcel_is_not_found {gis : PostGIS}
        (w : World) (village surveyNumber : string) (parcels : list Centroid) :
  ts_warangal_survey_centroids (pool w) = Some parcels ->
  existsb (fun c => String.eqb (c_village c) village
                    && String.eqb (c_surveyno c) surveyNumber) parcels = false ->
  analyzeLocation w village surveyNumber
  = ([PoolQuery (SelectCentroid village surveyNumber)], inr (ErrorObject notFoundMessage))
  /\ (forall r, outcome (analyzeLocation w village surveyNumber) <> inr (Analysis r)).
Proof.
  intros P N.
  assert (E : analyzeLocation w village surveyNumber
              = ([PoolQuery (SelectCentroid village surveyNumber)],
                 inr (ErrorObject notFoundMessage))).
  { unfold analyzeLocation, analyze, poolQuery, selectCentroid, surveyCentroid.
    rewrite P. simpl. rewrite (filter_none _ _ N). reflexivity. }
  split; [exact E|]. intro r. rewrite E. discriminate.
Qed.

Lemma unknown_parcel_is_not_found_witness :
  analyzeLocation Planar.world "Hanamkonda" "99"
  = ([PoolQuery (SelectCentroid "Hanamkonda" "99")], inr (ErrorObject notFoundMessage))
  /\ (forall r, outcome (analyzeLocation Planar.world "Hanamkonda" "99") <> inr (Analysis r)).
Proof.
  apply (unknown_parcel_is_not_found Planar.world "Hanamkonda" "99" Planar.parcels).
  - reflexivity.
  - reflexivity.
Defined.

(** ** Facility tables *)





(** With the relation in place and empty, the same analysis succeeds. *)
Example empty_hospital_table_is_null :
  distance_to_hospital
    (resultOr Sample.blank (analyzeLocation Sample.hospitalsEmpty "Hanamkonda" "17"))
  = None
  /\ amenity_score
       (score_breakdown
          (resultOr Sample.blank
             (analyzeLocation Sample.hospitalsEmpty "Hanamkonda" "17"))) == 25 # 2.
Proof. vm_compute. split; reflexivity. Qed.

(** The scenario on binary64 numbers: the doubles that the engine
    computes are the same 12, 19.5 and 20, and the sum that
    [Math.round] receives for the first parcel of the planar store is
    72.5. *)
Example scenario_in_binary64 :
  Binary64.poiScore 40 = 12%float
  /\ Binary64.amenityScore (Some 2000%float) (Some 3000%float) (Some 500%float)
     = 19.5%float
  /\ Binary64.ftlScore 0 = 20%float
  /\ (Binary64.poiScore 40
      + Binary64.amenityScore (Some 2000) (Some 3000) (Some 500)
      + Binary64.ftlScore 0
      + Binary64.businessScore 20
      + Binary64.accessibilityScore 9)%float = 72.5%float.
Proof. repeat split; reflexivity. Qed.

(** * Further properties *)

Lemma round_error (y : Q) :
  y - (1 # 2) < inject_Z (Math_round y) /\ inject_Z (Math_round y) <= y + (1 # 2).
Proof.
  unfold Math_round. split.
  - pose proof (Qlt_floor (y + (1 # 2))) as H.
    rewrite inject_Z_plus in H. change (inject_Z 1) with 1 in H. lra.
  - apply Qfloor_le.
Qed.

Lemma scaled_round_error (x p : Q) :
  0 < p ->
  Qabs (inject_Z (Math_round (x * p)) / p - x) <= (1 # 2) / p.
Proof.
  intro Hp. destruct (round_error (x * p)) as [L U].
  assert (E : inject_Z (Math_round (x * p)) / p - x
              == (inject_Z (Math_round (x * p)) - x * p) / p).
  { field. intro Z. rewrite Z in Hp. now apply (Qlt_irrefl 0). }
  rewrite E. unfold Qdiv. rewrite Qabs_Qmult.
  assert (Ip : 0 < / p) by now apply Qinv_lt_0_compat.
  rewrite (Qabs_pos (/ p)) by now apply Qlt_le_weak.
  apply Qmult_le_compat_r; [|now apply Qlt_le_weak].
  apply Qabs_Qle_condition. split; lra.
Qed.

Lemma toFixed_error (d : nat) (x : Q) :
  Qabs (toFixed d x - x) <= (1 # 2) / pow10 d.
Proof.
  pose proof (pow10_pos d) as Hp.
  assert (B : 0 <= (1 # 2) / pow10 d).
  { apply Qle_shift_div_l; [assumption|]. lra. }
  unfold toFixed.
  destruct (Qle_bool (inject_Z (10 ^ 21)) (Qabs x)).
  - assert (E : x - x == 0) by ring. rewrite E. exact B.
  - destruct (Qle_bool 0 x).
    + apply scaled_round_error. exact Hp.
    + pose proof (scaled_round_error (- x) (pow10 d) Hp) as H.
      unfold Math_round in H.
      assert (E : - (inject_Z (Qfloor (- x * pow10 d + (1 # 2))) / pow10 d) - x
                  == - (inject_Z (Qfloor (- x * pow10 d + (1 # 2))) / pow10 d - - x))
        by ring.
      rewrite E, Qabs_opp. exact H.
Qed.

Lemma toFixed_le (d : nat) (x : Q) (c : Z) :
  0 <= x -> x <= inject_Z c -> x < inject_Z (10 ^ 21) -> toFixed d x <= inject_Z c.
Proof.
  intros H0 H1 H2. rewrite (toFixed_finite d x H0 H2).
  pose proof (pow10_pos d) as Hp.
  apply Qle_shift_div_r; [assumption|].
  unfold pow10 in *. rewrite <- inject_Z_mult, <- Zle_Qle.
  apply Math_round_le. rewrite inject_Z_mult.
  apply Qmult_le_compat_r; [assumption|now apply Qlt_le_weak].
Qed.

Lemma ofNat_pos (n : nat) : (0 < n)%nat -> 0 < ofNat n.
Proof.
  intro H. unfold ofNat. change 0 with (inject_Z 0). rewrite <- Zlt_Qlt. lia.
Qed.

Lemma ofNat_le (n m : nat) : (n <= m)%nat -> ofNat n <= ofNat m.
Proof.
  intro H. unfold ofNat. rewrite <- Zle_Qle. lia.
Qed.

(** The percent of a part of a non-empty whole. *)
Lemma percentOf_share (n total : nat) :
  (n <= total)%nat -> (0 < total)%nat ->
  exists p,
    percentOf n total = Num p
    /\ 0 <= p <= 100
    /\ Qabs (p - ofNat n / ofNat total * 100) <= 1 # 200.
Proof.
  intros Hn Ht.
  pose proof (ofNat_pos total Ht) as Tp.
  pose proof (ofNat_nonneg n) as N0.
  pose proof (ofNat_le n total Hn) as NT.
  exists (toFixed 2 (ofNat n / ofNat total * 100)).
  assert (Q0 : 0 <= ofNat n / ofNat total).
  { apply Qle_shift_div_l; [assumption|]. lra. }
  assert (Q1 : ofNat n / ofNat total <= 1).
  { apply Qle_shift_div_r; [assumption|]. lra. }
  split; [|split; [split|]].
  - unfold percentOf, JS.div.
    destruct (Qeq_bool (ofNat total) 0) eqn:E; [|reflexivity].
    apply ofNat_eq0 in E. lia.
  - apply toFixed_nonneg. lra.
  - apply (toFixed_le 2 _ 100).
    + lra.
    + change (inject_Z 100) with 100. lra.
    + eapply Qle_lt_trans with 100; [lra|reflexivity].
  - apply (toFixed_error 2).
Qed.

(** X1: every percent of a result is a number between 0 and 100 within
    half a hundredth of the exact share: of [total_pois] for the
    breakdown, of the supportive total for the supportive subset. *)
Theorem percents_are_shares {gis : PostGIS}
        (w : World) (village surveyNumber : string) (r : AnalysisResult) :
  outcome (analyzeLocation w village surveyNumber) = inr (Analysis r) ->
  (forall a, In a (poi_breakdown r) ->
     (0 < count a <= total_pois r)%nat
     /\ exists p,
         percent a = Num p
         /\ 0 <= p <= 100
         /\ Qabs (p - ofNat (count a) / ofNat (total_pois r) * 100) <= 1 # 200)
  /\ (forall b, In b (supportive_businesses r) ->
        (0 < sb_count b <= Spec.supportive_total r)%nat
        /\ exists p,
            sb_percent b = Num p
            /\ 0 <= p <= 100
            /\ Qabs (p - ofNat (sb_count b) / ofNat (Spec.supportive_total r) * 100)
               <= 1 # 200).
Proof.
  intro H. apply analyzeLocation_inv in H.
  destruct H as [survey others token iso fb rows m police hospital road ftl tanks
                 _ _ _ _ _ Hm _ _ _ _ _].
  unfold Spec.supportive_total. simpl.
  pose proof (forEachPoi_totalLength _ _ _ Hm) as T. simpl in T.
  pose proof (forEachPoi_nonempty rows [] m (Forall_nil _) Hm) as NE.
  rewrite Forall_forall in NE.
  assert (C : forall a, In a (poiBreakdown m (List.length rows)) ->
                        (0 < count a <= List.length rows)%nat).
  { intros a Ha. apply poiBreakdown_In in Ha as (e & He & ->). simpl.
    specialize (NE e He). split.
    - destruct (snd e); [congruence|simpl; lia].
    - rewrite <- T. apply list_sum_In. unfold totalLength.
      apply (in_map (fun e => List.length (snd e))) in He. exact He. }
  split.
  - intros a Ha. destruct (C a Ha) as [C0 C1]. split; [lia|].
    apply poiBreakdown_In in Ha as (e & He & ->). simpl in *.
    apply percentOf_share; lia.
  - intros b Hb. unfold supportiveBusinesses in Hb |- *.
    apply in_map_iff in Hb as (item & <- & Hi). simpl.
    rewrite map_map. simpl.
    assert (L : (count item <= list_sum (map count
                   (filter isSupportive (poiBreakdown m (List.length rows)))))%nat).
    { apply list_sum_In. now apply in_map. }
    apply filter_In in Hi as [Hi _]. destruct (C item Hi) as [C0 _].
    split; [split; [lia|exact L]|].
    rewrite sumCounts_list_sum. apply percentOf_share; [exact L|lia].
Qed.

Lemma toFixed_le_grid (d : nat) (x : Q) (k : Z) :
  0 <= x -> x <= inject_Z k / pow10 d -> x < inject_Z (10 ^ 21) ->
  toFixed d x <= inject_Z k / pow10 d.
Proof.
  intros H0 H1 H2. rewrite (toFixed_finite d x H0 H2).
  pose proof (pow10_pos d) as Hp.
  apply Qle_shift_div_r; [assumption|].
  assert (E : inject_Z k / pow10 d * pow10 d == inject_Z k).
  { field. intro Z. rewrite Z in Hp. now apply (Qlt_irrefl 0). }
  rewrite E. rewrite <- Zle_Qle. apply Math_round_le.
  rewrite <- E. apply Qmult_le_compat_r; [assumption|now apply Qlt_le_weak].
Qed.

Lemma Math_min_below (a b : Q) : Math_min a b <= b.
Proof.
  unfold Math_min. destruct (Qle_bool a b) eqn:E.
  - now apply Qle_bool_iff.
  - apply Qle_refl.
Qed.


(** X3: the hazard percentage of a result is 0 or at least 9, never a
    value in between; with it the reported [ftl_score] is 20 or at most
    18.2. *)
Theorem hazard_percentage_is_zero_or_from_nine {gis : PostGIS}
        (w : World) (village surveyNumber : string) (r : AnalysisResult) :
  outcome (analyzeLocation w village surveyNumber) = inr (Analysis r) ->
  (ftl_zone_percentage r = 0%Z /\ ftl_score (score_breakdown r) == 20)
  \/ ((9 <= ftl_zone_percentage r)%Z /\ ftl_score (score_breakdown r) <= 91 # 5).
Proof.
  intro H. apply analyzeLocation_inv in H.
  destruct H as [survey others token iso fb rows m police hospital road ftl tanks
                 _ _ _ _ _ _ _ _ _ _ _].
  simpl. destruct (ftlPercentage_range ftl) as [E|G].
  - left. rewrite E. split; reflexivity.
  - right. split; [assumption|].
    eapply Qle_trans; [apply Math_min_below|].
    assert (P : 0 <= ftlScore (ftlPercentage ftl) <= 91 # 5).
    { unfold ftlScore. destruct (Z.eqb_spec (ftlPercentage ftl) 0) as [Z|_]; [lia|].
      split; [apply Math_max_ge_l|].
      assert (9 <= inject_Z (ftlPercentage ftl))
        by (change 9 with (inject_Z 9); now rewrite <- Zle_Qle).
      apply Math_max_lub; divs; lra. }
    apply Qle_trans with (inject_Z 182 / pow10 1); [|discriminate].
    apply (toFixed_le_grid 1 _ 182);
      [apply P
      |eapply Qle_trans; [apply P|discriminate]
      |eapply Qle_lt_trans; [apply P|reflexivity]].
Qed.

Lemma analyzeIsochrone_value {gis : PostGIS} (w : World) (village surveyNumber : string)
      (longitude latitude : Q) (iso : GeoJSON) (fb : bool) (value : Returned) :
  outcome (analyzeIsochrone w village surveyNumber longitude latitude iso fb) = inr value ->
  exists r, value = Analysis r.
Proof.
  unfold analyzeIsochrone. intro H.
  apply outcome_bind_inr in H as (poiResult & _ & H).
  apply outcome_bind_inr in H as (categoryMap & _ & H).
  apply outcome_bind_inr in H as (policeData & _ & H).
  apply outcome_bind_inr in H as (hospitalData & _ & H).
  apply outcome_bind_inr in H as (roadData & _ & H).
  apply outcome_bind_inr in H as (ftlResult & _ & H).
  apply outcome_bind_inr in H as (tanksGeometry & _ & H).
  simpl in H. injection H as <-. eauto.
Qed.

Lemma analyze_value {gis : PostGIS} (w : World) (village surveyNumber : string)
      (value : Returned) :
  outcome (analyze w village surveyNumber) = inr value ->
  value = ErrorObject notFoundMessage \/ exists r, value = Analysis r.
Proof.
  unfold analyze. intro H.
  apply outcome_bind_inr in H as (surveyResult & _ & H).
  destruct surveyResult as [|survey others].
  - simpl in H. injection H as <-. now left.
  - destruct (falsy (MAPBOX_TOKEN w)); [discriminate|].
    apply outcome_bind_inr in H as (iso & _ & H).
    right. eapply analyzeIsochrone_value. exact H.
Qed.

Lemma analyzeLocation_value {gis : PostGIS} (w : World) (village surveyNumber : string) :
  exists value,
    outcome (analyzeLocation w village surveyNumber) = inr value
    /\ forall e, value = ErrorObject e -> e <> EmptyString.
Proof.
  unfold analyzeLocation.
  destruct (analyze w village surveyNumber) as [t [e|value]] eqn:A.
  - simpl. eexists. split; [reflexivity|].
    intros e' [= <-]. destruct (String.eqb_spec e EmptyString); [discriminate|assumption].
  - simpl. exists value. split; [reflexivity|].
    intros e ->.
    destruct (analyze_value w village surveyNumber (ErrorObject e)) as [[= ->]|(r & R)].
    + unfold outcome. now rewrite A.
    + discriminate.
    + discriminate.
Qed.

(** X4: [analyzeLocation] never rejects: it resolves to a result or to
    an error object, and the [error] of an error object is never the
    empty string, so a caller can test it for truth. *)
Theorem analysis_always_answers {gis : PostGIS}
        (w : World) (village surveyNumber : string) :
  exists value,
    outcome (analyzeLocation w village surveyNumber) = inr value
    /\ value <> ErrorObject EmptyString.
Proof.
  destruct (analyzeLocation_value w village surveyNumber) as (value & O & NE).
  exists value. split; [exact O|]. intros E. exact (NE EmptyString E eq_refl).
Qed.

(** ** Order of the breakdown *)

Lemma insertBy_Sorted {A} (R : A -> A -> Prop) (before : A -> A -> bool) (x : A) (l : list A) :
  (forall a b, before a b = true -> R a b) ->
  (forall a b, before a b = false -> R b a) ->
  Sorted R l -> Sorted R (insertBy before x l).
Proof.
  intros Y N S. induction S as [|y l S IH H]; simpl.
  - repeat constructor.
  - destruct (before x y) eqn:E.
    + constructor; [now constructor|constructor; now apply Y].
    + constructor; [exact IH|].
      destruct l as [|z l]; simpl.
      * constructor. now apply N.
      * destruct (before x z) eqn:E'.
        -- constructor. now apply N.
        -- constructor. now inversion H.
Qed.

Lemma stableSort_Sorted {A} (R : A -> A -> Prop) (before : A -> A -> bool) (l : list A) :
  (forall a b, before a b = true -> R a b) ->
  (forall a b, before a b = false -> R b a) ->
  Sorted R (stableSort before l).
Proof.
  intros Y N. induction l as [|x l IH]; simpl.
  - constructor.
  - now apply insertBy_Sorted.
Qed.













(** X5: the breakdown and the supportive subset are in descending order
    of count. *)
Theorem breakdown_descends_by_count {gis : PostGIS}
        (w : World) (village surveyNumber : string) (r : AnalysisResult) :
  outcome (analyzeLocation w village surveyNumber) = inr (Analysis r) ->
  StronglySorted (fun a b => (count b <= count a)%nat) (poi_breakdown r)
  /\ StronglySorted (fun a b => (sb_count b <= sb_count a)%nat) (supportive_businesses r).
Proof.
  intro H. apply analyzeLocation_inv in H.
  destruct H as [survey others token iso fb rows m police hospital road ftl tanks
                 _ _ _ _ _ _ _ _ _ _ _].
  simpl.
  assert (S : StronglySorted (fun a b => (count b <= count a)%nat)
                             (poiBreakdown m (List.length rows))).
  { apply Sorted_StronglySorted; [intros a b c; lia|].
    unfold poiBreakdown. apply stableSort_Sorted.
    - intros a b E. unfold byCountDesc in E. now apply Nat.leb_le.
    - intros a b E. unfold byCountDesc in E. apply Nat.leb_gt in E. lia. }
  split; [exact S|].
  unfold supportiveBusinesses.
  generalize (sumCounts count (filter isSupportive (poiBreakdown m (List.length rows)))).
  intro st. induction S as [|a l S IH F]; simpl; [constructor|].
  destruct (isSupportive a); simpl; [|exact IH].
  constructor; [exact IH|].
  rewrite Forall_forall in *. intros b Hb.
  apply in_map_iff in Hb as (item & <- & Hi). simpl.
  apply F. now apply filter_In in Hi.
Qed.


(** ** The supportive subset *)

Lemma distinct_after_filter {A B} (keep : A -> bool) (key : A -> B) (xs : list A) :
  NoDup (map key xs) -> NoDup (map key (filter keep xs)).
Proof.
  intros D. induction xs as [|a xs IH]; cbn in *; [exact D|].
  apply NoDup_cons_iff in D as [Fresh D].
  destruct (keep a); cbn; [|exact (IH D)].
  apply NoDup_cons; [|exact (IH D)].
  intros I. apply Fresh. apply in_map_iff in I as (b & E & I).
  apply in_map_iff. exists b. split; [exact E|]. now apply filter_In in I.
Qed.

Lemma list_sum_filter_le {A} (f : A -> nat) (p : A -> bool) (l : list A) :
  (list_sum (map f (filter p l)) <= list_sum (map f l))%nat.
Proof.
  induction l as [|x l IH]; simpl; [lia|].
  destruct (p x); simpl; lia.
Qed.

(** X7: the supportive subset is the part of the breakdown whose
    category is exactly Retail, Health And Medical or Accommodation, in
    the order and with the counts of the breakdown; it has at most three
    entries and its total is at most [total_pois]. *)
Theorem supportive_subset_of_breakdown {gis : PostGIS}
        (w : World) (village surveyNumber : string) (r : AnalysisResult) :
  outcome (analyzeLocation w village surveyNumber) = inr (Analysis r) ->
  map (fun b => (sb_category b, sb_count b)) (supportive_businesses r)
  = map (fun a => (category a, count a))
        (filter (fun a => includes SUPPORTIVE_CATEGORIES (category a)) (poi_breakdown r))
  /\ (List.length (supportive_businesses r) <= 3)%nat
  /\ (Spec.supportive_total r <= total_pois r)%nat.
Proof.
  intro H. apply analyzeLocation_inv in H.
  pose proof (run_counts_sum _ _ _ _ H) as S.
  destruct H as [survey others token iso fb rows m police hospital road ftl tanks
                 _ _ _ _ _ Hm _ _ _ _ _].
  unfold Spec.supportive_total. simpl in *.
  set (pb := poiBreakdown m (List.length rows)) in *.
  unfold supportiveBusinesses. fold isSupportive.
  split; [|split].
  - rewrite map_map. reflexivity.
  - rewrite length_map.
    assert (N : NoDup (map category (filter isSupportive pb))).
    { apply distinct_after_filter.
      apply (Permutation_NoDup (Permutation_sym (poiBreakdown_categories m _))).
      apply (forEachPoi_keys_NoDup rows [] m); [constructor|assumption]. }
    rewrite <- (length_map category).
    change 3%nat with (List.length SUPPORTIVE_CATEGORIES).
    apply NoDup_incl_length; [exact N|].
    intros c Hc. apply in_map_iff in Hc as (a & <- & Ha).
    apply filter_In in Ha as [_ Ha]. unfold isSupportive, includes in Ha.
    apply existsb_exists in Ha as (x & Hx & E). apply String.eqb_eq in E. now subst.
  - rewrite map_map. simpl. rewrite <- S. apply list_sum_filter_le.
Qed.

(** ** Labels that the category map cannot hold *)

Lemma addPoi_storable (m m' : CategoryMap) (poi : PoiRow) :
  Forall (fun e => storable (Some (fst e)) = true) m ->
  addPoi m poi = inr m' ->
  storable (poi_category poi) = true
  /\ Forall (fun e => storable (Some (fst e)) = true) m'.
Proof.
  unfold addPoi. intro F.
  assert (K : forall c, storable c = storable (Some (propertyKey c))) by reflexivity.
  destruct (ownProperty m (propertyKey (poi_category poi))) as [ls|] eqn:E.
  - intros [= <-]. split.
    + rewrite K. apply ownProperty_Some_In in E.
      rewrite Forall_forall in F. exact (F _ E).
    + rewrite Forall_forall in *. intros e He.
      assert (I : In (fst e) (map fst (push m (propertyKey (poi_category poi))
                                            (locationOf poi))))
        by now apply in_map.
      rewrite push_keys in I. apply in_map_iff in I as (e' & <- & He'). now apply F.
  - destruct (includes objectPrototypeKeys _) eqn:I; [discriminate|].
    intros [= <-].
    assert (S : storable (poi_category poi) = true)
      by (unfold storable; now rewrite I).
    split; [exact S|].
    rewrite (push_fresh _ _ _ E). apply Forall_app. split; [assumption|].
    constructor; [|constructor]. simpl. now rewrite <- K.
Qed.

Lemma forEachPoi_storable (rows : list PoiRow) (m m' : CategoryMap) :
  Forall (fun e => storable (Some (fst e)) = true) m ->
  forEachPoi m rows = inr m' ->
  Forall (fun poi => storable (poi_category poi) = true) rows.
Proof.
  revert m. induction rows as [|poi rows IH]; intros m F; simpl; [constructor|].
  destruct (addPoi m poi) as [e|m1] eqn:E; [discriminate|].
  destruct (addPoi_storable m m1 poi F E) as [S F1].
  intro H. constructor; [exact S|]. now apply IH with m1.
Qed.

(** X8: no analysis succeeds while a POI of its isochrone carries a
    label that names a property of [Object.prototype] ([constructor],
    [toString], ...): the push on the inherited value throws, and the
    analysis ends with an error object. *)
Theorem inherited_label_fails_the_analysis {gis : PostGIS}
        (w : World) (village surveyNumber : string) (r : AnalysisResult)
        (pois : list Poi) (p : Poi) :
  outcome (analyzeLocation w village surveyNumber) = inr (Analysis r) ->
  ts_overture_poi_3 (pool w) = Some pois ->
  In p (poisWithin (isochrone_geometry (map_data r)) pois) ->
  includes objectPrototypeKeys (propertyKey (p_category p)) = false.
Proof.
  intros H Hp Hin. apply analyzeLocation_inv in H.
  destruct H as [survey others token iso fb rows m police hospital road ftl tanks
                 _ _ _ _ Hrows Hm _ _ _ _ _].
  simpl in Hin. rewrite (selectPois_rows _ iso pois Hp) in Hrows. injection Hrows as <-.
  pose proof (forEachPoi_storable _ [] m (Forall_nil _) Hm) as F.
  rewrite Forall_forall in F.
  specialize (F (rowOfPoi p) (in_map rowOfPoi _ _ Hin)).
  unfold storable in F. simpl in F. now apply negb_true_iff in F.
Qed.

(** ** Where the scores reach their caps *)

Lemma Math_min_cap (c x : Q) : c <= x -> Math_min c x == c.
Proof.
  intro H. unfold Math_min. destruct (Qle_bool c x) eqn:E; [reflexivity|].
  apply Qle_bool_iff in H. congruence.
Qed.

Lemma Math_min_mono (c x y : Q) : x <= y -> Math_min c x <= Math_min c y.
Proof.
  intro H. apply Math_min_glb.
  - apply Math_min_le_l.
  - eapply Qle_trans; [apply Math_min_below|exact H].
Qed.

Lemma Math_max_mono (c x y : Q) : x <= y -> Math_max c x <= Math_max c y.
Proof.
  intro H. apply Math_max_lub.
  - apply Math_max_ge_l.
  - eapply Qle_trans; [exact H|].
    unfold Math_max. destruct (Qle_bool c y) eqn:E; [apply Qle_refl|].
    apply Qlt_le_weak, Qnot_le_lt. intro L. apply Qle_bool_iff in L. congruence.
Qed.

Lemma ofNat_ge (n : nat) (k : Z) : (k <= Z.of_nat n)%Z -> inject_Z k <= ofNat n.
Proof. intro H. unfold ofNat. now rewrite <- Zle_Qle. Qed.

Lemma ofNat_bound (n : nat) (k : Z) : (Z.of_nat n <= k)%Z -> ofNat n <= inject_Z k.
Proof. intro H. unfold ofNat. now rewrite <- Zle_Qle. Qed.

(** A reported sub-score reaches its cap exactly when the sub-score
    does. *)
Lemma reported_at_cap (c : Z) (x : Q) :
  (0 <= c <= 100)%Z -> 0 <= x -> x <= inject_Z c ->
  (x == inject_Z c -> Math_min (inject_Z c) (toFixed 1 x) == inject_Z c).
Proof.
  intros Hc H0 H1 E.
  rewrite (reported_spec c x x ltac:(lia) H0 H1 (Qeq_refl x)).
  rewrite (one_decimal_comp _ _ E). unfold Spec.one_decimal, Spec.round.
  assert (F : Qfloor (inject_Z c * 10 + (1 # 2)) = (c * 10)%Z).
  { apply Z.le_antisymm.
    - apply (Math_round_le (inject_Z c * 10) (c * 10)).
      rewrite inject_Z_mult. apply Qle_refl.
    - apply (Math_round_ge (inject_Z c * 10) (c * 10)).
      rewrite inject_Z_mult. apply Qle_refl. }
  rewrite F, inject_Z_mult. field.
Qed.

Lemma reported_below_cap (c k : Z) (x : Q) :
  (k < c * 10)%Z -> 0 <= x -> x <= inject_Z k / 10 ->
  Math_min (inject_Z c) (toFixed 1 x) < inject_Z c.
Proof.
  intros Hk H0 H1.
  eapply Qle_lt_trans; [apply Math_min_below|].
  assert (B : inject_Z k / 10 < inject_Z c).
  { apply Qlt_shift_div_r; [reflexivity|].
    change 10 with (inject_Z 10). rewrite <- inject_Z_mult, <- Zlt_Qlt. exact Hk. }
  eapply Qle_lt_trans; [|exact B].
  destruct (Qlt_le_dec x (inject_Z (10 ^ 21))) as [S|S].
  - apply (toFixed_le_grid 1 x k H0 H1 S).
  - unfold toFixed. rewrite (Qabs_pos x H0).
    apply Qle_bool_iff in S. rewrite S. exact H1.
Qed.

(** X9: the reported [poi_score] is at its cap of 30 exactly from 100
    POIs on, [business_score] at 15 exactly from 20 supportive POIs on,
    and [accessibility_score] at 10 exactly from 15 categories on. *)
Theorem count_scores_reach_their_caps {gis : PostGIS}
        (w : World) (village surveyNumber : string) (r : AnalysisResult) :
  outcome (analyzeLocation w village surveyNumber) = inr (Analysis r) ->
  (poi_score (score_breakdown r) == 30 <-> (100 <= total_pois r)%nat)
  /\ (business_score (score_breakdown r) == 15 <-> (20 <= Spec.supportive_total r)%nat)
  /\ (accessibility_score (score_breakdown r) == 10
      <-> (15 <= List.length (poi_breakdown r))%nat).
Proof.
  intro H. apply analyzeLocation_inv in H.
  destruct H as [survey others token iso fb rows m police hospital road ftl tanks
                 _ _ _ _ _ _ _ _ _ _ _].
  unfold Spec.supportive_total. simpl.
  rewrite <- sumCounts_list_sum, poiBreakdown_length.
  set (n := List.length rows).
  set (st := sumCounts sb_count (supportiveBusinesses (poiBreakdown m n))).
  set (cc := List.length (Object_keys m)).
  pose proof (poiScore_bounds n) as [P0 P1].
  pose proof (businessScore_bounds st) as [B0 B1].
  pose proof (accessibilityScore_bounds cc) as [X0 X1].
  split; [|split]; split.
  - intro E. destruct (le_lt_dec 100 n) as [G|L]; [assumption|exfalso].
    assert (S : Math_min 30 (toFixed 1 (poiScore n)) < 30).
    { apply (reported_below_cap 30 297); [lia|assumption|].
      eapply Qle_trans; [apply Math_min_below|].
      pose proof (ofNat_bound n 99 ltac:(lia)) as U.
      change (inject_Z 99) with 99 in U. change (inject_Z 297) with 297. divs. lra. }
    rewrite E in S. now apply (Qlt_irrefl 30).
  - intro G. apply (reported_at_cap 30); [lia|assumption|assumption|].
    apply Math_min_cap. pose proof (ofNat_ge n 100 ltac:(lia)) as L.
    change (inject_Z 100) with 100 in L. divs. unfold inject_Z. lra.
  - intro E. destruct (le_lt_dec 20 st) as [G|L]; [assumption|exfalso].
    assert (S : Math_min 15 (toFixed 1 (businessScore st)) < 15).
    { apply (reported_below_cap 15 143); [lia|assumption|].
      eapply Qle_trans; [apply Math_min_below|].
      pose proof (ofNat_bound st 19 ltac:(lia)) as U.
      change (inject_Z 19) with 19 in U. change (inject_Z 143) with 143. divs. lra. }
    rewrite E in S. now apply (Qlt_irrefl 15).
  - intro G. apply (reported_at_cap 15); [lia|assumption|assumption|].
    apply Math_min_cap. pose proof (ofNat_ge st 20 ltac:(lia)) as L.
    change (inject_Z 20) with 20 in L. divs. unfold inject_Z. lra.
  - intro E. destruct (le_lt_dec 15 cc) as [G|L]; [assumption|exfalso].
    assert (S : Math_min 10 (toFixed 1 (accessibilityScore cc)) < 10).
    { apply (reported_below_cap 10 94); [lia|assumption|].
      eapply Qle_trans; [apply Math_min_below|].
      pose proof (ofNat_bound cc 14 ltac:(lia)) as U.
      change (inject_Z 14) with 14 in U. change (inject_Z 94) with 94. divs. lra. }
    rewrite E in S. now apply (Qlt_irrefl 10).
  - intro G. apply (reported_at_cap 10); [lia|assumption|assumption|].
    apply Math_min_cap. pose proof (ofNat_ge cc 15 ltac:(lia)) as L.
    change (inject_Z 15) with 15 in L. divs. unfold inject_Z. lra.
Qed.

(** ** Distance and amenity *)

Lemma addAmenity_mono (cap : Q) (data : option NearestFeature) (s s' : Q) :
  s <= s' -> addAmenity cap data s <= addAmenity cap data s'.
Proof.
  intro H. destruct data as [d|]; simpl; [|exact H]. lra.
Qed.

Lemma addAmenity_nearer (cap : Q) (d d' : NearestFeature) (s : Q) :
  distance_m d <= distance_m d' ->
  addAmenity cap (Some d') s <= addAmenity cap (Some d) s.
Proof.
  intro H. simpl.
  assert (M : Math_max 0 (cap - distance_m d' / 1000) <= Math_max 0 (cap - distance_m d / 1000)).
  { apply Math_max_mono. divs. lra. }
  lra.
Qed.

Lemma addAmenity_far (cap : Q) (d : NearestFeature) (s : Q) :
  cap * 1000 <= distance_m d -> addAmenity cap (Some d) s == addAmenity cap None s.
Proof.
  intro H. simpl.
  assert (M : Math_max 0 (cap - distance_m d / 1000) == 0).
  { unfold Math_max. destruct (Qle_bool 0 (cap - distance_m d / 1000)) eqn:E; [|reflexivity].
    apply Qle_bool_iff in E. revert E. divs. intro E. apply Qle_antisym; lra. }
  rewrite M. ring.
Qed.

Lemma Math_min_comp (c x y : Q) : x == y -> Math_min c x == Math_min c y.
Proof.
  intro E. apply Qle_antisym; apply Math_min_mono; rewrite E; apply Qle_refl.
Qed.

Lemma amenityScore_by_distance
        (police police' hospital hospital' road road' : NearestFeature)
        (p h r : option NearestFeature) :
  (distance_m police <= distance_m police' ->
   amenityScore (Some police') h r <= amenityScore (Some police) h r)
  /\ (distance_m hospital <= distance_m hospital' ->
      amenityScore p (Some hospital') r <= amenityScore p (Some hospital) r)
  /\ (distance_m road <= distance_m road' ->
      amenityScore p h (Some road') <= amenityScore p h (Some road))
  /\ (amenityScore None h r <= amenityScore (Some police) h r
      /\ amenityScore p None r <= amenityScore p (Some hospital) r
      /\ amenityScore p h None <= amenityScore p h (Some road))
  /\ (10000 <= distance_m police ->
      amenityScore (Some police) h r == amenityScore None h r)
  /\ (10000 <= distance_m hospital ->
      amenityScore p (Some hospital) r == amenityScore p None r)
  /\ (5000 <= distance_m road ->
      amenityScore p h (Some road) == amenityScore p h None).
Proof.
  unfold amenityScore. repeat split.
  - intro H. apply Math_min_mono. repeat apply addAmenity_mono.
    now apply addAmenity_nearer.
  - intro H. apply Math_min_mono. apply addAmenity_mono. now apply addAmenity_nearer.
  - intro H. apply Math_min_mono. now apply addAmenity_nearer.
  - apply Math_min_mono. repeat apply addAmenity_mono.
    apply (addAmenity_ge 10 (Some police) 0).
  - apply Math_min_mono. apply addAmenity_mono.
    apply (addAmenity_ge 10 (Some hospital)).
  - apply Math_min_mono. apply (addAmenity_ge 5 (Some road)).
  - intro H. apply Math_min_comp.
    rewrite !addAmenity_spec. rewrite <- (addAmenity_spec 10 (Some police) 0).
    rewrite (addAmenity_far 10 police 0) by (eapply Qle_trans; [|exact H]; discriminate).
    simpl. ring.
  - intro H. apply Math_min_comp.
    rewrite (addAmenity_spec 5 r), (addAmenity_spec 5 r (addAmenity 10 None _)).
    rewrite (addAmenity_far 10 hospital) by (eapply Qle_trans; [|exact H]; discriminate).
    reflexivity.
  - intro H. apply Math_min_comp.
    apply addAmenity_far. eapply Qle_trans; [|exact H]. discriminate.
Qed.

(** X10: the amenity score never falls when a facility is nearer, and a
    missing facility never scores above a present one. *)
Theorem nearer_facilities_never_lower_amenity
        (police police' hospital hospital' road road' : NearestFeature)
        (p h r : option NearestFeature) :
  distance_m police <= distance_m police' ->
  distance_m hospital <= distance_m hospital' ->
  distance_m road <= distance_m road' ->
  amenityScore (Some police') h r <= amenityScore (Some police) h r
  /\ amenityScore p (Some hospital') r <= amenityScore p (Some hospital) r
  /\ amenityScore p h (Some road') <= amenityScore p h (Some road)
  /\ amenityScore None h r <= amenityScore (Some police) h r
  /\ amenityScore p None r <= amenityScore p (Some hospital) r
  /\ amenityScore p h None <= amenityScore p h (Some road).
Proof.
  intros P H R.
  destruct (amenityScore_by_distance police police' hospital hospital' road road' p h r)
    as (A & B & C & (D & E & F) & _).
  auto 10.
Qed.

(** X11: a police station or a hospital at 10 km or more, or a main road
    at 5 km or more, scores like a missing one; when all three are that
    far the amenity score is 0. *)
Theorem far_facilities_score_as_missing
        (police hospital road : NearestFeature) (p h r : option NearestFeature) :
  10000 <= distance_m police ->
  10000 <= distance_m hospital ->
  5000 <= distance_m road ->
  amenityScore (Some police) h r == amenityScore None h r
  /\ amenityScore p (Some hospital) r == amenityScore p None r
  /\ amenityScore p h (Some road) == amenityScore p h None
  /\ amenityScore (Some police) (Some hospital) (Some road) == 0.
Proof.
  intros P H R.
  destruct (amenityScore_by_distance police police hospital hospital road road p h r)
    as (_ & _ & _ & _ & A & B & C).
  split; [auto|]. split; [auto|]. split; [auto|].
  destruct (amenityScore_by_distance police police hospital hospital road road
              None (Some hospital) (Some road)) as (_ & _ & _ & _ & A1 & _ & _).
  destruct (amenityScore_by_distance police police hospital hospital road road
              None None (Some road)) as (_ & _ & _ & _ & _ & B1 & _).
  destruct (amenityScore_by_distance police police hospital hospital road road
              None None None) as (_ & _ & _ & _ & _ & _ & C1).
  rewrite (A1 P), (B1 H), (C1 R). reflexivity.
Qed.


(** ** The nearest feature *)

Lemma StronglySorted_head_least {A} (R : A -> A -> Prop) (x : A) (l : list A) :
  (forall a, R a a) ->
  StronglySorted R (x :: l) -> forall y, In y (x :: l) -> R x y.
Proof.
  intros Rf S y [<-|Hy]; [apply Rf|].
  inversion S as [|? ? _ F]; subst. rewrite Forall_forall in F. now apply F.
Qed.

Lemma nearestTo_least {gis : PostGIS} (s : geometry) (table : list geometry) :
  match nearestTo s table with
  | [] => table = []
  | g :: _ => In g table /\ forall h, In h table -> knn_distance s g <= knn_distance s h
  end.
Proof.
  unfold nearestTo.
  set (before := fun a b => Qle_bool (knn_distance s a) (knn_distance s b)).
  pose proof (stableSort_perm before table) as P.
  assert (S : StronglySorted (fun a b => knn_distance s a <= knn_distance s b)
                             (stableSort before table)).
  { apply Sorted_StronglySorted; [intros a b c; apply Qle_trans|].
    apply stableSort_Sorted.
    - intros a b E. now apply Qle_bool_iff.
    - intros a b E. unfold before in E.
      apply Qlt_le_weak, Qnot_le_lt. intro L. apply Qle_bool_iff in L. congruence. }
  destruct (stableSort before table) as [|g l]; simpl.
  - apply Permutation_nil in P. exact P.
  - split.
    + apply (Permutation_in _ P). now left.
    + intros h Hh.
      apply (StronglySorted_head_least
               (fun a b => knn_distance s a <= knn_distance s b) g l);
        [intro; apply Qle_refl|exact S|].
      apply (Permutation_in _ (Permutation_sym P)). exact Hh.
Qed.

(** X12: the nearest feature of a kind is a row of the table of that
    kind that minimises the [<->] distance from the parcel; the distance
    reported for it is the geodesic [ST_Distance] to that row; there is
    none exactly when the table is empty. *)
Theorem nearest_feature_minimises_knn_distance {gis : PostGIS}
        (w : World) (village surveyNumber : string) (r : AnalysisResult)
        (c : Centroid) (others : list Centroid)
        (k : FacilityKind) (table : list geometry) :
  outcome (analyzeLocation w village surveyNumber) = inr (Analysis r) ->
  surveyCentroid (pool w) village surveyNumber = inr (c :: others) ->
  tableOf k (pool w) = Some table ->
  match nearestOf k r with
  | None => table = []
  | Some f =>
      exists g,
        In g table
        /\ f = {| distance_m := ST_Distance (to_geography (c_geom c)) (to_geography g);
                  nf_lat := ST_Y g;
                  nf_lon := ST_X g |}
        /\ forall h, In h table ->
                     knn_distance (c_geom c) g <= knn_distance (c_geom c) h
  end.
Proof.
  intros H P T. apply analyzeLocation_inv in H.
  destruct H as [survey rest token iso fb rows m police hospital road ftl tanks
                 _ _ _ _ _ _ Hp Hh Hr _ _].
  assert (G : nearestOf k
                (buildResult village surveyNumber (sr_longitude survey) (sr_latitude survey)
                   iso fb rows m police hospital road ftl tanks (now w))
              = nearestFeatureIn c table).
  { destruct k; simpl in *.
    - rewrite (getNearestFeature_outcome w village surveyNumber c others P
                 "ts_policestations" table eq_refl T) in Hp. now injection Hp.
    - rewrite (getNearestFeature_outcome w village surveyNumber c others P
                 "ts_hospitals" table eq_refl T) in Hh. now injection Hh.
    - rewrite (getNearestFeature_outcome w village surveyNumber c others P
                 "ts_main_roads" table eq_refl T) in Hr. now injection Hr. }
  rewrite G. unfold nearestFeatureIn.
  pose proof (nearestTo_least (c_geom c) table) as L.
  destruct (nearestTo (c_geom c) table) as [|g l]; [exact L|].
  destruct L as [I M]. exists g. auto.
Qed.

(** ** The external calls of an analysis *)

Lemma trace_bind_value {A B} (m : Async A) (k : A -> Async B) (a : A) :
  outcome m = inr a -> trace (bind m k) = trace m ++ trace (k a).
Proof.
  destruct m as [t r]; simpl. intros ->. now destruct (k a).
Qed.

Lemma trace_bind_throw_any {A B} (m : Async A) (k : A -> Async B) (e : string) :
  outcome m = inl e -> trace (bind m k) = trace m.
Proof. destruct m as [t r]; simpl. now intros ->. Qed.

Lemma trace_try_value {A} (m : Async A) (h : string -> Async A) (a : A) :
  outcome m = inr a -> trace (try_catch m h) = trace m.
Proof. destruct m as [t r]; simpl. now intros ->. Qed.

Lemma trace_try_caught {A} (m : Async A) (h : string -> Async A) (e : string) :
  outcome m = inl e -> trace (try_catch m h) = trace m ++ trace (h e).
Proof.
  destruct m as [t r]; simpl. intros ->. now destruct (h e).
Qed.

Section Calls.

Context {gis : PostGIS}.
Variable w : World.
Variables village surveyNumber : string.

Lemma requestIsochrone_trace (longitude latitude : Q) (token : string) :
  trace (requestIsochrone w longitude latitude token)
  = [Fetch {| req_longitude := longitude; req_latitude := latitude;
              contours_minutes := ISO_MINUTES; denoise := DENOISE;
              access_token := token |}].
Proof.
  unfold requestIsochrone.
  rewrite (trace_bind_value _ _ tt) by reflexivity. simpl.
  destruct (fetch w _) as [msg|resp]; [reflexivity|].
  destruct (ok resp); simpl; [|reflexivity].
  destruct (json resp) as [data|]; [|reflexivity].
  destruct (features data) as [[|feature rest]|]; try reflexivity.
  destruct (f_geometry feature) as [g|]; [|reflexivity].
  now destruct (_ || _).
Qed.

Lemma bufferFallback_trace (g : GeoJSON) :
  outcome (bufferFallback w village surveyNumber) = inr g ->
  trace (bufferFallback w village surveyNumber)
  = [PoolQuery (SelectBuffer FALLBACK_WALK_BUFFER_M village surveyNumber)].
Proof.
  unfold bufferFallback. intro H.
  apply outcome_bind_inr in H as (rows & R & H).
  rewrite (trace_bind_value _ _ rows R).
  destruct rows as [|row rows]; [discriminate|]. reflexivity.
Qed.

Lemma resolveIsochrone_trace (longitude latitude : Q) (token : string)
      (iso : GeoJSON) (fb : bool) :
  outcome (resolveIsochrone w village surveyNumber longitude latitude token) = inr (iso, fb) ->
  trace (resolveIsochrone w village surveyNumber longitude latitude token)
  = Fetch {| req_longitude := longitude; req_latitude := latitude;
             contours_minutes := ISO_MINUTES; denoise := DENOISE;
             access_token := token |}
    :: (if fb
        then [PoolQuery (SelectBuffer FALLBACK_WALK_BUFFER_M village surveyNumber)]
        else []).
Proof.
  unfold resolveIsochrone. intro H.
  destruct (outcome (requestIsochrone w longitude latitude token)) as [e|g] eqn:E.
  - pose proof (outcome_bind_throw _ (fun isoGeometry => ret (isoGeometry, false)) e E) as T.
    rewrite (outcome_try_caught _ _ e T) in H.
    rewrite (trace_try_caught _ _ e T).
    rewrite (trace_bind_throw_any _ _ e E).
    apply outcome_bind_inr in H as (g & B & H). simpl in H. injection H as <- <-.
    rewrite (trace_bind_value _ _ g B), (bufferFallback_trace g B), requestIsochrone_trace.
    reflexivity.
  - pose proof (outcome_bind_ok _ (fun isoGeometry => ret (isoGeometry, false)) g E) as T.
    simpl in T.
    rewrite (outcome_try_ok _ _ _ T) in H. injection H as <- <-.
    rewrite (trace_try_value _ _ _ T), (trace_bind_value _ _ g E), requestIsochrone_trace.
    reflexivity.
Qed.

Lemma getNearestFeature_trace (tableName : string) (data : option NearestFeature) :
  outcome (getNearestFeature w village surveyNumber tableName) = inr data ->
  trace (getNearestFeature w village surveyNumber tableName)
  = [PoolQuery (SelectNearest tableName village surveyNumber)].
Proof.
  unfold getNearestFeature.
  destruct (includes validTables tableName); cbn [negb]; [|discriminate].
  intro H. apply outcome_bind_inr in H as (rows & R & H).
  rewrite (trace_bind_value _ _ rows R). now destruct rows.
Qed.

Lemma analyzeIsochrone_trace (longitude latitude : Q) (iso : GeoJSON) (fb : bool)
      (value : Returned) :
  outcome (analyzeIsochrone w village surveyNumber longitude latitude iso fb) = inr value ->
  trace (analyzeIsochrone w village surveyNumber longitude latitude iso fb)
  = [PoolQuery (SelectPois iso);
     PoolQuery (SelectNearest "ts_policestations" village surveyNumber);
     PoolQuery (SelectNearest "ts_hospitals" village surveyNumber);
     PoolQuery (SelectNearest "ts_main_roads" village surveyNumber);
     PoolQuery (SelectFtl iso);
     PoolQuery (SelectTanksGeometry iso)].
Proof.
  unfold analyzeIsochrone. intro H.
  apply outcome_bind_inr in H as (poiResult & H1 & H).
  rewrite (trace_bind_value _ _ _ H1).
  apply outcome_bind_inr in H as (categoryMap & H2 & H).
  rewrite (trace_bind_value _ _ _ H2).
  apply outcome_bind_inr in H as (policeData & H3 & H).
  rewrite (trace_bind_value _ _ _ H3), (getNearestFeature_trace _ _ H3).
  apply outcome_bind_inr in H as (hospitalData & H4 & H).
  rewrite (trace_bind_value _ _ _ H4), (getNearestFeature_trace _ _ H4).
  apply outcome_bind_inr in H as (roadData & H5 & H).
  rewrite (trace_bind_value _ _ _ H5), (getNearestFeature_trace _ _ H5).
  apply outcome_bind_inr in H as (ftlResult & H6 & H).
  rewrite (trace_bind_value _ _ _ H6).
  apply outcome_bind_inr in H as (tanksGeometry & H7 & H).
  rewrite (trace_bind_value _ _ _ H7).
  reflexivity.
Qed.

End Calls.

(** X13: a successful analysis makes exactly these external calls, in
    this order: the parcel lookup, one request to the routing service
    for the parcel's coordinates, the buffer query when and only when
    the result says [used_fallback], then the POI query, the three
    nearest-feature queries, the hazard query and the tank-geometry
    query.  The routing service is never asked twice. *)
Theorem external_calls_of_an_analysis {gis : PostGIS}
        (w : World) (village surveyNumber : string) (r : AnalysisResult)
        (token : string) :
  outcome (analyzeLocation w village surveyNumber) = inr (Analysis r) ->
  MAPBOX_TOKEN w = Some token ->
  trace (analyzeLocation w village surveyNumber)
  = [PoolQuery (SelectCentroid village surveyNumber);
     Fetch {| req_longitude := longitude r; req_latitude := latitude r;
              contours_minutes := 10; denoise := 1; access_token := token |}]
    ++ (if used_fallback r
        then [PoolQuery (SelectBuffer 1000 village surveyNumber)]
        else [])
    ++ [PoolQuery (SelectPois (isochrone_geometry (map_data r)));
        PoolQuery (SelectNearest "ts_policestations" village surveyNumber);
        PoolQuery (SelectNearest "ts_hospitals" village surveyNumber);
        PoolQuery (SelectNearest "ts_main_roads" village surveyNumber);
        PoolQuery (SelectFtl (isochrone_geometry (map_data r)));
        PoolQuery (SelectTanksGeometry (isochrone_geometry (map_data r)))].
Proof.
  intros H T.
  assert (A : outcome (analyze w village surveyNumber) = inr (Analysis r)).
  { unfold analyzeLocation in H.
    destruct (analyze w village surveyNumber) as [t [e|a]]; simpl in *;
      [discriminate|exact H]. }
  unfold analyzeLocation. rewrite (trace_try_value _ _ _ A).
  unfold analyze in *.
  apply outcome_bind_inr in A as (surveyResult & S & A).
  rewrite (trace_bind_value _ _ _ S).
  destruct surveyResult as [|survey others]; [discriminate|].
  rewrite T in *. destruct (falsy (Some token)); [discriminate|].
  apply outcome_bind_inr in A as ([iso fb] & R & A).
  rewrite (trace_bind_value _ _ _ R).
  rewrite (resolveIsochrone_trace w village surveyNumber _ _ _ iso fb R).
  rewrite (analyzeIsochrone_trace w village surveyNumber _ _ _ _ _ A).
  apply analyzeIsochrone_inv in A
    as (poiResult & categoryMap & policeData & hospitalData & roadData
        & ftlResult & tanksGeometry & _ & _ & _ & _ & _ & _ & _ & ->).
  simpl. destruct fb; reflexivity.
Qed.

(** ** The primary path *)

Lemma requestIsochrone_answers {gis : PostGIS} (w : World) (c : Centroid)
      (token : string) (g : GeoJSON) :
  RoutingAnswers (fetch w (isoRequest c token)) g ->
  outcome (requestIsochrone w (ST_X (c_geom c)) (ST_Y (c_geom c)) token) = inr g.
Proof.
  unfold requestIsochrone. fold (isoRequest c token).
  intro F. rewrite (outcome_bind_ok _ _ tt) by reflexivity.
  inversion F as [resp data feature rest g' Hok Hj Hf Hg Ht Eq]; subst.
  rewrite Hok, Hj, Hf, Hg. simpl.
  destruct Ht as [-> | ->]; reflexivity.
Qed.

(** X14: when the routing service answers with a Polygon or a
    MultiPolygon, every result of the analysis carries that geometry
    and has [used_fallback] unset; on a store that answers its queries
    the analysis succeeds. *)
Theorem valid_isochrone_is_used {gis : PostGIS}
        (w : World) (village surveyNumber : string)
        (c : Centroid) (others : list Centroid) (token : string) (g : GeoJSON) :
  surveyCentroid (pool w) village surveyNumber = inr (c :: others) ->
  MAPBOX_TOKEN w = Some token -> token <> EmptyString ->
  RoutingAnswers (fetch w (isoRequest c token)) g ->
  (forall r, outcome (analyzeLocation w village surveyNumber) = inr (Analysis r) ->
             used_fallback r = false /\ isochrone_geometry (map_data r) = g)
  /\ (storeReady (pool w) = true ->
      exists r, outcome (analyzeLocation w village surveyNumber) = inr (Analysis r)).
Proof.
  intros P T N F.
  assert (R : outcome (resolveIsochrone w village surveyNumber
                         (ST_X (c_geom c)) (ST_Y (c_geom c)) token) = inr (g, false)).
  { unfold resolveIsochrone. apply outcome_try_ok.
    now rewrite (outcome_bind_ok _ _ _ (requestIsochrone_answers w c token g F)). }
  split.
  - intros r H. apply analyzeLocation_inv in H.
    destruct H as [survey rest tk iso fb rows m police hospital road ftl tanks
                   S Tk _ Rv _ _ _ _ _ _ _].
    destruct (selectCentroid_found w village surveyNumber c others P) as (rest' & S').
    rewrite S' in S. injection S as <- _.
    rewrite T in Tk. injection Tk as <-.
    simpl in Rv. rewrite R in Rv. injection Rv as <- <-.
    simpl. auto.
  - intro S.
    destruct (analyzeIsochrone_succeeds w village surveyNumber c others P
                (ST_X (c_geom c)) (ST_Y (c_geom c)) g false S)
      as (pois & police & hospitals & roads & rows & m & ftl & tg & _ & _ & _ & _ & A).
    eexists. eapply analyzeLocation_continues; eauto.
Qed.

(** X15: the tank geometry of a result is never null; its [features] are
    null exactly when no tank intersects the isochrone, and then the
    hazard percentage is 0; otherwise they are the geometries of the
    intersecting tanks. *)
Theorem tank_features_follow_the_intersection {gis : PostGIS}
        (w : World) (village surveyNumber : string) (r : AnalysisResult) :
  outcome (analyzeLocation w village surveyNumber) = inr (Analysis r) ->
  exists tanks fc,
    ts_tanks (pool w) = Some tanks
    /\ tanks_geometry (map_data r) = Some fc
    /\ (fc_features fc = None
        <-> intersectingTanks (isochrone_geometry (map_data r)) tanks = [])
    /\ (forall fs, fc_features fc = Some fs ->
                   fs = map ST_AsGeoJSON
                            (intersectingTanks (isochrone_geometry (map_data r)) tanks))
    /\ (fc_features fc = None -> ftl_zone_percentage r = 0%Z).
Proof.
  intro H. apply analyzeLocation_inv in H.
  destruct H as [survey others token iso fb rows m police hospital road ftl tanksRows
                 _ _ _ _ _ _ _ _ _ Hftl Htg].
  unfold selectFtl in Hftl. unfold selectTanksGeometry in Htg.
  destruct (ts_tanks (pool w)) as [tanks|]; [|discriminate].
  simpl in Hftl, Htg. injection Hftl as <-. injection Htg as <-.
  exists tanks. eexists. split; [reflexivity|]. split; [reflexivity|].
  simpl. destruct (intersectingTanks iso tanks) as [|t hit]; simpl.
  - repeat split; try reflexivity. intros fs E. discriminate.
  - repeat split; try discriminate. intros fs [= <-]. reflexivity.
Qed.

(** ** The radius variant: [calculateDevelopmentScore] *)

Module RadiusFacts.

Import RadiusService.

Lemma ltb_true (a b : Q) : ltb a b = true <-> a < b.
Proof. unfold ltb. apply (gtb_true b a). Qed.

Lemma ltb_false (a b : Q) : ltb a b = false <-> b <= a.
Proof. unfold ltb. apply (gtb_false b a). Qed.

Lemma round1_mono (x y : Q) : x <= y -> round1 x <= round1 y.
Proof.
  intro H. unfold round1.
  apply Qmult_le_compat_r; [|discriminate].
  rewrite <- Zle_Qle. unfold Math_round. apply Qfloor_resp_le. lra.
Qed.

Lemma round1_integer (c : Z) : round1 (inject_Z c) == inject_Z c.
Proof.
  unfold round1.
  assert (F : Math_round (inject_Z c * 10) = (c * 10)%Z).
  { apply Z.le_antisymm.
    - apply Math_round_le. rewrite inject_Z_mult. apply Qle_refl.
    - apply Math_round_ge. rewrite inject_Z_mult. apply Qle_refl. }
  rewrite F, inject_Z_mult. field.
Qed.

Lemma round1_between (a b : Z) (x : Q) :
  inject_Z a <= x <= inject_Z b -> inject_Z a <= round1 x <= inject_Z b.
Proof.
  intros [L U]. split.
  - rewrite <- (round1_integer a). now apply round1_mono.
  - rewrite <- (round1_integer b). now apply round1_mono.
Qed.

Ltac bands :=
  repeat match goal with
         | |- context [ltb ?a ?b] =>
             let E := fresh "E" in
             destruct (ltb a b) eqn:E;
             [apply ltb_true in E|apply ltb_false in E]
         | H : context [ltb ?a ?b] |- _ =>
             let E := fresh "E" in
             destruct (ltb a b) eqn:E;
             [apply ltb_true in E|apply ltb_false in E]
         end.

Lemma Math_max_floor (x : Q) : 0 <= Math_max 0 x.
Proof. apply Math_max_ge_l. Qed.

Lemma Math_max_0_le (x c : Q) : 0 <= c -> x <= c -> Math_max 0 x <= c.
Proof. intros. now apply Math_max_lub. Qed.

Lemma Math_max_0_ge (x : Q) : x <= Math_max 0 x.
Proof.
  unfold Math_max. destruct (Qle_bool 0 x) eqn:E; [apply Qle_refl|].
  apply Qlt_le_weak, Qnot_le_lt. intro L. apply Qle_bool_iff in L. congruence.
Qed.

Lemma policeScore_range (d : option Q) : 0 <= policeScore d <= 10.
Proof.
  destruct d as [d|]; simpl; [|lra]. bands; try lra.
  split; [apply Math_max_floor|apply Math_max_0_le; divs; lra].
Qed.

Lemma hospitalScore_range (d : option Q) : 0 <= hospitalScore d <= 10.
Proof.
  destruct d as [d|]; simpl; [|lra]. bands; try lra.
  split; [apply Math_max_floor|apply Math_max_0_le; divs; lra].
Qed.

Lemma roadScore_range (d : option Q) : 0 <= roadScore d <= 10.
Proof.
  destruct d as [d|]; simpl; [|lra]. bands; try lra.
  split; [apply Math_max_floor|apply Math_max_0_le; divs; lra].
Qed.

Lemma policeScore_nearer (d d' : Q) :
  d <= d' -> policeScore (Some d') <= policeScore (Some d).
Proof.
  intro H. simpl. bands; try lra;
    try (apply Math_max_0_le; divs; lra);
    try (apply Math_max_mono; divs; lra).
Qed.

Lemma hospitalScore_nearer (d d' : Q) :
  d <= d' -> hospitalScore (Some d') <= hospitalScore (Some d).
Proof.
  intro H. simpl. bands; try lra;
    try (apply Math_max_0_le; divs; lra);
    try (apply Math_max_mono; divs; lra).
Qed.

Lemma roadScore_nearer (d d' : Q) :
  d <= d' -> roadScore (Some d') <= roadScore (Some d).
Proof.
  intro H. simpl. bands; try lra;
    try (apply Math_max_0_le; divs; lra);
    try (apply Math_max_mono; divs; lra).
Qed.


Lemma poi_part_range (n : nat) : 0 <= Math_min 40 (ofNat n / 50 * 40) <= 40.
Proof.
  pose proof (ofNat_nonneg n). split.
  - apply Math_min_glb; divs; lra.
  - apply Math_min_le_l.
Qed.

Lemma supportive_part_range (n : nat) : 0 <= Math_min 20 (ofNat n / 10 * 20) <= 20.
Proof.
  pose proof (ofNat_nonneg n). split.
  - apply Math_min_glb; divs; lra.
  - apply Math_min_le_l.
Qed.

Lemma clamp_mono (x y : Q) :
  x <= y -> Math_max 0 (Math_min 100 x) <= Math_max 0 (Math_min 100 y).
Proof. intro H. now apply Math_max_mono, Math_min_mono. Qed.

Lemma score_ranges
        (totalPOIs : nat) (supportiveBusinesses : list (string * nat))
        (police hospital road : option Q) (ftl : Q) :
  let s := calculateDevelopmentScore totalPOIs supportiveBusinesses
                                     police hospital road ftl in
  0 <= score s <= 100
  /\ (0 <= ftl -> score s <= 90)
  /\ 0 <= poi_score (breakdown s) <= 40
  /\ 0 <= supportive_businesses_score (breakdown s) <= 20
  /\ 0 <= police_distance_score (breakdown s) <= 10
  /\ 0 <= hospital_distance_score (breakdown s) <= 10
  /\ 0 <= road_distance_score (breakdown s) <= 10.
Proof.
  cbv zeta. unfold calculateDevelopmentScore. cbn [score breakdown poi_score
    supportive_businesses_score police_distance_score hospital_distance_score
    road_distance_score].
  pose proof (poi_part_range totalPOIs) as P.
  pose proof (supportive_part_range (sumCounts snd supportiveBusinesses)) as S.
  pose proof (policeScore_range police) as Po.
  pose proof (hospitalScore_range hospital) as Ho.
  pose proof (roadScore_range road) as Ro.
  set (total := 0 + _ + _ + _ + _ + _ - _).
  split; [|split].
  - apply (round1_between 0 100). split.
    + apply Math_max_ge_l.
    + apply Math_max_lub; [discriminate|apply Math_min_le_l].
  - intro F. apply (round1_between 0 90). split.
    + apply Math_max_ge_l.
    + apply Math_max_lub; [discriminate|].
      eapply Qle_trans; [apply Math_min_below|].
      subst total. change (inject_Z 90) with 90. divs. lra.
  - repeat split; try (apply (round1_between 0 40); assumption);
      try (apply (round1_between 0 20); assumption);
      try (apply (round1_between 0 10); assumption).
Qed.

(** X16: with a hazard percentage that is not negative the score of the
    radius variant lies between 0 and 90: the three distance scores add
    at most 30 to the 40 and 20 of the two count scores.  Each entry of
    the breakdown lies in its range. *)
Theorem score_within_0_and_90
        (totalPOIs : nat) (supportiveBusinesses : list (string * nat))
        (police hospital road : option Q) (ftl : Q) :
  0 <= ftl ->
  0 <= score (calculateDevelopmentScore totalPOIs supportiveBusinesses
                                        police hospital road ftl) <= 90
  /\ 0 <= poi_score
            (breakdown (calculateDevelopmentScore totalPOIs supportiveBusinesses
                                                  police hospital road ftl)) <= 40
  /\ 0 <= supportive_businesses_score
            (breakdown (calculateDevelopmentScore totalPOIs supportiveBusinesses
                                                  police hospital road ftl)) <= 20
  /\ 0 <= police_distance_score
            (breakdown (calculateDevelopmentScore totalPOIs supportiveBusinesses
                                                  police hospital road ftl)) <= 10
  /\ 0 <= hospital_distance_score
            (breakdown (calculateDevelopmentScore totalPOIs supportiveBusinesses
                                                  police hospital road ftl)) <= 10
  /\ 0 <= road_distance_score
            (breakdown (calculateDevelopmentScore totalPOIs supportiveBusinesses
                                                  police hospital road ftl)) <= 10.
Proof.
  intros F.
  pose proof (score_ranges totalPOIs supportiveBusinesses police hospital road ftl) as R.
  cbv zeta in R. destruct R as ([R0 _] & R90 & Rest).
  split; [split; [exact R0 | exact (R90 F)] | exact Rest].
Qed.


Lemma score_monotone_parts
        (n n' : nat) (supportive : list (string * nat))
        (police hospital road : option Q) (d d' ftl ftl' : Q) :
  (d <= d' ->
   score (calculateDevelopmentScore n supportive (Some d') hospital road ftl)
   <= score (calculateDevelopmentScore n supportive (Some d) hospital road ftl)
   /\ score (calculateDevelopmentScore n supportive police (Some d') road ftl)
      <= score (calculateDevelopmentScore n supportive police (Some d) road ftl)
   /\ score (calculateDevelopmentScore n supportive police hospital (Some d') ftl)
      <= score (calculateDevelopmentScore n supportive police hospital (Some d) ftl))
  /\ (score (calculateDevelopmentScore n supportive None hospital road ftl)
      <= score (calculateDevelopmentScore n supportive (Some d) hospital road ftl)
      /\ score (calculateDevelopmentScore n supportive police None road ftl)
         <= score (calculateDevelopmentScore n supportive police (Some d) road ftl)
      /\ score (calculateDevelopmentScore n supportive police hospital None ftl)
         <= score (calculateDevelopmentScore n supportive police hospital (Some d) ftl))
  /\ ((n <= n')%nat ->
      score (calculateDevelopmentScore n supportive police hospital road ftl)
      <= score (calculateDevelopmentScore n' supportive police hospital road ftl))
  /\ (ftl <= ftl' ->
      score (calculateDevelopmentScore n supportive police hospital road ftl')
      <= score (calculateDevelopmentScore n supportive police hospital road ftl)).
Proof.
  unfold calculateDevelopmentScore. cbn [score].
  repeat split; intros;
    apply round1_mono, clamp_mono.
  - pose proof (policeScore_nearer d d' H). lra.
  - pose proof (hospitalScore_nearer d d' H). lra.
  - pose proof (roadScore_nearer d d' H). lra.
  - pose proof (policeScore_range (Some d)). change (policeScore None) with 0. lra.
  - pose proof (hospitalScore_range (Some d)). change (hospitalScore None) with 0. lra.
  - pose proof (roadScore_range (Some d)). change (roadScore None) with 0. lra.
  - assert (M : Math_min 40 (ofNat n / 50 * 40) <= Math_min 40 (ofNat n' / 50 * 40)).
    { apply Math_min_mono. pose proof (ofNat_le n n' H). divs. lra. }
    lra.
  - divs. lra.
Qed.

(** X17: in the radius variant a nearer police station, hospital or main
    road never scores lower, a missing one never scores higher than a
    present one, more POIs never lower the score and a higher hazard
    percentage never raises it. *)
Theorem score_is_monotone
        (n n' : nat) (supportive : list (string * nat))
        (police hospital road : option Q) (d d' ftl ftl' : Q) :
  d <= d' -> (n <= n')%nat -> ftl <= ftl' ->
  score (calculateDevelopmentScore n supportive (Some d') hospital road ftl)
  <= score (calculateDevelopmentScore n supportive (Some d) hospital road ftl)
  /\ score (calculateDevelopmentScore n supportive police (Some d') road ftl)
     <= score (calculateDevelopmentScore n supportive police (Some d) road ftl)
  /\ score (calculateDevelopmentScore n supportive police hospital (Some d') ftl)
     <= score (calculateDevelopmentScore n supportive police hospital (Some d) ftl)
  /\ score (calculateDevelopmentScore n supportive None hospital road ftl)
     <= score (calculateDevelopmentScore n supportive (Some d) hospital road ftl)
  /\ score (calculateDevelopmentScore n supportive police None road ftl)
     <= score (calculateDevelopmentScore n supportive police (Some d) road ftl)
  /\ score (calculateDevelopmentScore n supportive police hospital None ftl)
     <= score (calculateDevelopmentScore n supportive police hospital (Some d) ftl)
  /\ score (calculateDevelopmentScore n supportive police hospital road ftl)
     <= score (calculateDevelopmentScore n' supportive police hospital road ftl)
  /\ score (calculateDevelopmentScore n supportive police hospital road ftl')
     <= score (calculateDevelopmentScore n supportive police hospital road ftl).
Proof.
  intros D N F.
  destruct (score_monotone_parts n n' supportive police hospital road d d' ftl ftl')
    as (A & (B1 & B2 & B3) & C & E).
  destruct (A D) as (A1 & A2 & A3).
  auto 12.
Qed.


End RadiusFacts.

(** ** The in-memory store *)

Lemma Number_toString_inj (n m : Z) :
  Number_toString n = Number_toString m -> n = m.
Proof.
  unfold Number_toString. intros H.
  assert (R : forall z, NilZero.int_of_string (NilZero.string_of_int (Z.to_int z))
                        = Some (Z.to_int z)).
  { intros z. apply NilZero.isi.
    - destruct z; cbn; try discriminate.
      intros [= E]. exact (DecimalPos.Unsigned.to_uint_nonnil _ E).
    - destruct z; cbn; try discriminate.
      intros [= E]. exact (DecimalPos.Unsigned.to_uint_nonnil _ E). }
  apply DecimalZ.to_int_inj.
  pose proof (R n) as Rn. rewrite H, R in Rn. now injection Rn.
Qed.

Lemma Map_get_set {V} (m : JsMap V) (k k' : string) (v : V) :
  Map_get (Map_set m k v) k' = if String.eqb k k' then Some v else Map_get m k'.
Proof.
  induction m as [|[k0 v0] rest IH]; cbn.
  - reflexivity.
  - destruct (String.eqb k0 k) eqn:E; cbn.
    + apply String.eqb_eq in E. subst k0.
      destruct (String.eqb k k'); reflexivity.
    + destruct (String.eqb k0 k') eqn:E'.
      * apply String.eqb_eq in E'. subst k0.
        rewrite String.eqb_sym, E. reflexivity.
      * exact IH.
Qed.

Lemma Map_keys_set {V} (m : JsMap V) (k : string) (v : V) :
  Map_keys (Map_set m k v) = if Map_has m k then Map_keys m else Map_keys m ++ [k].
Proof.
  unfold Map_has, Map_keys.
  induction m as [|[k0 v0] rest IH]; cbn.
  - reflexivity.
  - destruct (String.eqb k0 k) eqn:E; cbn.
    + reflexivity.
    + rewrite IH. destruct (Map_get rest k); reflexivity.
Qed.

Lemma Map_get_None {V} (m : JsMap V) (k : string) :
  Map_get m k = None <-> ~ In k (Map_keys m).
Proof.
  unfold Map_keys.
  induction m as [|[k0 v0] rest IH]; cbn.
  - tauto.
  - destruct (String.eqb k0 k) eqn:E.
    + apply String.eqb_eq in E. split; [discriminate | tauto].
    + apply String.eqb_neq in E. tauto.
Qed.

Lemma Map_has_In {V} (m : JsMap V) (k : string) :
  Map_has m k = true <-> In k (Map_keys m).
Proof.
  unfold Map_has. pose proof (Map_get_None m k) as H.
  destruct (Map_get m k).
  - split; [intros _ | reflexivity].
    destruct (in_dec string_dec k (Map_keys m)) as [I|I]; [exact I|].
    apply H in I. discriminate.
  - split; [discriminate|]. intros I. destruct H as [H _]. elim (H eq_refl I).
Qed.

Lemma filter_all_kept {A} (f : A -> bool) (l : list A) :
  (forall x, In x l -> f x = true) -> filter f l = l.
Proof.
  induction l as [|a l IH]; cbn; intros H.
  - reflexivity.
  - rewrite (H a (or_introl eq_refl)), IH; [reflexivity|].
    intros x I. apply H. now right.
Qed.

Lemma Map_keys_delete {V} (m : JsMap V) (k : string) :
  NoDup (Map_keys m) ->
  Map_keys (Map_delete m k) = filter (fun x => negb (String.eqb x k)) (Map_keys m).
Proof.
  unfold Map_keys.
  induction m as [|[k0 v0] rest IH]; cbn; intros N.
  - reflexivity.
  - inversion N as [|? ? Hn N']; subst.
    destruct (String.eqb k0 k) eqn:E; cbn.
    + apply String.eqb_eq in E. subst k0.
      symmetry. apply filter_all_kept.
      intros x I. apply negb_true_iff, String.eqb_neq. intros ->. exact (Hn I).
    + rewrite IH by exact N'. reflexivity.
Qed.

Lemma Map_get_delete {V} (m : JsMap V) (k k' : string) :
  NoDup (Map_keys m) ->
  Map_get (Map_delete m k) k' = if String.eqb k k' then None else Map_get m k'.
Proof.
  unfold Map_keys.
  induction m as [|[k0 v0] rest IH]; cbn; intros N.
  - destruct (String.eqb k k'); reflexivity.
  - inversion N as [|? ? Hn N']; subst.
    destruct (String.eqb k0 k) eqn:E.
    + apply String.eqb_eq in E. subst k0.
      destruct (String.eqb k k') eqn:E'.
      * apply String.eqb_eq in E'. subst k'. now apply Map_get_None.
      * reflexivity.
    + cbn. destruct (String.eqb k0 k') eqn:E'.
      * apply String.eqb_eq in E'. subst k0. rewrite String.eqb_sym, E. reflexivity.
      * apply IH, N'.
Qed.

Lemma Map_set_NoDup {V} (m : JsMap V) (k : string) (v : V) :
  NoDup (Map_keys m) -> NoDup (Map_keys (Map_set m k v)).
Proof.
  intros N. rewrite Map_keys_set.
  destruct (Map_has m k) eqn:H; [exact N|].
  apply NoDup_app; [exact N | repeat constructor; intros [] |].
  intros x I [<-|[]]. apply Map_has_In in I. congruence.
Qed.

Lemma Map_delete_NoDup {V} (m : JsMap V) (k : string) :
  NoDup (Map_keys m) -> NoDup (Map_keys (Map_delete m k)).
Proof.
  intros N. rewrite Map_keys_delete by exact N. now apply NoDup_filter.
Qed.

Lemma call_NoDup {A} (s : JsMap (AnalysisStore.Stored A)) (c : AnalysisStore.Call A) :
  NoDup (Map_keys s) -> NoDup (Map_keys (AnalysisStore.call s c)).
Proof.
  destruct c; cbn; [apply Map_set_NoDup | apply Map_delete_NoDup].
Qed.

Lemma after_NoDup {A} (calls : list (AnalysisStore.Call A)) :
  NoDup (Map_keys (AnalysisStore.after calls)).
Proof.
  unfold AnalysisStore.after.
  assert (G : forall s, NoDup (Map_keys s) ->
                        NoDup (Map_keys (fold_left AnalysisStore.call calls s))).
  { induction calls as [|c calls IH]; cbn; intros s N; [exact N|].
    apply IH, call_NoDup, N. }
  apply G. constructor.
Qed.

(** X18: what [get] returns after a [set] is the stored data with the
    time of storing when the two ids have the same text, and what it
    returned before otherwise; [has] follows [get]. *)
Theorem stored_analysis_is_read_back {A} (store : JsMap (AnalysisStore.Stored A))
        (id id' : SurveyId) (analysisData : A) (now : string) :
  AnalysisStore.get (AnalysisStore.set store id analysisData now) id'
  = (if String.eqb (toString id) (toString id')
     then Some {| AnalysisStore.data := analysisData; AnalysisStore.stored_at := now |}
     else AnalysisStore.get store id')
  /\ AnalysisStore.has (AnalysisStore.set store id analysisData now) id'
     = (String.eqb (toString id) (toString id') || AnalysisStore.has store id').
Proof.
  unfold AnalysisStore.get, AnalysisStore.has, AnalysisStore.set, Map_has.
  rewrite Map_get_set.
  destruct (String.eqb (toString id) (toString id')); split; reflexivity.
Qed.


Lemma Map_has_existsb {V} (m : JsMap V) (k : string) :
  Map_has m k = existsb (String.eqb k) (Map_keys m).
Proof.
  unfold Map_has, Map_keys.
  induction m as [|[k0 v0] rest IH]; cbn; [reflexivity|].
  rewrite (String.eqb_sym k k0). destruct (String.eqb k0 k); [reflexivity | exact IH].
Qed.

(** X20: in the store that any sequence of [set] and [delete] calls
    leaves behind, the ids are pairwise distinct, [has] holds exactly
    of the listed ids, and after [delete] the id has no analysis while
    every other id keeps its own. *)
Theorem deleted_analysis_is_gone {A} (calls : list (AnalysisStore.Call A))
        (id id' : SurveyId) :
  NoDup (AnalysisStore.getAllIds (AnalysisStore.after calls))
  /\ AnalysisStore.has (AnalysisStore.after calls) id
     = existsb (String.eqb (toString id))
               (AnalysisStore.getAllIds (AnalysisStore.after calls))
  /\ AnalysisStore.get (AnalysisStore.delete (AnalysisStore.after calls) id) id'
     = (if String.eqb (toString id) (toString id') then None
        else AnalysisStore.get (AnalysisStore.after calls) id').
Proof.
  split; [apply after_NoDup|]. split; [apply Map_has_existsb|].
  apply Map_get_delete, after_NoDup.
Qed.

(** X21: [getAllIds] lists the ids in the order of their first
    [set]: storing under a listed id keeps the list, storing under a
    new one appends it, and [delete] removes just that id. *)
Theorem ids_keep_insertion_order {A} (calls : list (AnalysisStore.Call A))
        (id : SurveyId) (analysisData : A) (now : string) :
  AnalysisStore.getAllIds (AnalysisStore.after (calls ++ [AnalysisStore.CallSet id analysisData now]))
  = (if AnalysisStore.has (AnalysisStore.after calls) id
     then AnalysisStore.getAllIds (AnalysisStore.after calls)
     else AnalysisStore.getAllIds (AnalysisStore.after calls) ++ [toString id])
  /\ AnalysisStore.getAllIds (AnalysisStore.after (calls ++ [AnalysisStore.CallDelete id]))
     = filter (fun k => negb (String.eqb k (toString id)))
              (AnalysisStore.getAllIds (AnalysisStore.after calls)).
Proof.
  unfold AnalysisStore.after. rewrite !fold_left_app. cbn [fold_left AnalysisStore.call].
  split.
  - apply Map_keys_set.
  - apply Map_keys_delete, after_NoDup.
Qed.

(** ** Saved results *)

Section Saved.

Context {gis : PostGIS} {pg : PostgresSurvey}.

Lemma filter_gid_none (n : Z) (rows : list ParcelRow) :
  unusedGid n rows = true -> filter (fun r => Z.eqb (gid r) n) rows = [].
Proof.
  unfold unusedGid. rewrite negb_true_iff.
  induction rows as [|r rows IH]; cbn; [reflexivity|].
  destruct (Z.eqb (gid r) n); cbn; [discriminate | exact IH].
Qed.

Lemma create_inserted (data : AnalysisResult) (savedAt storedAt : string)
      (st : Persistence) (rows : list ParcelRow) :
  ts_warangal_survey st = Some rows ->
  unusedGid (gid_seq st) rows = true ->
  int4in (Number_toString (gid_seq st)) = inr (gid_seq st) ->
  create data savedAt storedAt st
  = (afterCreate st rows data savedAt storedAt, inr (savedAs data (gid_seq st) savedAt)).
Proof.
  intros T U P.
  unfold create, sbind, insertSurvey. rewrite T. cbn [relation].
  pose proof U as U'. unfold unusedGid in U'. rewrite negb_true_iff in U'. rewrite U'.
  unfold selectCenter, sbind, whereGid. cbn [ts_warangal_survey relation gid].
  rewrite P, filter_app, (filter_gid_none _ _ U). cbn [filter app gid].
  rewrite Z.eqb_refl. reflexivity.
Qed.

Lemma findById_created (data : AnalysisResult) (savedAt storedAt : string)
      (st : Persistence) (rows : list ParcelRow) (id : SurveyId) :
  unusedGid (gid_seq st) rows = true ->
  int4in (toString id) = inr (gid_seq st) ->
  findById id (afterCreate st rows data savedAt storedAt)
  = (afterCreate st rows data savedAt storedAt,
     inr (Some (storedAs (savedAs data (gid_seq st) savedAt) storedAt))).
Proof.
  intros U P.
  unfold findById, sbind, selectResult, sbind, whereGid, afterCreate.
  cbn [ts_warangal_survey relation]. rewrite P.
  rewrite filter_app, (filter_gid_none _ _ U). cbn [filter app gid].
  rewrite Z.eqb_refl. cbn [map sret rr_gid storeGet analysisStore].
  unfold AnalysisStore.get, AnalysisStore.set. rewrite Map_get_set, String.eqb_refl.
  reflexivity.
Qed.

(** X22: when the relation is there, the next number of the sequence
    is unused and the store reads the decimal text of that number
    back, [create] succeeds; it returns the row's number and its
    text as id, the village and survey number of the data, the
    centroid of the 100 m buffer around the given point and the
    analysis members under the first clock reading; [findById] then
    returns the same object plus [stored_at], for the number and for
    the id text alike. *)
Theorem created_result_is_found_again (data : AnalysisResult) (savedAt storedAt : string)
        (st : Persistence) (rows : list ParcelRow) :
  ts_warangal_survey st = Some rows ->
  unusedGid (gid_seq st) rows = true ->
  int4in (Number_toString (gid_seq st)) = inr (gid_seq st) ->
  exists st',
    create data savedAt storedAt st = (st', inr (savedAs data (gid_seq st) savedAt))
    /\ findById (IdNumber (gid_seq st)) st'
       = (st', inr (Some (storedAs (savedAs data (gid_seq st) savedAt) storedAt)))
    /\ findById (IdString (saved_id (savedAs data (gid_seq st) savedAt))) st'
       = (st', inr (Some (storedAs (savedAs data (gid_seq st) savedAt) storedAt))).
Proof.
  intros T U P. exists (afterCreate st rows data savedAt storedAt).
  split; [now apply create_inserted|].
  split; now apply findById_created.
Qed.

Lemma create_cases (data : AnalysisResult) (savedAt storedAt : string) (st : Persistence) :
  int4in (Number_toString (gid_seq st)) = inr (gid_seq st) ->
  (ts_warangal_survey st = None
   /\ create data savedAt storedAt st
      = (st, inl (relationMissing "ts_warangal_survey")))
  \/ (exists rows,
         ts_warangal_survey st = Some rows
         /\ unusedGid (gid_seq st) rows = false
         /\ create data savedAt storedAt st
            = ({| ts_warangal_survey := Some rows;
                  gid_seq := gid_seq st + 1;
                  analysisStore := analysisStore st |}, inl duplicateKeyMessage))
  \/ (exists rows,
         ts_warangal_survey st = Some rows
         /\ unusedGid (gid_seq st) rows = true
         /\ create data savedAt storedAt st
            = (afterCreate st rows data savedAt storedAt,
               inr (savedAs data (gid_seq st) savedAt))).
Proof.
  intros P. destruct (ts_warangal_survey st) as [rows|] eqn:T.
  - right. destruct (unusedGid (gid_seq st) rows) eqn:U.
    + right. exists rows. split; [reflexivity|]. split; [exact U|].
      now apply create_inserted.
    + left. exists rows. split; [reflexivity|]. split; [exact U|].
      unfold create, sbind, insertSurvey. rewrite T. cbn [relation].
      unfold unusedGid in U. rewrite negb_false_iff in U. rewrite U. reflexivity.
  - left. split; [reflexivity|].
    unfold create, sbind, insertSurvey. rewrite T. reflexivity.
Qed.

(** X23: under the same reading of the number's text, a [create] that
    rejects has written neither a row nor an analysis: the relation
    is missing, or the next number of the sequence is already the
    number of a row. *)
Theorem failed_create_stores_nothing (data : AnalysisResult) (savedAt storedAt : string)
        (st st' : Persistence) (message : string) :
  int4in (Number_toString (gid_seq st)) = inr (gid_seq st) ->
  create data savedAt storedAt st = (st', inl message) ->
  analysisStore st' = analysisStore st
  /\ ts_warangal_survey st' = ts_warangal_survey st
  /\ (ts_warangal_survey st = None
      \/ exists rows r, ts_warangal_survey st = Some rows
                        /\ In r rows /\ gid r = gid_seq st).
Proof.
  intros P C.
  destruct (create_cases data savedAt storedAt st P)
    as [[T E]|[(rows & T & U & E)|(rows & T & U & E)]];
    rewrite E in C; inversion C; subst; clear C.
  - split; [reflexivity|]. split; [reflexivity|]. now left.
  - cbn. split; [reflexivity|]. split; [now rewrite T|].
    right. unfold unusedGid in U. rewrite negb_false_iff in U.
    apply existsb_exists in U. destruct U as (r & I & G).
    exists rows, r. split; [exact T|]. split; [exact I | now apply Z.eqb_eq].
Qed.

Lemma filter_gid_head (n : Z) (rows : list ParcelRow) (r : ParcelRow) (rest : list ParcelRow) :
  filter (fun r => Z.eqb (gid r) n) rows = r :: rest -> gid r = n.
Proof.
  intros F. assert (I : In r (filter (fun r => Z.eqb (gid r) n) rows)).
  { rewrite F. now left. }
  apply filter_In in I. now apply Z.eqb_eq.
Qed.

(** X24: a successful [create] does not touch the other results: an
    id that the store reads as a number other than the new row's gets
    the same answer from [findById] as before. *)
Theorem other_results_are_kept (data : AnalysisResult) (savedAt storedAt : string)
        (st st' : Persistence) (saved : SavedResult) (id : SurveyId) (m : Z) :
  int4in (Number_toString (gid_seq st)) = inr (gid_seq st) ->
  create data savedAt storedAt st = (st', inr saved) ->
  int4in (toString id) = inr m ->
  m <> saved_gid saved ->
  snd (findById id st') = snd (findById id st).
Proof.
  intros P C Pm D.
  destruct (create_cases data savedAt storedAt st P)
    as [[T E]|[(rows & T & U & E)|(rows & T & U & E)]];
    rewrite E in C; inversion C; subst; clear C.
  cbn [savedAs saved_gid] in D.
  unfold findById, sbind, selectResult, sbind, whereGid, afterCreate.
  cbn [ts_warangal_survey relation]. rewrite T. cbn [relation]. rewrite Pm.
  rewrite filter_app. cbn [filter gid].
  destruct (Z.eqb (gid_seq st) m) eqn:G; [apply Z.eqb_eq in G; congruence|].
  rewrite app_nil_r.
  destruct (filter (fun r => Z.eqb (gid r) m) rows) as [|r rest] eqn:F; [reflexivity|].
  cbn [map sret rr_gid storeGet analysisStore snd].
  unfold AnalysisStore.get, AnalysisStore.set. rewrite Map_get_set. cbn [toString].
  apply filter_gid_head in F.
  destruct (String.eqb (Number_toString (gid_seq st)) (Number_toString (gid r))) eqn:S.
  - apply String.eqb_eq, Number_toString_inj in S. congruence.
  - reflexivity.
Qed.

End Saved.

(** ** The routes *)

Section Routes.

Context {gis : PostGIS} {pg : PostgresSurvey}.

Lemma analysisFailed_shape (message : string) :
  statusCode (analysisFailed message) = 500%Z
  /\ exists e, payload (analysisFailed message) = ErrorBody e /\ e <> EmptyString.
Proof.
  split; [reflexivity|]. unfold analysisFailed. cbn.
  destruct (String.eqb_spec message EmptyString) as [E|E]; eexists; split;
    try reflexivity; [discriminate | exact E].
Qed.

(** X25: [analyzeSurvey] on the analysis service always answers.
    When the village or the survey number is missing or empty the
    answer is 400 with 'Village and survey number are required',
    without a call to any collaborator and with the store untouched;
    otherwise it is 200 or 500.  A body with a saved result always
    comes with 200, and an error body never does and never has an
    empty text. *)
Theorem analyze_survey_always_answers (w : World) (savedAt storedAt : string)
        (req : AnalyzeRequest) (st : Persistence) :
  exists effects st' res,
    analyzeSurvey w savedAt storedAt req st = Some (effects, st', res)
    /\ (if falsy (body_village req) || falsy (body_surveyNumber req)
        then res = respond 400 (ErrorBody "Village and survey number are required")
             /\ effects = [] /\ st' = st
        else statusCode res = 200%Z \/ statusCode res = 500%Z)
    /\ match payload res with
       | SuccessBody _ => statusCode res = 200%Z
       | ErrorBody e => statusCode res <> 200%Z /\ e <> EmptyString
       end.
Proof.
  unfold analyzeSurvey.
  destruct (falsy (body_village req) || falsy (body_surveyNumber req)) eqn:F.
  - do 3 eexists. split; [reflexivity|]. cbn.
    split; [auto|]. split; discriminate.
  - destruct (analyzeLocation_value w (textOf (body_village req))
                                    (textOf (body_surveyNumber req)))
      as (value & O & NE).
    rewrite O. destruct value as [r|e].
    + destruct (create r savedAt storedAt st) as [st' [message|saved]].
      * destruct (analysisFailed_shape message) as (S & e & P & N).
        do 3 eexists. split; [reflexivity|]. rewrite S, P.
        split; [auto|]. split; [discriminate | exact N].
      * do 3 eexists. split; [reflexivity|]. cbn. auto.
    + destruct (String.eqb_spec e EmptyString) as [E|E]; [elim (NE e eq_refl E)|].
      do 3 eexists. split; [reflexivity|]. cbn.
      split; [auto|]. split; [discriminate | exact E].
Qed.

(** X26: when the analysis answers with an error object (for one, for
    a village and survey number that no parcel has), the route answers
    500 with the same error text, having made the calls of the
    analysis and written nothing. *)
Theorem analysis_error_is_answered_with_500 (w : World) (savedAt storedAt : string)
        (req : AnalyzeRequest) (st : Persistence) (village surveyNumber error : string) :
  body_village req = Some village -> village <> EmptyString ->
  body_surveyNumber req = Some surveyNumber -> surveyNumber <> EmptyString ->
  outcome (analyzeLocation w village surveyNumber) = inr (ErrorObject error) ->
  analyzeSurvey w savedAt storedAt req st
  = Some (trace (analyzeLocation w village surveyNumber), st, respond 500 (ErrorBody error)).
Proof.
  intros V NV S NS O.
  unfold analyzeSurvey. rewrite V, S, (falsy_token _ NV), (falsy_token _ NS).
  cbn [orb textOf]. rewrite O.
  destruct (analyzeLocation_value w village surveyNumber) as (value & O' & NE).
  rewrite O in O'. injection O' as <-.
  destruct (String.eqb_spec error EmptyString) as [E|E]; [elim (NE error eq_refl E)|].
  reflexivity.
Qed.

Lemma result_names (w : World) (v s : string) (r : AnalysisResult) :
  outcome (analyzeLocation w v s) = inr (Analysis r) ->
  village r = v /\ survey_number r = s.
Proof.
  intros O. apply analyzeLocation_inv in O. destruct O. split; reflexivity.
Qed.

Lemma getSurveyResult_created (data : AnalysisResult) (savedAt storedAt : string)
      (st : Persistence) (rows : list ParcelRow) :
  unusedGid (gid_seq st) rows = true ->
  int4in (Number_toString (gid_seq st)) = inr (gid_seq st) ->
  getSurveyResult (Number_toString (gid_seq st)) (afterCreate st rows data savedAt storedAt)
  = (afterCreate st rows data savedAt storedAt,
     inr (respond 200 (SuccessBody (storedAs (savedAs data (gid_seq st) savedAt) storedAt)))).
Proof.
  intros U P. unfold getSurveyResult, sbind.
  rewrite (findById_created data savedAt storedAt st rows
             (IdString (Number_toString (gid_seq st))) U P).
  reflexivity.
Qed.

(** X27: when the analysis of a non-empty village and survey number
    gives a result, the relation of saved results is there, the next
    number of the sequence is unused and the store reads its decimal
    text back, the route answers 200 with the saved result: the
    requested village and survey number, the members of the analysis
    with the time of saving as [analysis_date], and the row's number
    as id; asking [getSurveyResult] for that id then answers 200 with
    the same result plus [stored_at]. *)
Theorem analysed_survey_is_saved_and_served (w : World) (savedAt storedAt : string)
        (req : AnalyzeRequest) (st : Persistence) (rows : list ParcelRow)
        (village surveyNumber : string) (r : AnalysisResult) :
  body_village req = Some village -> village <> EmptyString ->
  body_surveyNumber req = Some surveyNumber -> surveyNumber <> EmptyString ->
  outcome (analyzeLocation w village surveyNumber) = inr (Analysis r) ->
  ts_warangal_survey st = Some rows ->
  unusedGid (gid_seq st) rows = true ->
  int4in (Number_toString (gid_seq st)) = inr (gid_seq st) ->
  exists st' saved,
    analyzeSurvey w savedAt storedAt req st
    = Some (trace (analyzeLocation w village surveyNumber), st',
            respond 200 (SuccessBody saved))
    /\ saved_village saved = village
    /\ saved_survey_number saved = surveyNumber
    /\ saved_gid saved = gid_seq st
    /\ saved_analysis saved = Some (analysisDataOf r savedAt)
    /\ getSurveyResult (saved_id saved) st'
       = (st', inr (respond 200 (SuccessBody (storedAs saved storedAt)))).
Proof.
  intros V NV S NS O T U P.
  exists (afterCreate st rows r savedAt storedAt), (savedAs r (gid_seq st) savedAt).
  destruct (result_names w village surveyNumber r O) as [Rv Rs].
  split; [|split; [exact Rv|split; [exact Rs|split; [reflexivity|split; [reflexivity|]]]]].
  - unfold analyzeSurvey. rewrite V, S, (falsy_token _ NV), (falsy_token _ NS).
    cbn [orb textOf]. rewrite O.
    rewrite (create_inserted r savedAt storedAt st rows T U P). reflexivity.
  - now apply getSurveyResult_created.
Qed.

(** X28: when the analysis gives a result but the relation of saved
    results is not in the schema, the route answers 500 with the
    message of the store, after the calls of the analysis, and nothing
    is stored. *)
Theorem failed_save_is_answered_with_500 (w : World) (savedAt storedAt : string)
        (req : AnalyzeRequest) (st : Persistence)
        (village surveyNumber : string) (r : AnalysisResult) :
  body_village req = Some village -> village <> EmptyString ->
  body_surveyNumber req = Some surveyNumber -> surveyNumber <> EmptyString ->
  outcome (analyzeLocation w village surveyNumber) = inr (Analysis r) ->
  ts_warangal_survey st = None ->
  analyzeSurvey w savedAt storedAt req st
  = Some (trace (analyzeLocation w village surveyNumber), st,
          respond 500 (ErrorBody (relationMissing "ts_warangal_survey"))).
Proof.
  intros V NV S NS O T.
  unfold analyzeSurvey. rewrite V, S, (falsy_token _ NV), (falsy_token _ NS).
  cbn [orb textOf]. rewrite O.
  unfold create, sbind, insertSurvey. rewrite T. reflexivity.
Qed.

(** X29: on a store with the relation, for an id that the store reads
    as the number [n], [getSurveyResult] leaves the store as it is and
    answers 404 with 'Survey result not found' when no row has the
    number [n], whatever the in-memory store holds; otherwise it
    answers 200 with a result of that number, which carries analysis
    members exactly when the in-memory store has an entry for [n]. *)
Theorem missing_result_is_404 (id : string) (n : Z) (st : Persistence)
        (rows : list ParcelRow) :
  ts_warangal_survey st = Some rows ->
  int4in id = inr n ->
  exists res,
    getSurveyResult id st = (st, inr res)
    /\ (unusedGid n rows = true
        -> res = respond 404 (ErrorBody "Survey result not found"))
    /\ (unusedGid n rows = false
        -> exists found,
             res = respond 200 (SuccessBody found)
             /\ saved_gid found = n
             /\ (saved_analysis found = None
                 <-> AnalysisStore.has (analysisStore st) (IdNumber n) = false)).
Proof.
  intros T P.
  unfold getSurveyResult, findById, sbind, selectResult, sbind, whereGid.
  rewrite T. cbn [relation toString]. rewrite P.
  destruct (filter (fun r => Z.eqb (gid r) n) rows) as [|r rest] eqn:F.
  - eexists. split; [reflexivity|]. split; [reflexivity|].
    intros U. unfold unusedGid in U. rewrite negb_false_iff in U.
    apply existsb_exists in U. destruct U as (r & I & G).
    assert (I' : In r (filter (fun r => Z.eqb (gid r) n) rows)) by now apply filter_In.
    rewrite F in I'. destruct I'.
  - pose proof (filter_gid_head _ _ _ _ F) as G.
    eexists. split; [reflexivity|]. split.
    + intros U. rewrite (filter_gid_none _ _ U) in F. discriminate.
    + intros _. eexists. split; [reflexivity|]. cbn. split; [exact G|].
      rewrite G. unfold AnalysisStore.has, AnalysisStore.get, Map_has. cbn [toString].
      destruct (Map_get (analysisStore st) (Number_toString n)); cbn;
        split; intros; congruence.
Qed.

End Routes.

(** ** The properties on the planar store *)

Lemma percents_are_shares_witness :
  (forall a, In a (poi_breakdown Sample.scenario) ->
     (0 < count a <= total_pois Sample.scenario)%nat
     /\ exists p,
         percent a = Num p
         /\ 0 <= p <= 100
         /\ Qabs (p - ofNat (count a) / ofNat (total_pois Sample.scenario) * 100) <= 1 # 200)
  /\ (forall b, In b (supportive_businesses Sample.scenario) ->
        (0 < sb_count b <= Spec.supportive_total Sample.scenario)%nat
        /\ exists p,
            sb_percent b = Num p
            /\ 0 <= p <= 100
            /\ Qabs (p - ofNat (sb_count b) / ofNat (Spec.supportive_total Sample.scenario) * 100)
               <= 1 # 200).
Proof.
  apply (percents_are_shares Planar.world "Hanamkonda" "17" Sample.scenario).
  vm_compute. reflexivity.
Defined.


Lemma hazard_percentage_is_zero_or_from_nine_witness :
  (ftl_zone_percentage Sample.flooded = 0%Z
   /\ ftl_score (score_breakdown Sample.flooded) == 20)
  \/ ((9 <= ftl_zone_percentage Sample.flooded)%Z
      /\ ftl_score (score_breakdown Sample.flooded) <= 91 # 5).
Proof.
  apply (hazard_percentage_is_zero_or_from_nine Sample.floodedWorld "Hanamkonda" "17"
           Sample.flooded).
  vm_compute. reflexivity.
Defined.

Lemma breakdown_descends_by_count_witness :
  StronglySorted (fun a b => (count b <= count a)%nat) (poi_breakdown Sample.scenario)
  /\ StronglySorted (fun a b => (sb_count b <= sb_count a)%nat)
                    (supportive_businesses Sample.scenario).
Proof.
  apply (breakdown_descends_by_count Planar.world "Hanamkonda" "17" Sample.scenario).
  vm_compute. reflexivity.
Defined.


Lemma supportive_subset_of_breakdown_witness :
  map (fun b => (sb_category b, sb_count b)) (supportive_businesses Sample.scenario)
  = map (fun a => (category a, count a))
        (filter (fun a => includes SUPPORTIVE_CATEGORIES (category a))
                (poi_breakdown Sample.scenario))
  /\ (List.length (supportive_businesses Sample.scenario) <= 3)%nat
  /\ (Spec.supportive_total Sample.scenario <= total_pois Sample.scenario)%nat.
Proof.
  apply (supportive_subset_of_breakdown Planar.world "Hanamkonda" "17" Sample.scenario).
  vm_compute. reflexivity.
Defined.

Lemma inherited_label_fails_the_analysis_witness :
  includes objectPrototypeKeys (propertyKey (p_category Planar.nameless)) = false.
Proof.
  apply (inherited_label_fails_the_analysis Sample.unlabeledWorld "Hanamkonda" "17"
           Sample.withUnlabeled Planar.unlabeled Planar.nameless).
  - vm_compute. reflexivity.
  - reflexivity.
  - apply filter_In. split; [left; reflexivity | reflexivity].
Defined.

Lemma count_scores_reach_their_caps_witness :
  (poi_score (score_breakdown Sample.scenario) == 30
   <-> (100 <= total_pois Sample.scenario)%nat)
  /\ (business_score (score_breakdown Sample.scenario) == 15
      <-> (20 <= Spec.supportive_total Sample.scenario)%nat)
  /\ (accessibility_score (score_breakdown Sample.scenario) == 10
      <-> (15 <= List.length (poi_breakdown Sample.scenario))%nat).
Proof.
  apply (count_scores_reach_their_caps Planar.world "Hanamkonda" "17" Sample.scenario).
  vm_compute. reflexivity.
Defined.

Lemma nearer_facilities_never_lower_amenity_witness :
  amenityScore (Some {| distance_m := 7000; nf_lat := 0; nf_lon := 0 |}) None None
  <= amenityScore (Some {| distance_m := 2000; nf_lat := 0; nf_lon := 0 |}) None None
  /\ amenityScore None (Some {| distance_m := 7000; nf_lat := 0; nf_lon := 0 |}) None
     <= amenityScore None (Some {| distance_m := 2000; nf_lat := 0; nf_lon := 0 |}) None
  /\ amenityScore None None (Some {| distance_m := 7000; nf_lat := 0; nf_lon := 0 |})
     <= amenityScore None None (Some {| distance_m := 2000; nf_lat := 0; nf_lon := 0 |})
  /\ amenityScore None None None
     <= amenityScore (Some {| distance_m := 2000; nf_lat := 0; nf_lon := 0 |}) None None
  /\ amenityScore None None None
     <= amenityScore None (Some {| distance_m := 2000; nf_lat := 0; nf_lon := 0 |}) None
  /\ amenityScore None None None
     <= amenityScore None None (Some {| distance_m := 2000; nf_lat := 0; nf_lon := 0 |}).
Proof.
  apply (nearer_facilities_never_lower_amenity
           {| distance_m := 2000; nf_lat := 0; nf_lon := 0 |}
           {| distance_m := 7000; nf_lat := 0; nf_lon := 0 |}
           {| distance_m := 2000; nf_lat := 0; nf_lon := 0 |}
           {| distance_m := 7000; nf_lat := 0; nf_lon := 0 |}
           {| distance_m := 2000; nf_lat := 0; nf_lon := 0 |}
           {| distance_m := 7000; nf_lat := 0; nf_lon := 0 |}
           None None None); discriminate.
Defined.

Lemma far_facilities_score_as_missing_witness :
  amenityScore (Some {| distance_m := 12000; nf_lat := 0; nf_lon := 0 |}) None None
  == amenityScore None None None
  /\ amenityScore None (Some {| distance_m := 10000; nf_lat := 0; nf_lon := 0 |}) None
     == amenityScore None None None
  /\ amenityScore None None (Some {| distance_m := 5000; nf_lat := 0; nf_lon := 0 |})
     == amenityScore None None None
  /\ amenityScore (Some {| distance_m := 12000; nf_lat := 0; nf_lon := 0 |})
                  (Some {| distance_m := 10000; nf_lat := 0; nf_lon := 0 |})
                  (Some {| distance_m := 5000; nf_lat := 0; nf_lon := 0 |}) == 0.
Proof.
  apply (far_facilities_score_as_missing
           {| distance_m := 12000; nf_lat := 0; nf_lon := 0 |}
           {| distance_m := 10000; nf_lat := 0; nf_lon := 0 |}
           {| distance_m := 5000; nf_lat := 0; nf_lon := 0 |}
           None None None); discriminate.
Defined.

Lemma nearest_feature_minimises_knn_distance_witness :
  match nearestOf Police Sample.scenario with
  | None => [Planar.Pt 0 (-7000); Planar.Pt 2000 0] = []
  | Some f =>
      exists g : @geometry Planar.planarGIS,
        In g [Planar.Pt 0 (-7000); Planar.Pt 2000 0]
        /\ f = {| distance_m := ST_Distance (to_geography (c_geom Planar.home))
                                            (to_geography g);
                  nf_lat := ST_Y g;
                  nf_lon := ST_X g |}
        /\ forall h : @geometry Planar.planarGIS,
            In h [Planar.Pt 0 (-7000); Planar.Pt 2000 0] ->
            knn_distance (c_geom Planar.home) g <= knn_distance (c_geom Planar.home) h
  end.
Proof.
  apply (nearest_feature_minimises_knn_distance Planar.world "Hanamkonda" "17"
           Sample.scenario Planar.home [] Police [Planar.Pt 0 (-7000); Planar.Pt 2000 0]).
  - vm_compute. reflexivity.
  - reflexivity.
  - reflexivity.
Defined.

Lemma external_calls_of_an_analysis_witness :
  trace (analyzeLocation Sample.routingDown "Hanamkonda" "17")
  = [PoolQuery (SelectCentroid "Hanamkonda" "17");
     Fetch {| req_longitude := longitude Sample.scenario;
              req_latitude := latitude Sample.scenario;
              contours_minutes := 10; denoise := 1; access_token := "pk.test" |}]
    ++ [PoolQuery (SelectBuffer 1000 "Hanamkonda" "17")]
    ++ [PoolQuery (SelectPois (isochrone_geometry (map_data PlanarStore.detour)));
        PoolQuery (SelectNearest "ts_policestations" "Hanamkonda" "17");
        PoolQuery (SelectNearest "ts_hospitals" "Hanamkonda" "17");
        PoolQuery (SelectNearest "ts_main_roads" "Hanamkonda" "17");
        PoolQuery (SelectFtl (isochrone_geometry (map_data PlanarStore.detour)));
        PoolQuery (SelectTanksGeometry (isochrone_geometry (map_data PlanarStore.detour)))].
Proof.
  apply (external_calls_of_an_analysis Sample.routingDown "Hanamkonda" "17"
           PlanarStore.detour "pk.test").
  - vm_compute. reflexivity.
  - reflexivity.
Defined.

Lemma valid_isochrone_is_used_witness :
  (forall r, outcome (analyzeLocation Planar.world "Hanamkonda" "17") = inr (Analysis r) ->
             used_fallback r = false
             /\ isochrone_geometry (map_data r) = PlanarStore.answered)
  /\ (storeReady (pool Planar.world) = true ->
      exists r, outcome (analyzeLocation Planar.world "Hanamkonda" "17")
                = inr (Analysis r)).
Proof.
  apply (valid_isochrone_is_used Planar.world "Hanamkonda" "17" Planar.home []
           "pk.test" PlanarStore.answered).
  - reflexivity.
  - reflexivity.
  - discriminate.
  - eapply answers_polygon; try reflexivity. left. reflexivity.
Defined.

Lemma tank_features_follow_the_intersection_witness :
  exists tanks fc,
    ts_tanks (pool Sample.floodedWorld) = Some tanks
    /\ tanks_geometry (map_data Sample.flooded) = Some fc
    /\ (fc_features fc = None
        <-> intersectingTanks (isochrone_geometry (map_data Sample.flooded)) tanks = [])
    /\ (forall fs, fc_features fc = Some fs ->
                   fs = map ST_AsGeoJSON
                            (intersectingTanks (isochrone_geometry (map_data Sample.flooded))
                                               tanks))
    /\ (fc_features fc = None -> ftl_zone_percentage Sample.flooded = 0%Z).
Proof.
  apply (tank_features_follow_the_intersection Sample.floodedWorld "Hanamkonda" "17"
           Sample.flooded).
  vm_compute. reflexivity.
Defined.

Lemma score_within_0_and_90_witness :
  0 <= RadiusService.score
         (RadiusService.calculateDevelopmentScore
            40 [("Retail"%string, 5%nat)] (Some 2) (Some 3) None 25) <= 90
  /\ 0 <= RadiusService.poi_score
            (RadiusService.breakdown
               (RadiusService.calculateDevelopmentScore
                  40 [("Retail"%string, 5%nat)] (Some 2) (Some 3) None 25)) <= 40
  /\ 0 <= RadiusService.supportive_businesses_score
            (RadiusService.breakdown
               (RadiusService.calculateDevelopmentScore
                  40 [("Retail"%string, 5%nat)] (Some 2) (Some 3) None 25)) <= 20
  /\ 0 <= RadiusService.police_distance_score
            (RadiusService.breakdown
               (RadiusService.calculateDevelopmentScore
                  40 [("Retail"%string, 5%nat)] (Some 2) (Some 3) None 25)) <= 10
  /\ 0 <= RadiusService.hospital_distance_score
            (RadiusService.breakdown
               (RadiusService.calculateDevelopmentScore
                  40 [("Retail"%string, 5%nat)] (Some 2) (Some 3) None 25)) <= 10
  /\ 0 <= RadiusService.road_distance_score
            (RadiusService.breakdown
               (RadiusService.calculateDevelopmentScore
                  40 [("Retail"%string, 5%nat)] (Some 2) (Some 3) None 25)) <= 10.
Proof.
  apply (RadiusFacts.score_within_0_and_90
           40 [("Retail"%string, 5%nat)] (Some 2) (Some 3) None 25).
  discriminate.
Defined.

Lemma score_is_monotone_witness :
  RadiusService.score
    (RadiusService.calculateDevelopmentScore 10 [] (Some 4) (Some 1) None 0)
  <= RadiusService.score
       (RadiusService.calculateDevelopmentScore 10 [] (Some 2) (Some 1) None 0)
  /\ RadiusService.score
       (RadiusService.calculateDevelopmentScore 10 [] (Some 3) (Some 4) None 0)
     <= RadiusService.score
          (RadiusService.calculateDevelopmentScore 10 [] (Some 3) (Some 2) None 0)
  /\ RadiusService.score
       (RadiusService.calculateDevelopmentScore 10 [] (Some 3) (Some 1) (Some 4) 0)
     <= RadiusService.score
          (RadiusService.calculateDevelopmentScore 10 [] (Some 3) (Some 1) (Some 2) 0)
  /\ RadiusService.score
       (RadiusService.calculateDevelopmentScore 10 [] None (Some 1) None 0)
     <= RadiusService.score
          (RadiusService.calculateDevelopmentScore 10 [] (Some 2) (Some 1) None 0)
  /\ RadiusService.score
       (RadiusService.calculateDevelopmentScore 10 [] (Some 3) None None 0)
     <= RadiusService.score
          (RadiusService.calculateDevelopmentScore 10 [] (Some 3) (Some 2) None 0)
  /\ RadiusService.score
       (RadiusService.calculateDevelopmentScore 10 [] (Some 3) (Some 1) None 0)
     <= RadiusService.score
          (RadiusService.calculateDevelopmentScore 10 [] (Some 3) (Some 1) (Some 2) 0)
  /\ RadiusService.score
       (RadiusService.calculateDevelopmentScore 10 [] (Some 3) (Some 1) None 0)
     <= RadiusService.score
          (RadiusService.calculateDevelopmentScore 30 [] (Some 3) (Some 1) None 0)
  /\ RadiusService.score
       (RadiusService.calculateDevelopmentScore 10 [] (Some 3) (Some 1) None 20)
     <= RadiusService.score
          (RadiusService.calculateDevelopmentScore 10 [] (Some 3) (Some 1) None 0).
Proof.
  apply (RadiusFacts.score_is_monotone 10 30 [] (Some 3) (Some 1) None 2 4 0 20).
  - discriminate.
  - lia.
  - discriminate.
Defined.

#[local] Existing Instance Planar.planarGIS.
#[local] Existing Instance PlanarStore.planarSurvey.


Lemma created_result_is_found_again_witness :
  exists st',
    create Sample.scenario PlanarStore.savedAt PlanarStore.storedAt PlanarStore.fresh
    = (st', inr (savedAs Sample.scenario (gid_seq PlanarStore.fresh) PlanarStore.savedAt))
    /\ findById (IdNumber (gid_seq PlanarStore.fresh)) st'
       = (st', inr (Some (storedAs (savedAs Sample.scenario (gid_seq PlanarStore.fresh)
                                            PlanarStore.savedAt)
                                   PlanarStore.storedAt)))
    /\ findById (IdString (saved_id (savedAs Sample.scenario (gid_seq PlanarStore.fresh)
                                             PlanarStore.savedAt))) st'
       = (st', inr (Some (storedAs (savedAs Sample.scenario (gid_seq PlanarStore.fresh)
                                            PlanarStore.savedAt)
                                   PlanarStore.storedAt))).
Proof.
  apply (created_result_is_found_again Sample.scenario PlanarStore.savedAt
           PlanarStore.storedAt PlanarStore.fresh []).
  - reflexivity.
  - reflexivity.
  - reflexivity.
Defined.

Lemma failed_create_stores_nothing_witness :
  analysisStore PlanarStore.noRelation = analysisStore PlanarStore.noRelation
  /\ ts_warangal_survey PlanarStore.noRelation = ts_warangal_survey PlanarStore.noRelation
  /\ (ts_warangal_survey PlanarStore.noRelation = None
      \/ exists rows r, ts_warangal_survey PlanarStore.noRelation = Some rows
                        /\ In r rows /\ gid r = gid_seq PlanarStore.noRelation).
Proof.
  apply (failed_create_stores_nothing Sample.scenario PlanarStore.savedAt
           PlanarStore.storedAt PlanarStore.noRelation PlanarStore.noRelation
           (relationMissing "ts_warangal_survey")).
  - reflexivity.
  - reflexivity.
Defined.

Lemma other_results_are_kept_witness :
  snd (findById (IdString "1") PlanarStore.twice)
  = snd (findById (IdString "1") PlanarStore.once).
Proof.
  apply (other_results_are_kept Sample.remote PlanarStore.savedAt PlanarStore.storedAt
           PlanarStore.once PlanarStore.twice
           (savedAs Sample.remote 2 PlanarStore.savedAt) (IdString "1") 1).
  - reflexivity.
  - reflexivity.
  - reflexivity.
  - discriminate.
Defined.

Lemma analysis_error_is_answered_with_500_witness :
  analyzeSurvey Planar.world PlanarStore.savedAt PlanarStore.storedAt
                PlanarStore.unknownRequest PlanarStore.fresh
  = Some (trace (analyzeLocation Planar.world "Hanamkonda" "99"), PlanarStore.fresh,
          respond 500 (ErrorBody notFoundMessage)).
Proof.
  apply (analysis_error_is_answered_with_500 Planar.world PlanarStore.savedAt
           PlanarStore.storedAt PlanarStore.unknownRequest PlanarStore.fresh
           "Hanamkonda" "99" notFoundMessage).
  - reflexivity.
  - discriminate.
  - reflexivity.
  - discriminate.
  - reflexivity.
Defined.

Lemma analysed_survey_is_saved_and_served_witness :
  exists st' saved,
    analyzeSurvey Planar.world PlanarStore.savedAt PlanarStore.storedAt
                  PlanarStore.request PlanarStore.fresh
    = Some (trace (analyzeLocation Planar.world "Hanamkonda" "17"), st',
            respond 200 (SuccessBody saved))
    /\ saved_village saved = "Hanamkonda"%string
    /\ saved_survey_number saved = "17"%string
    /\ saved_gid saved = gid_seq PlanarStore.fresh
    /\ saved_analysis saved = Some (analysisDataOf Sample.scenario PlanarStore.savedAt)
    /\ getSurveyResult (saved_id saved) st'
       = (st', inr (respond 200 (SuccessBody (storedAs saved PlanarStore.storedAt)))).
Proof.
  apply (analysed_survey_is_saved_and_served Planar.world PlanarStore.savedAt
           PlanarStore.storedAt PlanarStore.request PlanarStore.fresh []
           "Hanamkonda" "17" Sample.scenario).
  - reflexivity.
  - discriminate.
  - reflexivity.
  - discriminate.
  - vm_compute. reflexivity.
  - reflexivity.
  - reflexivity.
  - reflexivity.
Defined.

Lemma failed_save_is_answered_with_500_witness :
  analyzeSurvey Planar.world PlanarStore.savedAt PlanarStore.storedAt
                PlanarStore.request PlanarStore.noRelation
  = Some (trace (analyzeLocation Planar.world "Hanamkonda" "17"), PlanarStore.noRelation,
          respond 500 (ErrorBody (relationMissing "ts_warangal_survey"))).
Proof.
  apply (failed_save_is_answered_with_500 Planar.world PlanarStore.savedAt
           PlanarStore.storedAt PlanarStore.request PlanarStore.noRelation
           "Hanamkonda" "17" Sample.scenario).
  - reflexivity.
  - discriminate.
  - reflexivity.
  - discriminate.
  - vm_compute. reflexivity.
  - reflexivity.
Defined.

Lemma missing_result_is_404_witness :
  exists res,
    getSurveyResult "5" PlanarStore.fresh = (PlanarStore.fresh, inr res)
    /\ (unusedGid 5 (@nil (@ParcelRow Planar.planarGIS)) = true
        -> res = respond 404 (ErrorBody "Survey result not found"))
    /\ (unusedGid 5 (@nil (@ParcelRow Planar.planarGIS)) = false
        -> exists found,
             res = respond 200 (SuccessBody found)
             /\ saved_gid found = 5%Z
             /\ (saved_analysis found = None
                 <-> AnalysisStore.has (analysisStore PlanarStore.fresh) (IdNumber 5)
                     = false)).
Proof.
  apply (missing_result_is_404 "5" 5 PlanarStore.fresh []).
  - reflexivity.
  - reflexivity.
Defined.
